(** * RPiKeyboardConfig: the protocol/session layer of keyboard.py

    A shallow embedding of [src/RPiKeyboardConfig/keyboard.py] (and of the
    part of [effects.py] it calls), followed by the properties of the
    command engine, the matrix/keycode subsystem, the lighting subsystem
    and the unlock handshake.

    Conventions.
    - A Python [bytes] object, and a list of ints about to be turned into
      one, is a [list Z]; a value is a byte when [0 <= b < 256].
    - The HID device is a state machine ([Transport]); every frame handed
      to [Device.write] is also appended to the ghost trace [written].
    - [print] appends to [stdout]; [time.sleep] bumps [slept].
    - LED objects live in an object store [heap], addressed by reference;
      the session's [_led_map] is a list of references, so that two lists
      holding the same LED objects alias, as they do in Python.
    - A Python exception is an [exn]; a [while] loop that need not
      terminate takes fuel and yields [OutOfFuel] when it runs out.
    - A matrix position [row, col] is a pair of naturals, as in the
      static tables and in the bytes the device reports.
    - [Device.write] and [Device.read] do not fail: the HIDException of a
      broken transport is outside the model.
    - The module [switch_matrix] is not among the sources: its tables
      are a parameter ([switch_matrix_module]) and its one function is
      modelled from the specification ([convert_switch_matrix]). *)

From Stdlib Require Import ZArith Lia Ascii String.
From stdpp Require Import base tactics option list numbers strings functions.

Open Scope Z_scope.

(** ** Constants of keyboard.py *)

Definition MSG_LEN : nat := 32.
Definition VIALRGB_EFFECT_SKIP : Z := 0xFFFF.

Definition CMD_GET_PROTOCOL_VERSION : Z := 0x01.
Definition CMD_GET_KEYBOARD_VALUE : Z := 0x02.
Definition CMD_SET_KEYBOARD_VALUE : Z := 0x03.
Definition CMD_VIA_DYNAMIC_KEYMAP_GET_KEYCODE : Z := 0x04.
Definition CMD_VIA_DYNAMIC_KEYMAP_SET_KEYCODE : Z := 0x05.
Definition CMD_VIA_DYNAMIC_KEYMAP_RESET : Z := 0x06.
Definition CMD_LIGHTING_SET_VALUE : Z := 0x07.
Definition CMD_LIGHTING_GET_VALUE : Z := 0x08.
Definition CMD_VIAL_COMMAND : Z := 0xFE.
Definition CMD_RPI_COMMAND : Z := 0xFC.

Definition KEYBOARD_VALUE_GET_SWITCH_MATRIX_STATE : Z := 0x03.

Definition VIAL_GET_UNLOCK_STATUS : Z := 0x05.
Definition VIAL_UNLOCK_START : Z := 0x06.
Definition VIAL_UNLOCK_POLL : Z := 0x07.
Definition VIAL_LOCK : Z := 0x08.

Definition VIALRGB_GET_SUPPORTED : Z := 0x42.
Definition VIALRGB_DIRECT_FASTSET : Z := 0x42.

Definition RPI_CMD_GET_CURRENT_MODE_INDEX : Z := 0x03.
Definition RPI_CMD_SET_CURRENT_MODE_INDEX : Z := 0x04.
Definition RPI_CMD_GET_MODE : Z := 0x05.
Definition RPI_CMD_SET_MODE : Z := 0x06.
Definition RPI_CMD_GET_CURRENT_DIRECT_LEDS : Z := 0x0B.
Definition RPI_CMD_GET_SAVED_DIRECT_LEDS : Z := 0x0C.

(** ** Bytes, slices and the [struct] formats the module uses *)

Definition is_byte (b : Z) : bool := (0 <=? b) && (b <? 256).

(** [l[a:b]] for non-negative bounds. *)
Definition slice {A} (l : list A) (a b : nat) : list A :=
  take (b - a) (drop a l).

(** [int.from_bytes(l, byteorder="big")]. *)
Definition from_bytes_big (l : list Z) : Z :=
  fold_left (fun acc b => acc * 256 + b) l 0.

(** [int.from_bytes(l, byteorder="little")]. *)
Fixpoint from_bytes_little (l : list Z) : Z :=
  match l with
  | [] => 0
  | b :: l' => b + 256 * from_bytes_little l'
  end.

(** [n.to_bytes(1, byteorder="little")]; [None] is OverflowError. *)
Definition to_bytes1 (n : Z) : option (list Z) :=
  if is_byte n then Some [n] else None.

(** [n.to_bytes(2, byteorder="little")]; [None] is OverflowError. *)
Definition to_bytes2_little (n : Z) : option (list Z) :=
  if (0 <=? n) && (n <? 65536) then Some [n mod 256; n / 256] else None.

(** [struct.pack] of one [B] field and of one [H] field; [None] is
    struct.error (argument out of range). *)
Definition pack_B (n : Z) : option (list Z) :=
  if is_byte n then Some [n] else None.

Definition pack_H_little (n : Z) : option (list Z) :=
  if (0 <=? n) && (n <? 65536) then Some [n mod 256; n / 256] else None.

Definition pack_H_big (n : Z) : option (list Z) :=
  if (0 <=? n) && (n <? 65536) then Some [n / 256; n mod 256] else None.

(** [struct.pack] of a sequence of [B] fields. *)
Fixpoint pack_Bs (l : list Z) : option (list Z) :=
  match l with
  | [] => Some []
  | n :: l' =>
      match pack_B n, pack_Bs l' with
      | Some a, Some b => Some (a ++ b)
      | _, _ => None
      end
  end.

(** [struct.unpack] with [k] fields [B]: the buffer must hold exactly
    [k] bytes, otherwise struct.error ([None]). *)
Definition unpack_Bs (k : nat) (buf : list Z) : option (list Z) :=
  if (length buf =? k)%nat then Some buf else None.

(** Cut a buffer into words of [w] bytes, [rows] of them. *)
Fixpoint chunks (w rows : nat) (buf : list Z) : list (list Z) :=
  match rows with
  | O => []
  | S r => take w buf :: chunks w r (drop w buf)
  end.

(** [struct.unpack(f">{rows}B" / "H" / "I", buf)] for a word of [w]
    bytes, big-endian. *)
Definition unpack_words_big (w rows : nat) (buf : list Z) : option (list Z) :=
  if (length buf =? rows * w)%nat
  then Some (from_bytes_big <$> chunks w rows buf)
  else None.

(** [struct.unpack("<15H", buf)]. *)
Definition unpack_words_little (w rows : nat) (buf : list Z) : option (list Z) :=
  if (length buf =? rows * w)%nat
  then Some (from_bytes_little <$> chunks w rows buf)
  else None.

(** ** Exceptions, output and the object store *)

Inductive exn : Type :=
| StructError               (* struct.error *)
| OverflowError             (* int.to_bytes out of range *)
| ValueError                (* bytes(...) of a non-byte, max() of nothing,
                               position not found *)
| IndexError
| TypeError                 (* iterating None *)
| KeyboardNotCompatibleError (msg : string)
| PlainException (msg : string).  (* raise Exception(...) *)

Inductive outcome (A : Type) : Type :=
| Return (a : A)
| Raise (e : exn)
| OutOfFuel.
Arguments Return {A} a.
Arguments Raise {A} e.
Arguments OutOfFuel {A}.

Definition position : Type := nat * nat.   (* [row, col] *)
Definition hsv : Type := Z * Z * Z.        (* (hue, saturation, value) *)

(** What [print] was called with. Literal texts are kept as they are; a
    formatted line keeps the values it was formatted from. *)
Inductive printed : Type :=
| Text (s : string)
| NotResponding (raw_data : list Z)
| KeyWithCode (key : position) (keycode : Z)
| KeyPlain (key : position)
| UnlockCounter (unlock_counter : Z)
| Cell (matrix : position) (col : Z)
| CursorHome.

Record LED : Type := mkLED {
  idx : nat;
  x : Z;
  y : Z;
  flags : Z;
  matrix : position;
  colour : hsv
}.

Definition with_colour (led : LED) (c : hsv) : LED :=
  mkLED (idx led) (x led) (y led) (flags led) (matrix led) c.

(** ** The transport and the world *)

(** [hid.Device]: [write] hands a report to the device, [read] asks for
    at most [size] bytes and may return fewer (none on timeout). *)
Record Transport : Type := mkTransport {
  dev : Type;
  dev_write : dev -> list Z -> dev;
  dev_read : dev -> nat -> dev * list Z
}.

Record world (T : Transport) : Type := mkWorld {
  device : dev T;
  written : list (list Z);
  stdout : list printed;
  heap : nat -> LED;
  slept : nat
}.
Arguments mkWorld {T}.
Arguments device {T}.
Arguments written {T}.
Arguments stdout {T}.
Arguments heap {T}.
Arguments slept {T}.

Definition M (T : Transport) (A : Type) : Type :=
  world T -> outcome A * world T.

Definition ret {T A} (a : A) : M T A := fun w => (Return a, w).

Definition raise {T A} (e : exn) : M T A := fun w => (Raise e, w).

Definition out_of_fuel {T A} : M T A := fun w => (OutOfFuel, w).

Definition bind {T A B} (m : M T A) (k : A -> M T B) : M T B :=
  fun w =>
    match m w with
    | (Return a, w') => k a w'
    | (Raise e, w') => (Raise e, w')
    | (OutOfFuel, w') => (OutOfFuel, w')
    end.

Notation "'let*' x ':=' m 'in' k" := (bind m (fun x => k))
  (at level 10, x pattern, m at level 100, k at level 200, only parsing).

(** Lift a partial computation, raising [e] where it fails. *)
Definition try {T A} (o : option A) (e : exn) : M T A :=
  match o with
  | Some a => ret a
  | None => raise e
  end.

Definition print {T} (p : printed) : M T unit :=
  fun w => (Return tt,
            mkWorld (device w) (written w) (stdout w ++ [p]) (heap w) (slept w)).

Definition sleep {T} : M T unit :=
  fun w => (Return tt,
            mkWorld (device w) (written w) (stdout w) (heap w) (S (slept w))).

Definition device_write {T} (data : list Z) : M T unit :=
  fun w => (Return tt,
            mkWorld (dev_write T (device w) data) (written w ++ [data])
                    (stdout w) (heap w) (slept w)).

Definition device_read {T} (size : nat) : M T (list Z) :=
  fun w =>
    let '(d, data) := dev_read T (device w) size in
    (Return data, mkWorld d (written w) (stdout w) (heap w) (slept w)).

Definition get_led {T} (r : nat) : M T LED :=
  fun w => (Return (heap w r), w).

Definition set_colour {T} (r : nat) (c : hsv) : M T unit :=
  fun w => (Return tt,
            mkWorld (device w) (written w) (stdout w)
                    (<[r := with_colour (heap w r) c]> (heap w)) (slept w)).

(** ** Report codec and command engine *)

(** The [struct.pack] call of [_send_command]: the format
    [<B{n}s{32-n}x] is malformed when [n > 32] (struct.error). *)
Definition pad_report (command_data : list Z) : option (list Z) :=
  if (length command_data <=? MSG_LEN)%nat
  then Some (0 :: command_data
               ++ replicate (MSG_LEN - length command_data) 0)
  else None.

(** [_send_command]. [bytes(command)] raises ValueError on a non-byte. *)
Definition _send_command {T} (command : list Z) : M T (list Z) :=
  let* command_data := try (if forallb is_byte command then Some command else None)
                      ValueError in
  let* padded_command := try (pad_report command_data) StructError in
  let* _ := device_write padded_command in
  device_read MSG_LEN.

Definition flush_limit : nat := 5.

(** [rsubcmd != subcmd], where either side may be [None]. *)
Definition opt_neqb (a b : option Z) : bool :=
  match a, b with
  | Some u, Some v => negb (u =? v)
  | None, None => false
  | _, _ => true
  end.

(** [struct.unpack("<BB", raw_data[0:2])]. *)
Definition unpack_BB (buf : list Z) : option (Z * Z) :=
  match buf with
  | [a; b] => Some (a, b)
  | _ => None
  end.

(** The [while] loop of [_send_check_command]. *)
Fixpoint check_loop {T} (fuel : nat) (payload : list Z) (cmd : Z)
    (subcmd : option Z) (raw_data : list Z) (rcmd : Z) (rsubcmd : option Z)
    (flush_count : nat) : M T (list Z) :=
  if negb (rcmd =? cmd) || opt_neqb rsubcmd subcmd then
    match fuel with
    | O => out_of_fuel
    | S fuel' =>
        let* raw_data := _send_command payload in
        let* (rcmd, rsubcmd) := try (unpack_BB (slice raw_data 0 2)) StructError in
        let flush_count := S flush_count in
        if (flush_limit <? flush_count)%nat then
          let* _ := print (NotResponding raw_data) in
          raise (KeyboardNotCompatibleError
                   "Keyboard is not responding as expected.")
        else
          check_loop fuel' payload cmd subcmd raw_data rcmd (Some rsubcmd)
                     flush_count
    end
  else ret raw_data.

(** [_send_check_command]. The loop body runs at most [flush_limit + 1]
    times, which is the fuel it gets (see [send_check_fuel]). *)
Definition _send_check_command {T} (cmd : Z) (subcmd : option Z)
    (data : option (list Z)) : M T (list Z) :=
  let* payload := try (to_bytes1 cmd) OverflowError in
  let* payload :=
    match subcmd with
    | Some s => let* b := try (to_bytes1 s) OverflowError in ret (payload ++ b)
    | None => ret payload
    end in
  let payload := match data with
                 | Some d => payload ++ d
                 | None => payload
                 end in
  let* raw_data := _send_command payload in
  let* (rcmd, rsubcmd) :=
    match subcmd with
    | None =>
        let* r := try (unpack_Bs 1 (slice raw_data 0 1)) StructError in
        ret (nth 0 r 0, None)
    | Some _ =>
        let* (a, b) := try (unpack_BB (slice raw_data 0 2)) StructError in
        ret (a, Some b)
    end in
  check_loop (S flush_limit) payload cmd subcmd raw_data rcmd rsubcmd 0.

(** ** The session *)

Inductive model_t : Type := PI500 | PI500PLUS.
Inductive variant_t : Type := ISO | ANSI | JIS.

#[global] Instance model_eq_dec : EqDecision model_t.
Proof. solve_decision. Defined.

(** The fields of [RPiKeyboardConfig] that the operations read. They are
    assigned during [__init__] and never changed afterwards; the colours
    of the LED objects that [_led_map] refers to live in the [heap]. *)
Record session : Type := mkSession {
  model : model_t;
  variant : option variant_t;
  switch_matrix : option (list position);
  conversion_switch_matrix : option (list position);
  _led_map : list nat
}.

(** The constants that keyboard.py imports from the module
    [switch_matrix], which is not part of the sources at hand: their
    contents are a parameter of the development. *)
Record switch_matrix_module : Type := mkTables {
  SWITCH_MATRIX_PI500 : list position;
  SWITCH_MATRIX_CONVERSION_PI500_ISO : list position;
  SWITCH_MATRIX_PI500PLUS_ISO : list position;
  SWITCH_MATRIX_PI500PLUS_ANSI : list position;
  SWITCH_MATRIX_PI500PLUS_JIS : list position
}.

(** First index at which [p] occurs in [l] ([list.index]). *)
Fixpoint index_of (p : position) (l : list position) : option nat :=
  match l with
  | [] => None
  | q :: l' => if decide (q = p) then Some O else S <$> index_of p l'
  end.

(** Modelled from the spec: [convert_switch_matrix] of the absent module
    [switch_matrix]. The spec describes the conversion table as a
    bijection between the positions callers use and the positions on the
    wire, given as a table parallel to the ordered switch matrix map and
    used in both directions; an unknown position is an error. So a
    position is looked up in the table it comes from and the entry at the
    same place of the other table is returned. [None] is that error. *)
Definition convert_switch_matrix (p : position)
    (from_matrix to_matrix : list position) : option position :=
  match index_of p from_matrix with
  | Some i => to_matrix !! i
  | None => None
  end.

(** [get_pi_country_code], on the byte read from the device tree. *)
Definition get_pi_country_code (country_code : Z) : variant_t :=
  if (country_code =? 4) || (country_code =? 14) || (country_code =? 16)
  then ANSI
  else if country_code =? 7 then JIS
  else ISO.

(** The LED objects that [__init__] makes for the PI500: 6 x 16, row
    major, all black. *)
Definition pi500_leds : list LED :=
  (fun i => mkLED i 0 0 0 (i / 16, i mod 16)%nat (0, 0, 0)) <$> seq 0 (6 * 16).

(** The part of [__init__] that chooses the tables (lines 200-221):
    [model] and [product_variant] are what [_get_hid_interface] read from
    the product string, [country_code] what [get_pi_country_code]
    returned. The result is [(variant, switch_matrix,
    conversion_switch_matrix)]. *)
Definition init_tables (tbl : switch_matrix_module) (model : model_t)
    (product_variant : option variant_t) (country_code : variant_t)
    : option variant_t * option (list position) * option (list position) :=
  match model with
  | PI500 =>
      let conversion :=
        match country_code with
        | ANSI => SWITCH_MATRIX_CONVERSION_PI500_ISO tbl
        | JIS => SWITCH_MATRIX_CONVERSION_PI500_ISO tbl
        | ISO => SWITCH_MATRIX_CONVERSION_PI500_ISO tbl
        end in
      (Some country_code, Some (SWITCH_MATRIX_PI500 tbl), Some conversion)
  | PI500PLUS =>
      let switch_matrix :=
        match product_variant with
        | Some ISO => Some (SWITCH_MATRIX_PI500PLUS_ISO tbl)
        | Some ANSI => Some (SWITCH_MATRIX_PI500PLUS_ANSI tbl)
        | Some JIS => Some (SWITCH_MATRIX_PI500PLUS_JIS tbl)
        | None => None
        end in
      (product_variant, switch_matrix, None)
  end.

(** The session that [__init__] leaves behind, given the references of
    the LED objects it created. *)
Definition session_of (tbl : switch_matrix_module) (model : model_t)
    (product_variant : option variant_t) (country_code : variant_t)
    (led_refs : list nat) : session :=
  let '(v, sm, conv) := init_tables tbl model product_variant country_code in
  mkSession model v sm conv led_refs.

(** Using [self.switch_matrix] where it is still [None]. *)
Definition the_switch_matrix {T} (self : session) : M T (list position) :=
  try (switch_matrix self) TypeError.

(** ** Matrix / keycode subsystem *)

(** [struct.unpack(">BBBH", buf)]. *)
Definition unpack_BBBH_big (buf : list Z) : option (Z * Z * Z * Z) :=
  match buf with
  | [a; b; c; d; e] => Some (a, b, c, d * 256 + e)
  | _ => None
  end.

(** The position put on the wire by [get_keycode] and [set_keycode]. *)
Definition wire_position {T} (self : session) (matrix : position)
    (dont_convert : bool) : M T position :=
  match conversion_switch_matrix self with
  | None => ret matrix
  | Some conversion =>
      if dont_convert then ret matrix
      else
        let* sm := the_switch_matrix self in
        try (convert_switch_matrix matrix conversion sm) ValueError
  end.

Definition get_keycode {T} (self : session) (matrix : position) (layer : Z)
    (dont_convert : bool) : M T Z :=
  let* (row, col) := wire_position self matrix dont_convert in
  let* data := try (pack_Bs [layer; Z.of_nat row; Z.of_nat col]) StructError in
  let* raw_data :=
    _send_check_command CMD_VIA_DYNAMIC_KEYMAP_GET_KEYCODE None (Some data) in
  let* (_, keycode) := try (unpack_BBBH_big (slice raw_data 1 6)) StructError in
  ret keycode.

Definition set_keycode {T} (self : session) (matrix : position) (layer : Z)
    (keycode : Z) (dont_convert : bool) : M T unit :=
  let* (row, col) := wire_position self matrix dont_convert in
  let* data :=
    try (match pack_Bs [layer; Z.of_nat row; Z.of_nat col], pack_H_big keycode with
         | Some a, Some b => Some (a ++ b)
         | _, _ => None
         end) StructError in
  let* raw_data :=
    _send_check_command CMD_VIA_DYNAMIC_KEYMAP_SET_KEYCODE None (Some data) in
  let* _ := try (unpack_BBBH_big (slice raw_data 1 6)) StructError in
  ret tt.

(** [max(...)] of a generator: ValueError ([None]) when it is empty. *)
Definition max_of (l : list nat) : option nat :=
  match l with
  | [] => None
  | a :: l' => Some (foldr Nat.max a l')
  end.

(** The four branches of [get_switch_matrix_state] that read one word per
    row out of the response. *)
Definition row_states_of (rows cols : nat) (raw_data : list Z)
    : option (list Z) :=
  if (cols <=? 8)%nat then
    unpack_words_big 1 rows (slice raw_data 2 (2 + rows * 1))
  else if (cols <=? 16)%nat then
    unpack_words_big 2 rows (slice raw_data 2 (2 + rows * 2))
  else if (cols <=? 24)%nat then
    Some ((fun i => let start := (2 + i * 3)%nat in
                    from_bytes_big (slice raw_data start (start + 3)))
            <$> seq 0 rows)
  else
    unpack_words_big 4 rows (slice raw_data 2 (2 + rows * 4)).

(** The position that [get_switch_matrix_state] and [get_unlock_status]
    report for the wire position [p]. *)
Definition reported_position {T} (self : session) (p : position)
    : M T position :=
  match conversion_switch_matrix self with
  | None => ret p
  | Some conversion =>
      let* sm := the_switch_matrix self in
      try (convert_switch_matrix p sm conversion) ValueError
  end.

(** The loop over [self.switch_matrix]. *)
Fixpoint active_loop {T} (self : session) (row_states : list Z)
    (switches : list position) (active : list position)
    : M T (list position) :=
  match switches with
  | [] => ret active
  | switch :: rest =>
      let row := fst switch in
      let col := snd switch in
      let* word := try (row_states !! row) IndexError in
      if negb (Z.land word (Z.shiftl 1 (Z.of_nat col)) =? 0) then
        let* position := reported_position self (row, col) in
        active_loop self row_states rest (active ++ [position])
      else active_loop self row_states rest active
  end.

Definition get_switch_matrix_state {T} (self : session)
    : M T (list position) :=
  let* sm := the_switch_matrix self in
  let* rows := try (S <$> max_of (fst <$> sm)) ValueError in
  let* cols := try (S <$> max_of (snd <$> sm)) ValueError in
  let* raw_data :=
    _send_check_command CMD_GET_KEYBOARD_VALUE
      (Some KEYBOARD_VALUE_GET_SWITCH_MATRIX_STATE) None in
  let* row_states := try (row_states_of rows cols raw_data) StructError in
  active_loop self row_states sm [].

(** ** Lighting subsystem *)

Definition get_heap {T} : M T (nat -> LED) := fun w => (Return (heap w), w).

(** [l[i]] for a Python index: a negative one counts from the end;
    [None] is IndexError. *)
Definition py_index {A} (l : list A) (i : Z) : option A :=
  if 0 <=? i then l !! Z.to_nat i
  else if - Z.of_nat (length l) <=? i then l !! Z.to_nat (Z.of_nat (length l) + i)
  else None.

(** The search loop of [led_matrix_to_idx]. *)
Fixpoint find_led {T} (refs : list nat) (position : position) : M T nat :=
  match refs with
  | [] => raise ValueError
  | r :: rest =>
      let* led := get_led r in
      if decide (matrix led = position) then ret (idx led)
      else find_led rest position
  end.

Definition led_matrix_to_idx {T} (self : session) (matrix : position)
    : M T nat :=
  let* position :=
    match conversion_switch_matrix self with
    | None => ret matrix
    | Some conversion =>
        if decide (model self = PI500) then ret matrix
        else
          let* sm := the_switch_matrix self in
          try (convert_switch_matrix matrix conversion sm) ValueError
    end in
  find_led (_led_map self) position.

(** [set_led_by_idx]: [self._led_map[idx].colour = colour]. *)
Definition set_led_by_idx {T} (self : session) (idx : Z) (colour : hsv)
    : M T unit :=
  let* r := try (py_index (_led_map self) idx) IndexError in
  set_colour r colour.

Definition set_led_by_matrix {T} (self : session) (matrix : position)
    (colour : hsv) : M T unit :=
  let* idx := led_matrix_to_idx self matrix in
  set_led_by_idx self (Z.of_nat idx) colour.

(** [buffer] of [send_leds]: hue, saturation and value of each LED. *)
Definition colour_buffer (h : nat -> LED) (refs : list nat) : list Z :=
  refs ≫= (fun r => let '(hu, sa, va) := colour (h r) in [hu; sa; va]).

(** [b"".join(x.to_bytes(1, byteorder="little") for x in buffer)]. *)
Definition join_to_bytes1 (buffer : list Z) : option (list Z) :=
  mjoin <$> mapM to_bytes1 buffer.

(** [struct.pack("<HB", a, b)]. *)
Definition pack_HB_little (a b : Z) : option (list Z) :=
  match pack_H_little a, pack_B b with
  | Some u, Some v => Some (u ++ v)
  | _, _ => None
  end.

(** The terminal colour that the PI500 branch of [send_leds] picks. *)
Definition pi500_col (c : hsv) (col : Z) : Z :=
  if decide (c = (60, 255, 255)) then 3
  else if decide (c = (120, 255, 200)) then 6
  else if decide (c = (0, 0, 0)) then 9
  else if decide (c = (190, 255, 255)) then 5
  else if decide (c = (0, 255, 255)) then 1
  else col.

Fixpoint pi500_draw {T} (refs : list nat) (col : Z) : M T unit :=
  match refs with
  | [] => ret tt
  | r :: rest =>
      let* led := get_led r in
      let col := pi500_col (colour led) col in
      let* _ := print (Cell (matrix led) col) in
      pi500_draw rest col
  end.

Definition send_per_packet : nat := 9.

(** The [while sent < len(leds)] loop of [send_leds]. *)
Fixpoint send_leds_loop {T} (fuel : nat) (leds : list nat) (sent : nat)
    : M T unit :=
  if (sent <? length leds)%nat then
    match fuel with
    | O => out_of_fuel
    | S fuel' =>
        let leds_to_send := slice leds sent (sent + send_per_packet) in
        let* h := get_heap in
        let buffer := colour_buffer h leds_to_send in
        let* payload :=
          try (pack_HB_little (Z.of_nat sent) (Z.of_nat (length leds_to_send)))
              StructError in
        let* body := try (join_to_bytes1 buffer) OverflowError in
        let* _ :=
          _send_check_command CMD_LIGHTING_SET_VALUE
            (Some VIALRGB_DIRECT_FASTSET) (Some (payload ++ body)) in
        send_leds_loop fuel' leds (sent + length leds_to_send)
    end
  else ret tt.

(** [send_leds]. Every round of the loop sends at least one LED, so
    [len(leds)] rounds are enough fuel. *)
Definition send_leds {T} (self : session) : M T unit :=
  if decide (model self = PI500) then
    let* _ := pi500_draw (_led_map self) 7 in
    print CursorHome
  else
    let leds := _led_map self in
    send_leds_loop (length leds) leds 0.

Fixpoint clear_loop {T} (self : session) (idxs : list nat) : M T unit :=
  match idxs with
  | [] => ret tt
  | i :: rest =>
      let* _ := set_led_by_idx self (Z.of_nat i) (0, 0, 0) in
      clear_loop self rest
  end.

Definition rgb_clear {T} (self : session) : M T unit :=
  let* _ := clear_loop self (seq 0 (length (_led_map self))) in
  send_leds self.

(** [struct.unpack("<BBB", buf)]. *)
Definition unpack_BBB (buf : list Z) : option hsv :=
  match buf with
  | [a; b; c] => Some (a, b, c)
  | _ => None
  end.

(** The [for i in range(leds_per_packet)] loop of the two readers. *)
Fixpoint store_colours {T} (leds : list nat) (retrieved : nat)
    (raw_data : list Z) (ixs : list nat) : M T unit :=
  match ixs with
  | [] => ret tt
  | i :: rest =>
      let* _ :=
        if (retrieved + i <? length leds)%nat then
          let* c := try (unpack_BBB (slice raw_data (5 + i * 3) (8 + i * 3)))
                        StructError in
          let* r := try (leds !! (retrieved + i)%nat) IndexError in
          set_colour r c
        else ret tt in
      store_colours leds retrieved raw_data rest
  end.

(** The [while retrieved < len(leds)] loop of [get_current_direct_leds]
    and [get_saved_direct_leds], which differ in the subcommand only. *)
Fixpoint direct_leds_loop {T} (fuel : nat) (subcmd : Z) (leds : list nat)
    (retrieved : nat) : M T (list nat) :=
  if (retrieved <? length leds)%nat then
    match fuel with
    | O => out_of_fuel
    | S fuel' =>
        let* data :=
          try (pack_HB_little (Z.of_nat retrieved) (Z.of_nat send_per_packet))
              StructError in
        let* raw_data :=
          _send_check_command CMD_RPI_COMMAND (Some subcmd) (Some data) in
        let* _ := store_colours leds retrieved raw_data (seq 0 send_per_packet) in
        direct_leds_loop fuel' subcmd leds (retrieved + send_per_packet)
    end
  else ret leds.

(** [list.copy()]: a new list holding the same objects. *)
Definition copy (l : list nat) : list nat := l.

Definition get_current_direct_leds {T} (self : session) : M T (list nat) :=
  let leds := copy (_led_map self) in
  direct_leds_loop (length leds) RPI_CMD_GET_CURRENT_DIRECT_LEDS leds 0.

Definition get_saved_direct_leds {T} (self : session) : M T (list nat) :=
  let leds := copy (_led_map self) in
  direct_leds_loop (length leds) RPI_CMD_GET_SAVED_DIRECT_LEDS leds 0.

Record Preset : Type := mkPreset {
  p_flags : Z;
  p_effect : Z;
  p_speed : Z;
  p_fixed_hue : bool;
  p_startup_animation : Z;
  p_hue : Z;
  p_sat : Z
}.

Definition LED_FLAG_ALL : Z := 0xFF.
Definition START_ANIM_B_FADE_VAL : Z := 0x02.

(** [struct.pack("<BBHBBBBB", ...)] of [set_preset]. *)
Definition pack_preset (preset_index : Z) (preset : Preset) : option (list Z) :=
  match pack_Bs [preset_index; p_flags preset],
        pack_H_little (p_effect preset),
        pack_Bs [p_speed preset; Z.b2z (p_fixed_hue preset);
                 p_startup_animation preset; p_hue preset; p_sat preset] with
  | Some a, Some b, Some c => Some (a ++ b ++ c)
  | _, _, _ => None
  end.

Definition set_preset {T} (preset_index : Z) (preset : Preset) : M T unit :=
  let* data := try (pack_preset preset_index preset) StructError in
  let* _ := _send_check_command CMD_RPI_COMMAND (Some RPI_CMD_SET_MODE)
              (Some data) in
  ret tt.

Definition get_saved_preset_index {T} : M T Z :=
  let* raw_data :=
    _send_check_command CMD_RPI_COMMAND (Some RPI_CMD_GET_CURRENT_MODE_INDEX)
      None in
  let* (_, saved_index) := try (unpack_BB (slice raw_data 2 4)) StructError in
  ret saved_index.

Definition set_current_preset_index {T} (preset_index : Z) (save_index : bool)
    : M T unit :=
  let* cmd_data := try (pack_Bs [preset_index; Z.b2z save_index]) StructError in
  let* _ := _send_check_command CMD_RPI_COMMAND
              (Some RPI_CMD_SET_CURRENT_MODE_INDEX) (Some cmd_data) in
  ret tt.

Definition revert_to_saved_preset {T} : M T unit :=
  let* saved := get_saved_preset_index in
  set_current_preset_index saved true.

Definition set_temp_effect {T} (preset : Preset) : M T unit :=
  let preset_index := 7 in
  let* _ := set_preset preset_index preset in
  set_current_preset_index preset_index false.

(** ** effects.py: the effect catalogue *)

Definition vial_effects : list (string * string) :=
  [ ("VIALRGB_EFFECT_OFF", "OFF");
    ("VIALRGB_EFFECT_DIRECT", "Direct");
    ("VIALRGB_EFFECT_SOLID_COLOR", "Solid Color");
    ("VIALRGB_EFFECT_ALPHAS_MODS", "Alphas Mods");
    ("VIALRGB_EFFECT_GRADIENT_UP_DOWN", "Gradient Up Down");
    ("VIALRGB_EFFECT_GRADIENT_LEFT_RIGHT", "Gradient Left Right");
    ("VIALRGB_EFFECT_BREATHING", "Breathing");
    ("VIALRGB_EFFECT_BAND_SAT", "Band Sat");
    ("VIALRGB_EFFECT_BAND_VAL", "Band Val");
    ("VIALRGB_EFFECT_BAND_PINWHEEL_SAT", "Band Pinwheel Sat");
    ("VIALRGB_EFFECT_BAND_PINWHEEL_VAL", "Band Pinwheel Val");
    ("VIALRGB_EFFECT_BAND_SPIRAL_SAT", "Band Spiral Sat");
    ("VIALRGB_EFFECT_BAND_SPIRAL_VAL", "Band Spiral Val");
    ("VIALRGB_EFFECT_CYCLE_ALL", "Cycle All");
    ("VIALRGB_EFFECT_CYCLE_LEFT_RIGHT", "Cycle Left Right");
    ("VIALRGB_EFFECT_CYCLE_UP_DOWN", "Cycle Up Down");
    ("VIALRGB_EFFECT_RAINBOW_MOVING_CHEVRON", "Rainbow Moving Chevron");
    ("VIALRGB_EFFECT_CYCLE_OUT_IN", "Cycle Out In");
    ("VIALRGB_EFFECT_CYCLE_OUT_IN_DUAL", "Cycle Out In Dual");
    ("VIALRGB_EFFECT_CYCLE_PINWHEEL", "Cycle Pinwheel");
    ("VIALRGB_EFFECT_CYCLE_SPIRAL", "Cycle Spiral");
    ("VIALRGB_EFFECT_DUAL_BEACON", "Dual Beacon");
    ("VIALRGB_EFFECT_RAINBOW_BEACON", "Rainbow Beacon");
    ("VIALRGB_EFFECT_RAINBOW_PINWHEELS", "Rainbow Pinwheels");
    ("VIALRGB_EFFECT_RAINDROPS", "Raindrops");
    ("VIALRGB_EFFECT_JELLYBEAN_RAINDROPS", "Jellybean Raindrops");
    ("VIALRGB_EFFECT_HUE_BREATHING", "Hue Breathing");
    ("VIALRGB_EFFECT_HUE_PENDULUM", "Hue Pendulum");
    ("VIALRGB_EFFECT_HUE_WAVE", "Hue Wave");
    ("VIALRGB_EFFECT_TYPING_HEATMAP", "Typing Heatmap");
    ("VIALRGB_EFFECT_DIGITAL_RAIN", "Digital Rain");
    ("VIALRGB_EFFECT_SOLID_REACTIVE_SIMPLE", "Solid Reactive Simple");
    ("VIALRGB_EFFECT_SOLID_REACTIVE", "Solid Reactive");
    ("VIALRGB_EFFECT_SOLID_REACTIVE_WIDE", "Solid Reactive Wide");
    ("VIALRGB_EFFECT_SOLID_REACTIVE_MULTIWIDE", "Solid Reactive Multiwide");
    ("VIALRGB_EFFECT_SOLID_REACTIVE_CROSS", "Solid Reactive Cross");
    ("VIALRGB_EFFECT_SOLID_REACTIVE_MULTICROSS", "Solid Reactive Multicross");
    ("VIALRGB_EFFECT_SOLID_REACTIVE_NEXUS", "Solid Reactive Nexus");
    ("VIALRGB_EFFECT_SOLID_REACTIVE_MULTINEXUS", "Solid Reactive Multinexus");
    ("VIALRGB_EFFECT_SPLASH", "Splash");
    ("VIALRGB_EFFECT_MULTISPLASH", "Multisplash");
    ("VIALRGB_EFFECT_SOLID_SPLASH", "Solid Splash");
    ("VIALRGB_EFFECT_SOLID_MULTISPLASH", "Solid Multisplash");
    ("VIALRGB_EFFECT_PIXEL_RAIN", "Pixel Rain");
    ("VIALRGB_EFFECT_PIXEL_FRACTAL", "Pixel Fractal") ].

(** [str.lower], [str.replace("_", " ")] and [str.strip] on the ASCII
    strings the catalogue is made of. *)
Definition lower_char (c : ascii) : ascii :=
  let n := Ascii.nat_of_ascii c in
  if ((65 <=? n) && (n <=? 90))%nat then Ascii.ascii_of_nat (n + 32) else c.

Definition underscore_to_space (c : ascii) : ascii :=
  if decide (c = "_"%char) then " "%char else c.

Definition is_space (c : ascii) : bool :=
  let n := Ascii.nat_of_ascii c in
  (((9 <=? n) && (n <=? 13)) || ((28 <=? n) && (n <=? 32)))%nat.

Fixpoint lstrip (l : list ascii) : list ascii :=
  match l with
  | c :: l' => if is_space c then lstrip l' else l
  | [] => []
  end.

Definition strip (l : list ascii) : list ascii :=
  rev (lstrip (rev (lstrip l))).

Definition simple_name (stripped : bool) (s : string) : string :=
  let l := String.list_ascii_of_string s in
  let l := if stripped then strip l else l in
  String.string_of_list_ascii (underscore_to_space <$> (lower_char <$> l)).

Fixpoint effect_search (name : string) (idx : Z)
    (table : list (string * string)) : option Z :=
  match table with
  | [] => None
  | (internal, display) :: rest =>
      if decide (name = simple_name false internal) then Some idx
      else if decide (name = simple_name false display) then Some idx
      else effect_search name (idx + 1) rest
  end.

(** [get_vial_effect_id]; [None] is Python's [None]. *)
Definition get_vial_effect_id (effect_name : string) : option Z :=
  let effect_simple_name := simple_name true effect_name in
  match effect_search effect_simple_name 0 vial_effects with
  | Some idx => Some idx
  | None =>
      if decide (effect_simple_name = "vialrgb effect skip") then
        Some VIALRGB_EFFECT_SKIP
      else if decide (effect_simple_name = "skip") then Some VIALRGB_EFFECT_SKIP
      else None
  end.

(** [set_led_direct_effect]. Were the effect id [None], the
    [struct.pack] of [set_preset] would fail on it. *)
Definition set_led_direct_effect {T} (self : session) : M T unit :=
  if decide (model self = PI500) then ret tt
  else
    let* direct_effect :=
      try (get_vial_effect_id "VIALRGB_EFFECT_DIRECT") StructError in
    let preset :=
      mkPreset LED_FLAG_ALL direct_effect 255 true START_ANIM_B_FADE_VAL
               255 255 in
    set_temp_effect preset.

(** The [for effect in effects_data] loop of [get_supported_effects]:
    [inl] when it returned from the function, [inr] when it ran to the
    end of the page. *)
Fixpoint scan_page (effects_data : list Z) (effects : list Z) (max_effect : Z)
    : list Z + list Z * Z :=
  match effects_data with
  | [] => inr (effects, max_effect)
  | effect :: rest =>
      if effect =? 0xFFFF then inl effects
      else scan_page rest (effects ++ [effect]) effect
  end.

(** The [while max_effect < 0xFFFF] loop. *)
Fixpoint effects_loop {T} (fuel : nat) (effects : list Z) (max_effect : Z)
    : M T (list Z) :=
  if max_effect <? 0xFFFF then
    match fuel with
    | O => out_of_fuel
    | S fuel' =>
        let* arg := try (to_bytes2_little max_effect) OverflowError in
        let* raw_data :=
          _send_check_command CMD_LIGHTING_GET_VALUE
            (Some VIALRGB_GET_SUPPORTED) (Some arg) in
        let* effects_data :=
          try (unpack_words_little 2 15 (drop 2 raw_data)) StructError in
        match scan_page effects_data effects max_effect with
        | inl effects => ret effects
        | inr (effects, max_effect) => effects_loop fuel' effects max_effect
        end
    end
  else ret effects.

Definition get_supported_effects {T} (fuel : nat) (self : session)
    : M T (list Z) :=
  if decide (model self = PI500) then
    raise (KeyboardNotCompatibleError "PI500 does not support RGB operations")
  else effects_loop fuel [0x0000; 0xFFFF] 0.

(** ** Unlock state machine *)

(** The [for i in range(2, len(raw_data), 2)] loop of
    [get_unlock_status], on [raw_data[2:]]. *)
Fixpoint unlock_keys {T} (self : session) (rest : list Z)
    (keys : list position) : M T (list position) :=
  match rest with
  | [] => ret keys
  | [_] => raise StructError
  | row :: col :: rest' =>
      if negb (row =? 0xFF) && negb (col =? 0xFF) then
        let* position := reported_position self (Z.to_nat row, Z.to_nat col) in
        unlock_keys self rest' (keys ++ [position])
      else unlock_keys self rest' keys
  end.

Definition get_unlock_status {T} (self : session)
    : M T (Z * Z * list position) :=
  let* raw_data := _send_command [CMD_VIAL_COMMAND; VIAL_GET_UNLOCK_STATUS] in
  let* (unlocked, unlock_in_progress) :=
    try (unpack_BB (slice raw_data 0 2)) StructError in
  let* keys := unlock_keys self (drop 2 raw_data) [] in
  ret (unlocked, unlock_in_progress, keys).

Definition request_unlock {T} : M T unit :=
  let* _ := _send_check_command CMD_VIAL_COMMAND (Some VIAL_UNLOCK_START) None in
  ret tt.

Definition unlock_poll {T} : M T (Z * Z * Z) :=
  let* raw_data := _send_command [CMD_VIAL_COMMAND; VIAL_UNLOCK_POLL] in
  try (unpack_BBB (slice raw_data 0 3)) StructError.

Definition lock {T} : M T unit :=
  let* _ := _send_check_command CMD_VIAL_COMMAND (Some VIAL_LOCK) None in
  ret tt.

(** The loop of [unlock] that lists the keys with their keycodes. *)
Fixpoint show_keys {T} (self : session) (use_leds : bool)
    (keys : list position) : M T unit :=
  match keys with
  | [] => ret tt
  | key :: rest =>
      let* keycode := get_keycode self key 0 false in
      let* _ := print (KeyWithCode key keycode) in
      let* _ := if use_leds then set_led_by_matrix self key (255, 255, 255)
                else ret tt in
      show_keys self use_leds rest
  end.

Fixpoint show_keys_plain {T} (keys : list position) : M T unit :=
  match keys with
  | [] => ret tt
  | key :: rest =>
      let* _ := print (KeyPlain key) in
      show_keys_plain rest
  end.

(** The [while unlock_in_progress] loop; it returns the last values of
    [unlocked] and [unlock_in_progress]. [last_counter] starts at -1. *)
Fixpoint poll_loop {T} (fuel : nat) (unlocked unlock_in_progress : Z)
    (last_counter : Z) : M T (Z * Z) :=
  if negb (unlock_in_progress =? 0) then
    match fuel with
    | O => out_of_fuel
    | S fuel' =>
        let* (unlocked, unlock_in_progress, unlock_counter) := unlock_poll in
        let* last_counter :=
          if negb (unlock_counter =? last_counter) then
            let* _ := print (UnlockCounter unlock_counter) in
            ret unlock_counter
          else ret last_counter in
        let* _ := sleep in
        poll_loop fuel' unlocked unlock_in_progress last_counter
    end
  else ret (unlocked, unlock_in_progress).

(** The end of [unlock], from the line after the polling loop. *)
Definition unlock_conclude {T} (self : session) (use_leds : bool) : M T unit :=
  let* _ := if use_leds then revert_to_saved_preset else ret tt in
  let* (unlocked, unlock_in_progress, keys) := get_unlock_status self in
  if negb (unlocked =? 0) && (unlock_in_progress =? 0) then
    print (Text "Keyboard is unlocked")
  else
    let* _ := print (Text "Something went wrong whilst trying to unlock.") in
    if negb (unlock_in_progress =? 0) then
      raise (PlainException
        "Unlock process is still in progress. Nothing can be done until it is complete.")
    else ret tt.

(** The middle of [unlock], from the first [print] to the end of the
    polling loop: the keys are shown, the unlock is requested and the
    device is polled until it is no longer in progress. *)
Definition unlock_handshake {T} (fuel : nat) (self : session)
    (restricted_commands use_leds : bool) (unlock_in_progress : Z)
    (keys : list position) : M T unit :=
  let* _ := print (Text "Press and hold the unlock keys until the counter reaches 0.") in
  let* _ := print (Text "The unlock keys are:") in
  let* _ :=
    if negb restricted_commands && (unlock_in_progress =? 0) then
      let* _ := if use_leds then rgb_clear self else ret tt in
      let* _ := show_keys self use_leds keys in
      if use_leds then send_leds self else ret tt
    else show_keys_plain keys in
  let* _ := request_unlock in
  let* (unlocked, unlock_in_progress, keys) := get_unlock_status self in
  let* _ := poll_loop fuel unlocked unlock_in_progress (-1) in
  ret tt.

(** [unlock]; the fuel is for the polling loop. *)
Definition unlock {T} (fuel : nat) (self : session) (restricted_commands : bool)
    : M T unit :=
  let use_leds :=
    bool_decide (model self = PI500PLUS) && negb restricted_commands in
  let* (unlocked, unlock_in_progress, keys) := get_unlock_status self in
  let* _ := if use_leds then set_led_direct_effect self else ret tt in
  if negb (unlocked =? 0) then
    print (Text "Keyboard is already unlocked")
  else
    let* _ := unlock_handshake fuel self restricted_commands use_leds
                unlock_in_progress keys in
    unlock_conclude self use_leds.

(** ** Test transports *)

(** A scripted transport: the device answers the reads with the frames
    of a fixed list, in order, whatever is written to it; once the list
    is used up a read times out and returns nothing. *)
Definition scripted : Transport :=
  mkTransport (list (list Z))
    (fun d _ => d)
    (fun d size =>
       match d with
       | [] => ([], [])
       | r :: d' => (d', take size r)
       end).

(** A transport that answers every read with the same frame. *)
Definition constant (frame : list Z) : Transport :=
  mkTransport unit (fun d _ => d) (fun d size => (d, take size frame)).

(** [l] cut or zero-padded to [n] bytes. *)
Definition fit (n : nat) (l : list Z) : list Z :=
  take n (l ++ replicate n 0).

(** A device that keeps one colour per LED and stores what direct-fastset
    sends. Its state is the colour memory and the response to the report
    written last. A direct-fastset report (0x07 0x42, offset, count,
    colours) overwrites [count] colours from [offset] on and is echoed; a
    report 0xFC 0x0B (offset, count) is answered with its first five
    bytes followed by the nine colours from [offset] on; any other
    report is answered with its first two payload bytes. *)
Record led_device : Type := mkLedDevice {
  memory : nat -> hsv;
  response : list Z
}.

Fixpoint store_colours_dev (m : nat -> hsv) (offset : nat) (count : nat)
    (bytes : list Z) : nat -> hsv :=
  match count, bytes with
  | S count', a :: b :: c :: bytes' =>
      store_colours_dev (<[offset := (a, b, c)]> m) (S offset) count' bytes'
  | _, _ => m
  end.

Definition load_colours_dev (m : nat -> hsv) (offset : nat) (count : nat)
    : list Z :=
  seq offset count ≫= (fun i => let '(a, b, c) := m i in [a; b; c]).

Definition led_device_write (d : led_device) (report : list Z) : led_device :=
  match report with
  | _ :: cmd :: sub :: lo :: hi :: count :: rest =>
      let offset := Z.to_nat (lo + 256 * hi) in
      if (cmd =? CMD_LIGHTING_SET_VALUE) && (sub =? VIALRGB_DIRECT_FASTSET) then
        mkLedDevice (store_colours_dev (memory d) offset (Z.to_nat count) rest)
                    (fit MSG_LEN [cmd; sub])
      else if (cmd =? CMD_RPI_COMMAND) && (sub =? RPI_CMD_GET_CURRENT_DIRECT_LEDS)
      then
        mkLedDevice (memory d)
          (fit MSG_LEN ([cmd; sub; lo; hi; count]
                          ++ load_colours_dev (memory d) offset 9))
      else mkLedDevice (memory d) (fit MSG_LEN [cmd; sub])
  | _ => mkLedDevice (memory d) (fit MSG_LEN (drop 1 report))
  end.

Definition led_store : Transport :=
  mkTransport led_device led_device_write
    (fun d size => (d, take size (response d))).

(** A world to start from: nothing written, nothing printed. *)
Definition start (T : Transport) (d : dev T) (h : nat -> LED) : world T :=
  mkWorld d [] [] h 0.

(** An object store in which reference [r] holds LED number [r], black. *)
Definition fresh_heap : nat -> LED :=
  fun r => mkLED r 0 0 0 (0, r)%nat (0, 0, 0).

(** ** The remaining operations of keyboard.py *)

Definition USB_VID_RASPBERRYPI : Z := 0x2e8a.
Definition USB_PID_PI500_KEYBOARD : Z := 0x0010.
Definition USB_PID_PI500PLUS_KEYBOARD : Z := 0x0011.
Definition USAGE_PAGE : Z := 0xFF60.
Definition USAGE : Z := 0x61.
Definition VIAL_SERIAL_NUMBER : string := "vial:f64c2b3c".

Definition KEYBOARD_VALUE_GET_UPTIME : Z := 0x01.
Definition VIAL_GET_KEYBOARD_ID : Z := 0x00.
Definition VIALRGB_GET_INFO : Z := 0x40.
Definition VIALRGB_GET_NUMBER_LEDS : Z := 0x43.
Definition VIALRGB_GET_LED_INFO : Z := 0x44.
Definition RPI_CMD_GET_VERSION : Z := 0x01.
Definition RPI_CMD_RESET_EEPROM : Z := 0x02.
Definition RPI_CMD_GET_HUE : Z := 0x07.
Definition RPI_CMD_SET_HUE : Z := 0x08.
Definition RPI_CMD_GET_BRIGHTNESS : Z := 0x09.
Definition RPI_CMD_SET_BRIGHTNESS : Z := 0x0A.
Definition RPI_CMD_SAVE_DIRECT_LEDS : Z := 0x0D.
Definition RPI_CMD_LOAD_DIRECT_LEDS : Z := 0x0E.

(** One entry of [enumerate_devices()], with the keys that
    [_search_devices] reads. *)
Record descriptor : Type := mkDescriptor {
  vendor_id : Z;
  product_id : Z;
  serial_number : string;
  usage_page : Z;
  usage : Z;
  path : string
}.

(** How [_search_devices] ends: with the path it returns and what it
    printed, or with one of its two exceptions. *)
Inductive search_result : Type :=
| FoundDevice (path : string) (printed_lines : list string)
| NoKeyboardFoundError
| NotRunningCompatibleFirmware.

Definition is_rpi_keyboard (desc : descriptor) : bool :=
  (vendor_id desc =? USB_VID_RASPBERRYPI)
  && ((product_id desc =? USB_PID_PI500_KEYBOARD)
      || (product_id desc =? USB_PID_PI500PLUS_KEYBOARD)).

Definition is_vial_interface (desc : descriptor) : bool :=
  bool_decide (serial_number desc = VIAL_SERIAL_NUMBER)
  && (usage_page desc =? USAGE_PAGE)
  && (usage desc =? USAGE).

(** [_search_devices], on the list that [enumerate_devices()] returned. *)
Definition _search_devices (devices : list descriptor) : search_result :=
  let rpi_keyboards := List.filter is_rpi_keyboard devices in
  if (length rpi_keyboards =? 0)%nat then NoKeyboardFoundError
  else
    let rpi_vial_keyboards := List.filter is_vial_interface rpi_keyboards in
    match rpi_vial_keyboards with
    | [] => NotRunningCompatibleFirmware
    | first :: _ =>
        let lines :=
          if (1 <? length rpi_vial_keyboards)%nat
             && negb (length rpi_vial_keyboards =? length rpi_keyboards)%nat
          then ["Multiple keyboards found, using the first compatible one."]
          else if (1 <? length rpi_vial_keyboards)%nat
          then ["Multiple keyboards found, using the first one."]
          else [] in
        FoundDevice (path first) lines
    end.

(** [_flush_hid_buffer]: one-byte reads until one returns nothing. *)
Fixpoint _flush_hid_buffer {T} (fuel : nat) : M T unit :=
  match fuel with
  | O => out_of_fuel
  | S fuel' =>
      let* response := device_read 1 in
      match response with
      | [] => ret tt
      | _ :: _ => _flush_hid_buffer fuel'
      end
  end.

(** [get_firmware_version]: (major, minor, patch). *)
Definition get_firmware_version {T} : M T (Z * Z * Z) :=
  let* raw_data :=
    _send_check_command CMD_RPI_COMMAND (Some RPI_CMD_GET_VERSION) None in
  let version_x := from_bytes_little (slice raw_data 2 3) in
  let version_y := Z.shiftr (from_bytes_little (slice raw_data 3 4)) 4 in
  let version_z := Z.land (from_bytes_little (slice raw_data 3 4)) 0x0F in
  ret (version_x, version_y, version_z).

(** [struct.unpack(">H", buf)]. *)
Definition unpack_H_big (buf : list Z) : option Z :=
  match buf with
  | [a; b] => Some (a * 256 + b)
  | _ => None
  end.

(** [get_via_protocol_version]; the source passes the subcommand 0. *)
Definition get_via_protocol_version {T} : M T Z :=
  let* raw_data := _send_check_command CMD_GET_PROTOCOL_VERSION (Some 0) None in
  try (unpack_H_big (slice raw_data 1 3)) StructError.

(** [struct.unpack("<IQB", buf)]. *)
Definition unpack_IQB_little (buf : list Z) : option (Z * Z * Z) :=
  if (length buf =? 13)%nat
  then Some (from_bytes_little (take 4 buf),
             from_bytes_little (take 8 (drop 4 buf)),
             from_bytes_little (drop 12 buf))
  else None.

(** [get_vial_information]: (vial_protocol, keyboard_uid, vialrgb_flag). *)
Definition get_vial_information {T} : M T (Z * Z * Z) :=
  let* raw_data := _send_command [CMD_VIAL_COMMAND; VIAL_GET_KEYBOARD_ID] in
  try (unpack_IQB_little (slice raw_data 0 13)) StructError.

(** [struct.unpack("<HB", buf)]. *)
Definition unpack_HB_little (buf : list Z) : option (Z * Z) :=
  match buf with
  | [a; b; c] => Some (a + 256 * b, c)
  | _ => None
  end.

Definition get_vialrgb_info {T} : M T (Z * Z) :=
  let* raw_data :=
    _send_check_command CMD_LIGHTING_GET_VALUE (Some VIALRGB_GET_INFO) None in
  try (unpack_HB_little (slice raw_data 2 5)) StructError.

Definition _reset_rpi_eeprom {T} : M T unit :=
  let* _ := _send_check_command CMD_RPI_COMMAND (Some RPI_CMD_RESET_EEPROM) None in
  ret tt.

Definition reset_presets_and_direct_leds {T} : M T unit := _reset_rpi_eeprom.

Definition reset_keymap {T} : M T unit :=
  let* _ := _send_check_command CMD_VIA_DYNAMIC_KEYMAP_RESET None None in
  ret tt.

(** [struct.unpack(">I", buf)]. *)
Definition unpack_I_big (buf : list Z) : option Z :=
  if (length buf =? 4)%nat then Some (from_bytes_big buf) else None.

Definition get_uptime {T} : M T Z :=
  let* raw_data :=
    _send_check_command CMD_GET_KEYBOARD_VALUE (Some KEYBOARD_VALUE_GET_UPTIME)
      None in
  try (unpack_I_big (slice raw_data 2 6)) StructError.

(** [struct.unpack("<H", buf)]. *)
Definition unpack_H_little (buf : list Z) : option Z :=
  match buf with
  | [a; b] => Some (a + 256 * b)
  | _ => None
  end.

Definition get_number_leds {T} (self : session) : M T Z :=
  if decide (model self = PI500) then ret (6 * 16)
  else
    let* raw_data :=
      _send_check_command CMD_LIGHTING_GET_VALUE (Some VIALRGB_GET_NUMBER_LEDS)
        None in
    try (unpack_H_little (slice raw_data 2 4)) StructError.

(** [struct.unpack("<BBBBB", buf)]. *)
Definition unpack_BBBBB (buf : list Z) : option (Z * Z * Z * Z * Z) :=
  match buf with
  | [a; b; c; d; e] => Some (a, b, c, d, e)
  | _ => None
  end.

(** [get_led_info]: (x, y, flags, position). With a conversion table the
    position read is converted from the table to the switch matrix map. *)
Definition get_led_info {T} (self : session) (idx : Z)
    : M T (Z * Z * Z * position) :=
  if decide (model self = PI500) then
    raise (KeyboardNotCompatibleError "PI500 does not support RGB operations")
  else
    let* data := try (to_bytes1 idx) OverflowError in
    let* raw_data :=
      _send_check_command CMD_LIGHTING_GET_VALUE (Some VIALRGB_GET_LED_INFO)
        (Some data) in
    let* (x, y, flags, row, col) :=
      try (unpack_BBBBB (slice raw_data 2 7)) StructError in
    let* position :=
      match conversion_switch_matrix self with
      | None => ret (Z.to_nat row, Z.to_nat col)
      | Some conversion =>
          let* sm := the_switch_matrix self in
          try (convert_switch_matrix (Z.to_nat row, Z.to_nat col) conversion sm)
              ValueError
      end in
    ret (x, y, flags, position).

(** The [for idx in range(num_leds)] loop of [get_leds]. *)
Fixpoint get_leds_loop {T} (self : session) (idxs : list nat) (leds : list LED)
    : M T (list LED) :=
  match idxs with
  | [] => ret leds
  | i :: rest =>
      let* (x, y, flags, matrix) := get_led_info self (Z.of_nat i) in
      get_leds_loop self rest (leds ++ [mkLED i x y flags matrix (0, 0, 0)])
  end.

(** [get_leds]: the LED objects, not yet stored anywhere. *)
Definition get_leds {T} (self : session) : M T (list LED) :=
  if decide (model self = PI500) then
    raise (KeyboardNotCompatibleError "PI500 does not support RGB operations")
  else
    let* num_leds := get_number_leds self in
    get_leds_loop self (seq 0 (Z.to_nat num_leds)) [].

(** [send_led_by_idx]. *)
Definition send_led_by_idx {T} (self : session) (led_idx : Z) : M T unit :=
  if decide (model self = PI500) then
    raise (KeyboardNotCompatibleError "PI500 does not support RGB operations")
  else
    let leds := _led_map self in
    let* r := try (py_index leds led_idx) IndexError in
    let* led := get_led r in
    let buffer := let '(hu, sa, va) := colour led in [hu; sa; va] in
    let* payload := try (pack_HB_little led_idx 1) StructError in
    let* body := try (join_to_bytes1 buffer) OverflowError in
    let* _ :=
      _send_check_command CMD_LIGHTING_SET_VALUE (Some VIALRGB_DIRECT_FASTSET)
        (Some (payload ++ body)) in
    ret tt.

Definition send_led_by_matrix {T} (self : session) (matrix : position)
    : M T unit :=
  let* idx := led_matrix_to_idx self matrix in
  send_led_by_idx self (Z.of_nat idx).

Definition get_hue {T} : M T Z :=
  let* raw_data := _send_check_command CMD_RPI_COMMAND (Some RPI_CMD_GET_HUE) None in
  ret (from_bytes_little (slice raw_data 2 3)).

Definition set_hue {T} (hue : Z) : M T unit :=
  let* data := try (to_bytes1 hue) OverflowError in
  let* _ := _send_check_command CMD_RPI_COMMAND (Some RPI_CMD_SET_HUE) (Some data) in
  ret tt.

Definition get_brightness {T} : M T Z :=
  let* raw_data :=
    _send_check_command CMD_RPI_COMMAND (Some RPI_CMD_GET_BRIGHTNESS) None in
  ret (from_bytes_little (slice raw_data 2 3)).

Definition set_brightness {T} (brightness : Z) : M T unit :=
  let* data := try (to_bytes1 brightness) OverflowError in
  let* _ := _send_check_command CMD_RPI_COMMAND (Some RPI_CMD_SET_BRIGHTNESS)
              (Some data) in
  ret tt.

Definition save_direct_leds {T} : M T unit :=
  let* _ := _send_check_command CMD_RPI_COMMAND (Some RPI_CMD_SAVE_DIRECT_LEDS)
              None in
  ret tt.

Definition load_direct_leds {T} : M T unit :=
  let* _ := _send_check_command CMD_RPI_COMMAND (Some RPI_CMD_LOAD_DIRECT_LEDS)
              None in
  ret tt.

Definition get_current_preset_index {T} : M T Z :=
  let* raw_data :=
    _send_check_command CMD_RPI_COMMAND (Some RPI_CMD_GET_CURRENT_MODE_INDEX)
      None in
  let* (current_index, _) := try (unpack_BB (slice raw_data 2 4)) StructError in
  ret current_index.

(** The Preset object that [get_preset] builds: every field holds the
    integer read, [fixed_hue] included. *)
Record preset_read : Type := mkPresetRead {
  r_flags : Z;
  r_effect : Z;
  r_speed : Z;
  r_fixed_hue : Z;
  r_startup_animation : Z;
  r_hue : Z;
  r_sat : Z
}.

(** [struct.unpack("<BBHBBBBB", buf)], without the leading index. *)
Definition unpack_preset (buf : list Z) : option preset_read :=
  match buf with
  | [_; flags; e0; e1; speed; fixed_hue; startup_animation; hue; sat] =>
      Some (mkPresetRead flags (e0 + 256 * e1) speed fixed_hue
              startup_animation hue sat)
  | _ => None
  end.

Definition get_preset {T} (preset_index : Z) : M T preset_read :=
  let* data := try (to_bytes1 preset_index) OverflowError in
  let* raw_data :=
    _send_check_command CMD_RPI_COMMAND (Some RPI_CMD_GET_MODE) (Some data) in
  try (unpack_preset (slice raw_data 2 11)) StructError.

Definition with_hue (preset : preset_read) (hue : Z) : preset_read :=
  mkPresetRead (r_flags preset) (r_effect preset) (r_speed preset)
    (r_fixed_hue preset) (r_startup_animation preset) hue (r_sat preset).

Definition get_current_effect {T} : M T preset_read :=
  let* preset_index := get_current_preset_index in
  let* preset := get_preset preset_index in
  if r_fixed_hue preset =? 0 then
    let* hue := get_hue in
    ret (with_hue preset hue)
  else ret preset.

Definition get_temp_effect {T} : M T preset_read := get_preset 7.

(** [get_vial_effect_name]; a negative id indexes the table from its
    end, as Python lists do. [inl] is the IndexError of an id below minus
    the length of the table, [inr None] is Python's [None]. *)
Definition get_vial_effect_name (effect_id : Z) (pretty_name : bool)
    : exn + option string :=
  if effect_id <? Z.of_nat (length vial_effects) then
    match py_index vial_effects effect_id with
    | Some (internal, display) =>
        inr (Some (if pretty_name then display else internal))
    | None => inl IndexError
    end
  else inr None.

(** Tuple comparison [a < b] on version triples. *)
Definition version_lt (a b : Z * Z * Z) : bool :=
  let '(a1, a2, a3) := a in
  let '(b1, b2, b3) := b in
  (a1 <? b1) || ((a1 =? b1) && ((a2 <? b2) || ((a2 =? b2) && (a3 <? b3)))).

(** Storing freshly made LED objects: they get the references
    [base, base + 1, ...], which the caller knows to be unused. *)
Definition install_leds {T} (base : nat) (leds : list LED) : M T (list nat) :=
  fun w =>
    (Return (seq base (length leds)),
     mkWorld (device w) (written w) (stdout w)
       (fun r => if decide (base <= r < base + length leds)%nat
                 then default (heap w r) (leds !! (r - base)%nat)
                 else heap w r)
       (slept w)).

(** [__init__] from line 200 on, that is after [_get_hid_interface] has
    read [model] and [product_variant] off the product string;
    [country_code] is what [get_pi_country_code] returns, [base] the
    first unused reference for LED objects, the fuel is for the polling
    loop of [unlock]. *)
Definition init_session {T} (fuel : nat) (tbl : switch_matrix_module)
    (model : model_t) (product_variant : option variant_t)
    (country_code : variant_t) (base : nat) : M T session :=
  let '(variant, switch_matrix, conversion) :=
    init_tables tbl model product_variant country_code in
  let* led_map :=
    match model with
    | PI500 => install_leds base pi500_leds
    | PI500PLUS => ret []
    end in
  let self := mkSession model variant switch_matrix conversion led_map in
  let* (_, unlock_in_progress, _) := get_unlock_status self in
  let* _ :=
    if negb (unlock_in_progress =? 0) then
      let* _ := print (Text "Keyboard is waiting for unlock. Not usable until unlocked or power cycled.") in
      let* _ := print (Text "") in
      unlock fuel self true
    else ret tt in
  let* via_protocol_version := get_via_protocol_version in
  let* (vial_protocol_version, _, flags) := get_vial_information in
  let* rpi_version := get_firmware_version in
  if via_protocol_version <? 9 then
    raise (KeyboardNotCompatibleError
             "The keyboard does not support Via protocol 9 or later")
  else if vial_protocol_version <? 4 then
    raise (KeyboardNotCompatibleError
             "The keyboard does not support Vial protocol 4 or later")
  else if version_lt rpi_version (1, 2, 0) then
    raise (KeyboardNotCompatibleError
             "The keyboard does not support firmware version 1.2.0 or later")
  else
    let* _ :=
      if bool_decide (model = PI500PLUS) && (Z.land flags 1 =? 0) then
        print (Text "The keyboard does not support VialRGB so RGB operations will not be available.")
      else ret tt in
    match model with
    | PI500 => ret self
    | PI500PLUS =>
        let* leds := get_leds self in
        let* led_map := install_leds base leds in
        ret (mkSession model variant switch_matrix conversion led_map)
    end.

(** [get_vial_effect_id] reads the module's table [vial_effects], which
    [all_vial_effects] changes: this is the function on the table as it
    is at the time of the call; [get_vial_effect_id] above is the case of
    the table as loaded. *)
Definition get_vial_effect_id_in (table : list (string * string))
    (effect_name : string) : option Z :=
  let effect_simple_name := simple_name true effect_name in
  match effect_search effect_simple_name 0 table with
  | Some idx => Some idx
  | None =>
      if decide (effect_simple_name = "vialrgb effect skip") then
        Some VIALRGB_EFFECT_SKIP
      else if decide (effect_simple_name = "skip") then Some VIALRGB_EFFECT_SKIP
      else None
  end.

(** [all_vial_effects]: it returns what [list.append] returns, which is
    [None], and leaves the row appended to the module's table. The result
    is the value returned and the table afterwards. *)
Definition all_vial_effects (table : list (string * string))
    : option (list string) * list (string * string) :=
  (None, table ++ [("VIALRGB_EFFECT_SKIP", "Skip")]).

(** * Vocabulary of the statements and sample data *)

(** The world after one report has been written and one read. *)
Definition after_exchange {T} (w : world T) (frame : list Z) : world T :=
  mkWorld (fst (dev_read T (dev_write T (device w) frame) MSG_LEN))
          (written w ++ [frame]) (stdout w) (heap w) (slept w).

(** What the device answers to [frame] in the world [w]. *)
Definition answer {T} (w : world T) (frame : list Z) : list Z :=
  snd (dev_read T (dev_write T (device w) frame) MSG_LEN).

(** The report that [_send_command] writes for [command]. *)
Definition frame_of (command : list Z) : list Z :=
  0 :: command ++ replicate (MSG_LEN - length command) 0.

(** The payload that [_send_check_command] builds. *)
Definition payload_of (cmd : Z) (subcmd : option Z) (data : option (list Z))
    : list Z :=
  [cmd] ++ match subcmd with Some s => [s] | None => [] end
        ++ match data with Some d => d | None => [] end.

(** A report that does not answer the command [cmd], [s]: it has two
    bytes at least and one of them is not the one sent. *)
Definition stale (cmd s : Z) (r : list Z) : bool :=
  match r with
  | a :: b :: _ => negb ((a =? cmd) && (b =? s))
  | _ => false
  end.

(** The world of the scripted transport after [k] exchanges of [frame]
    that left the frames [d] unread. *)
Definition after_resends (w : world scripted) (d : list (list Z))
    (frame : list Z) (k : nat) : world scripted :=
  mkWorld (T := scripted) d (written w ++ replicate k frame)
          (stdout w) (heap w) (slept w).

(** Frames for the sample runs: [good_reply] answers the get-keycode
    request of layer 0, row 1, column 1; [other_reply] is a stale report. *)
Definition good_reply : list Z := fit MSG_LEN [4; 0; 1; 1; 0; 4].

Definition other_reply : list Z := fit MSG_LEN [9; 9].

Definition good_reply2 : list Z := fit MSG_LEN [0xFC; 0x03; 2; 5].

(** Small tables for the sample runs. *)
Definition sample_tables : switch_matrix_module :=
  mkTables [(0, 0); (0, 1); (1, 0)]%nat [(0, 1); (0, 0); (1, 0)]%nat
           [(0, 0); (0, 1)]%nat [(0, 0); (0, 1)]%nat [(0, 0); (0, 1)]%nat.

(** The word of [row] in a response with words of [width] bytes. *)
Definition row_word (width : nat) (raw_data : list Z) (row : nat) : Z :=
  from_bytes_big (slice raw_data (2 + row * width) (2 + row * width + width)).

(** Bytes per row word for a map with [cols] columns. *)
Definition word_width (cols : nat) : nat :=
  if (cols <=? 8)%nat then 1
  else if (cols <=? 16)%nat then 2
  else if (cols <=? 24)%nat then 3
  else 4.

(** The position reported for [p], as a partial function. *)
Definition report (self : session) (sm : list position) (p : position)
    : option position :=
  match conversion_switch_matrix self with
  | None => Some p
  | Some conversion => convert_switch_matrix p sm conversion
  end.

(** A sample: a map with ten columns, hence words of two bytes; row 0
    reads 0x0201 (bits 0 and 9), row 1 reads 0x0008 (bit 3). *)
Definition matrix_map : list position := [(0, 0); (0, 9); (1, 3); (1, 4)]%nat.

Definition matrix_session : session :=
  mkSession PI500PLUS (Some ISO) (Some matrix_map) None [].

Definition matrix_reply : list Z := fit MSG_LEN [2; 3; 0x02; 0x01; 0x00; 0x08].

Definition matrix_world : world scripted :=
  start scripted [matrix_reply] fresh_heap.

Definition matrix_world' : world scripted :=
  mkWorld ([] : dev scripted) [frame_of [2; 3]] [] fresh_heap 0.

(** A colour whose three components are bytes. *)
Definition byte_colour (c : hsv) : Prop :=
  is_byte c.1.1 = true /\ is_byte c.1.2 = true /\ is_byte c.2 = true.

(** A device that answers every report with a frame that starts with the
    first two payload bytes of the report. *)
Definition echoes (T : Transport) : Prop :=
  forall (d : dev T) (cmd s : Z) (rest : list Z),
    exists tail,
      snd (dev_read T (dev_write T d (0 :: cmd :: s :: rest)) MSG_LEN)
      = cmd :: s :: tail.

(** The device after one report has been written and one read. *)
Definition exchange_step (T : Transport) (d : dev T) (frame : list Z) : dev T :=
  fst (dev_read T (dev_write T d frame) MSG_LEN).

(** The world after the exchanges of [frames], one after the other. *)
Definition after_frames {T} (w : world T) (frames : list (list Z)) : world T :=
  mkWorld (foldl (exchange_step T) (device w) frames)
          (written w ++ frames) (stdout w) (heap w) (slept w).

(** The [k]-th direct-fastset report of a push of the directory [leds]. *)
Definition fastset_packet (h : nat -> LED) (leds : list nat) (k : nat)
    : list Z :=
  let count := (9 `min` (length leds - 9 * k))%nat in
  frame_of ([CMD_LIGHTING_SET_VALUE; VIALRGB_DIRECT_FASTSET;
             Z.of_nat (9 * k) mod 256; Z.of_nat (9 * k) / 256; Z.of_nat count]
            ++ colour_buffer h (take count (drop (9 * k) leds))).

(** Number of reports of a push. *)
Definition packets (leds : list nat) : nat := ((length leds + 8) / 9)%nat.

(** A sample directory of eleven LEDs, on the colour-storing device. *)
Definition led_refs : list nat := seq 0 11.

Definition led_session : session :=
  mkSession PI500PLUS (Some ISO) None None led_refs.

Definition led_world : world led_store :=
  start led_store (mkLedDevice (fun _ => (7, 7, 7)) []) fresh_heap.

(** The three bytes of a colour. *)
Definition triple (c : hsv) : list Z := let '(a, b, c) := c in [a; b; c].

(** The report that asks for nine colours from [retrieved] on, and the
    answer of the colour-storing device. *)
Definition pull_frame (retrieved : nat) : list Z :=
  frame_of (payload_of CMD_RPI_COMMAND (Some RPI_CMD_GET_CURRENT_DIRECT_LEDS)
              (Some [Z.of_nat retrieved mod 256; Z.of_nat retrieved / 256; 9])).

Definition pull_answer (m : nat -> hsv) (retrieved : nat) : list Z :=
  [CMD_RPI_COMMAND; RPI_CMD_GET_CURRENT_DIRECT_LEDS;
   Z.of_nat retrieved mod 256; Z.of_nat retrieved / 256; 9]
  ++ load_colours_dev m retrieved 9.

(** The ids received before the first sentinel. *)
Fixpoint before_sentinel (ids : list Z) : list Z :=
  match ids with
  | [] => []
  | v :: rest => if v =? 0xFFFF then [] else v :: before_sentinel rest
  end.

(** The response page that carries [ids]: the echoed header, then each id
    as 16 bits, low byte first. *)
Definition le16_list (ids : list Z) : list Z :=
  ids ≫= (fun v => [v mod 256; v / 256]).

Definition page_frame (ids : list Z) : list Z :=
  [CMD_LIGHTING_GET_VALUE; VIALRGB_GET_SUPPORTED] ++ le16_list ids.

(** A well-formed page: 15 ids of 16 bits. *)
Definition page_ok (ids : list Z) : Prop :=
  length ids = 15%nat /\ Forall (fun v => 0 <= v < 65536) ids.

(** Two pages, the sentinel in the second. *)
Definition sample_pages : list (list Z) :=
  [ [2; 3; 4; 5; 6; 7; 8; 9; 10; 11; 12; 13; 14; 15; 16];
    [17; 18; 0xFFFF; 0; 0; 0; 0; 0; 0; 0; 0; 0; 0; 0; 0] ].

(** A page without the sentinel, and the device that answers every
    request with it. *)
Definition zero_page : list Z :=
  fit MSG_LEN [CMD_LIGHTING_GET_VALUE; VIALRGB_GET_SUPPORTED].

(** Answers of the device to the two read requests, for a directory of
    two LEDs. *)
Definition current_leds_reply : list Z :=
  fit MSG_LEN [CMD_RPI_COMMAND; RPI_CMD_GET_CURRENT_DIRECT_LEDS; 0; 0; 9;
               1; 2; 3; 4; 5; 6].

Definition saved_leds_reply : list Z :=
  fit MSG_LEN [CMD_RPI_COMMAND; RPI_CMD_GET_SAVED_DIRECT_LEDS; 0; 0; 9;
               7; 8; 9; 10; 11; 12].

Definition two_led_session : session :=
  mkSession PI500PLUS (Some ISO) None None [0; 1]%nat.

(** The colours of the LED objects of the session's own directory. *)
Definition directory_colours {T} (self : session) (w : world T) : list hsv :=
  (fun r => colour (heap w r)) <$> _led_map self.

(** The world [w] after [print(text)]. *)
Definition printed_text {T} (w : world T) (text : string) : world T :=
  mkWorld (device w) (written w) (stdout w ++ [Text text]) (heap w) (slept w).

(** Answers of the device during a handshake: the status report with the
    two unlock keys [5, 0] and [5, 1], the echo of the unlock request and
    the poll report. *)
Definition status_reply (unlocked unlock_in_progress : Z) : list Z :=
  [unlocked; unlock_in_progress; 5; 0; 5; 1] ++ replicate 26 0xFF.

Definition unlock_start_reply : list Z :=
  fit MSG_LEN [CMD_VIAL_COMMAND; VIAL_UNLOCK_START].

Definition poll_reply (unlocked unlock_in_progress unlock_counter : Z) : list Z :=
  fit MSG_LEN [unlocked; unlock_in_progress; unlock_counter].

Definition plus_session : session :=
  mkSession PI500PLUS (Some ISO) (Some [(5, 0); (5, 1)]%nat) None [0; 1]%nat.

(** A handshake in restricted mode on which the device counts down and
    then reports unlocked = false and in-progress = false, with the
    worlds it goes through: after the first status request, after the
    polling loop, after the last status request. *)
Definition handshake_w : world scripted :=
  start scripted
    [status_reply 0 0; unlock_start_reply; status_reply 0 1;
     poll_reply 0 1 2; poll_reply 0 1 1; poll_reply 0 0 0;
     status_reply 0 0] fresh_heap.

Definition handshake_w0 : world scripted :=
  snd (get_unlock_status plus_session handshake_w).

Definition handshake_w2 : world scripted :=
  snd (unlock_handshake 10 plus_session true false 0 [(5, 0); (5, 1)]%nat
         handshake_w0).

Definition handshake_w3 : world scripted :=
  snd (get_unlock_status plus_session handshake_w2).

(** Answers to the two writes of [set_led_direct_effect]. *)
Definition set_mode_reply : list Z := fit MSG_LEN [CMD_RPI_COMMAND; RPI_CMD_SET_MODE].

Definition set_index_reply : list Z :=
  fit MSG_LEN [CMD_RPI_COMMAND; RPI_CMD_SET_CURRENT_MODE_INDEX].

(** A frame that echoes the command: the opcode first, then the
    subopcode when the command has one. *)
Definition echo_of (cmd : Z) (subcmd : option Z) (r : list Z) : Prop :=
  match subcmd with
  | Some s => exists tail, r = cmd :: s :: tail
  | None => exists tail, r = cmd :: tail
  end.

(** [m] writes the report [frame] at most [n] times and nothing else,
    however it ends. *)
Definition resends {T A} (n : nat) (frame : list Z) (m : M T A) : Prop :=
  forall w, exists k,
    (k <= n)%nat /\ written (snd (m w)) = written w ++ replicate k frame.

(** A response to the protocol-version command that carries the version
    word [hi * 256 + lo]. *)
Definition version_reply (hi lo : Z) : list Z :=
  fit MSG_LEN [CMD_GET_PROTOCOL_VERSION; hi; lo].

(** Both tests of [_search_devices]. *)
Definition is_compatible (desc : descriptor) : bool :=
  is_rpi_keyboard desc && is_vial_interface desc.

(** Sample entries of [enumerate_devices()]: the keyboard interface and
    the Vial interface of one Pi 500+ keyboard, and a mouse. *)
Definition sample_devices : list descriptor :=
  [ mkDescriptor 0x046d 0xc077 "" 1 2 "/dev/hidraw0";
    mkDescriptor 0x2e8a 0x0011 "vial:f64c2b3c" 1 6 "/dev/hidraw1";
    mkDescriptor 0x2e8a 0x0011 "vial:f64c2b3c" 0xFF60 0x61 "/dev/hidraw2" ].

(** The world in which the pending input of a scripted device is gone. *)
Definition drained (w : world scripted) : world scripted :=
  mkWorld (T := scripted) [] (written w) (stdout w) (heap w) (slept w).

(** The Preset object that [get_preset] builds from the bytes that
    [set_preset] packs for [p]. *)
Definition as_read (p : Preset) : preset_read :=
  mkPresetRead (p_flags p) (p_effect p) (p_speed p) (Z.b2z (p_fixed_hue p))
    (p_startup_animation p) (p_hue p) (p_sat p).

(** Responses of a scripted device to the three commands of
    [get_current_effect]. *)
Definition index_reply (current saved : Z) : list Z :=
  fit MSG_LEN [CMD_RPI_COMMAND; RPI_CMD_GET_CURRENT_MODE_INDEX; current; saved].

Definition mode_reply (index : Z) (r : preset_read) (e0 e1 : Z) : list Z :=
  fit MSG_LEN [CMD_RPI_COMMAND; RPI_CMD_GET_MODE; index; r_flags r; e0; e1;
               r_speed r; r_fixed_hue r; r_startup_animation r; r_hue r; r_sat r].

Definition hue_reply (hue : Z) : list Z :=
  fit MSG_LEN [CMD_RPI_COMMAND; RPI_CMD_GET_HUE; hue].

Definition sample_preset : Preset := mkPreset 0xFF 0x0102 200 true 2 30 255.

(** The name of effect [id] is found again under the number [id]. *)
Definition names_back (id : Z) (pretty_name : bool) : bool :=
  match get_vial_effect_name id pretty_name with
  | inr (Some name) => bool_decide (get_vial_effect_id name = Some id)
  | _ => false
  end.

(** Every report that [m] writes satisfies [P], however [m] ends. *)
Definition writes_only {T A} (P : list Z -> Prop) (m : M T A) : Prop :=
  forall w, exists frames,
    written (snd (m w)) = written w ++ frames /\ Forall P frames.

(** A report that carries a Vial command. *)
Definition vial_report (frame : list Z) : Prop :=
  exists rest, frame = 0 :: CMD_VIAL_COMMAND :: rest.

(** The responses of a scripted device to a run of unlock polls, each
    given as (unlocked, unlock_in_progress, unlock_counter). *)
Definition poll_frames (polls : list (Z * Z * Z)) : list (list Z) :=
  (fun '(u, p, c) => poll_reply u p c) <$> polls.

(** The counter lines of a run of polls: a counter is shown when it
    differs from the one shown last. *)
Fixpoint counters_shown (last : Z) (polls : list (Z * Z * Z)) : list printed :=
  match polls with
  | [] => []
  | (_, _, c) :: rest =>
      if c =? last then counters_shown last rest
      else UnlockCounter c :: counters_shown c rest
  end.

Definition still_busy (poll : Z * Z * Z) : Prop := poll.1.2 <> 0.

(** Responses of a scripted device to the two commands of [get_leds]:
    the number of LEDs, and the description (x, y, flags, row, col) of
    one LED. *)
Definition number_reply (n : Z) : list Z :=
  fit MSG_LEN [CMD_LIGHTING_GET_VALUE; VIALRGB_GET_NUMBER_LEDS; n mod 256; n / 256].

Definition led_info : Type := Z * Z * Z * Z * Z.

Definition info_reply (info : led_info) : list Z :=
  let '(x, y, flags, row, col) := info in
  fit MSG_LEN [CMD_LIGHTING_GET_VALUE; VIALRGB_GET_LED_INFO; x; y; flags; row; col].

(** The LED object made for LED number [i] from its description. *)
Definition led_of_info (i : nat) (info : led_info) : LED :=
  let '(x, y, flags, row, col) := info in
  mkLED i x y flags (Z.to_nat row, Z.to_nat col) (0, 0, 0).

Definition rgb_session : session :=
  mkSession PI500PLUS (Some ISO) (Some [(0, 0); (0, 1)]%nat) None [].

(** Responses of a scripted device to the queries of [__init__]: a status
    with no unlock in progress and no unlock keys, the Vial information
    (protocol version in four bytes, keyboard id, flags) and the firmware
    version (major, then minor and patch in one byte). *)
Definition idle_status : list Z := [0; 0] ++ replicate 30 0xFF.

Definition vial_reply (b0 b1 b2 b3 flags : Z) : list Z :=
  [b0; b1; b2; b3] ++ replicate 8 0 ++ [flags] ++ replicate 19 0.

Definition firmware_reply (major minor_patch : Z) : list Z :=
  fit MSG_LEN [CMD_RPI_COMMAND; RPI_CMD_GET_VERSION; major; minor_patch].

(** What the device says of itself in those responses. *)
Record versions : Type := mkVersions {
  via : Z;
  vial0 : Z; vial1 : Z; vial2 : Z; vial3 : Z;
  vial_flags : Z;
  fw_major : Z;
  fw_minor_patch : Z
}.

Definition init_script (vs : versions) : list (list Z) :=
  [ idle_status; version_reply 0 (via vs);
    vial_reply (vial0 vs) (vial1 vs) (vial2 vs) (vial3 vs) (vial_flags vs);
    firmware_reply (fw_major vs) (fw_minor_patch vs) ].

Definition vial_version (vs : versions) : Z :=
  from_bytes_little [vial0 vs; vial1 vs; vial2 vs; vial3 vs].

Definition firmware_too_old (vs : versions) : Prop :=
  fw_major vs < 1 \/ (fw_major vs = 1 /\ fw_minor_patch vs < 0x20).

(** The (row, col) pairs of the bytes that follow the two status bytes,
    and the test that keeps a pair as an unlock key. *)
Fixpoint key_pairs (body : list Z) : list (Z * Z) :=
  match body with
  | row :: col :: rest => (row, col) :: key_pairs rest
  | _ => []
  end.

Definition is_key (p : Z * Z) : bool :=
  negb (p.1 =? 0xFF) && negb (p.2 =? 0xFF).

Definition key_position (p : Z * Z) : position := (Z.to_nat p.1, Z.to_nat p.2).

(** The five bytes that [set_keycode] packs after the opcode. *)
Definition keycode_bytes (layer : Z) (row col : nat) (keycode : Z) : list Z :=
  [layer; Z.of_nat row; Z.of_nat col; keycode / 256; keycode mod 256].

(** The colour bytes of a run of LEDs as they go on the wire: hue, then
    saturation, then value of each LED, in the order of the run. *)
Definition hsv_bytes (h : nat -> LED) (refs : list nat) : list Z :=
  refs ≫= (fun r => [ (colour (h r)).1.1; (colour (h r)).1.2; (colour (h r)).2 ]).

(** An object store in which LED [r] has the hue [r], the saturation
    [100 + r] and the value [200 + r], and a world with it. *)
Definition rainbow_heap : nat -> LED :=
  fun r => mkLED r 0 0 0 (0, r)%nat
             (Z.of_nat r, 100 + Z.of_nat r, 200 + Z.of_nat r).

Definition rainbow_world : world led_store :=
  start led_store (mkLedDevice (fun _ => (7, 7, 7)) []) rainbow_heap.

(** Tables in which the conversion table names one position twice, and
    tables in which it is shorter than the switch matrix map. *)
Definition duplicate_tables : switch_matrix_module :=
  mkTables [(0, 0); (0, 1)]%nat [(1, 1); (1, 1)]%nat
           [(0, 0); (0, 1)]%nat [(0, 0); (0, 1)]%nat [(0, 0); (0, 1)]%nat.

Definition short_tables : switch_matrix_module :=
  mkTables [(0, 0); (0, 1)]%nat [(1, 1)]%nat
           [(0, 0); (0, 1)]%nat [(0, 0); (0, 1)]%nat [(0, 0); (0, 1)]%nat.

(** * Properties *)

(** ** Bytes and formats *)

Lemma is_byte_spec (b : Z) : is_byte b = true <-> 0 <= b < 256.
Proof. unfold is_byte. rewrite andb_true_iff, Z.leb_le, Z.ltb_lt. tauto. Qed.

Lemma forallb_is_byte_app (a b : list Z) :
  forallb is_byte (a ++ b) = forallb is_byte a && forallb is_byte b.
Proof. apply forallb_app. Qed.

Lemma to_bytes1_byte (n : Z) : is_byte n = true -> to_bytes1 n = Some [n].
Proof. unfold to_bytes1. intros ->. reflexivity. Qed.

Lemma join_to_bytes1_bytes (l : list Z) :
  forallb is_byte l = true -> join_to_bytes1 l = Some l.
Proof.
  unfold join_to_bytes1. induction l as [|b l IH]; simpl; [reflexivity|].
  rewrite andb_true_iff. intros [Hb Hl].
  rewrite (to_bytes1_byte b Hb). simpl.
  specialize (IH Hl). destruct (mapM to_bytes1 l) as [ll|]; simpl in *; [|discriminate].
  congruence.
Qed.

Lemma pack_HB_little_ok (a b : Z) :
  0 <= a < 65536 -> 0 <= b < 256 ->
  pack_HB_little a b = Some [a mod 256; a / 256; b].
Proof.
  intros Ha Hb. unfold pack_HB_little, pack_H_little, pack_B, is_byte.
  replace (0 <=? a) with true by (symmetry; apply Z.leb_le; lia).
  replace (a <? 65536) with true by (symmetry; apply Z.ltb_lt; lia).
  replace (0 <=? b) with true by (symmetry; apply Z.leb_le; lia).
  replace (b <? 256) with true by (symmetry; apply Z.ltb_lt; lia).
  reflexivity.
Qed.

Lemma length_pad_report (command_data frame : list Z) :
  pad_report command_data = Some frame -> length frame = S MSG_LEN.
Proof.
  unfold pad_report. destruct (length command_data <=? MSG_LEN)%nat eqn:E; [|discriminate].
  apply Nat.leb_le in E. intros [= <-]. simpl.
  rewrite length_app, length_replicate. lia.
Qed.

(** ** The monad *)

Section MonadLaws.
Context {T : Transport} {A B : Type}.

Lemma bind_Return (m : M T A) (k : A -> M T B) (w w' : world T) (a : A) :
  m w = (Return a, w') -> bind m k w = k a w'.
Proof. unfold bind. intros ->. reflexivity. Qed.

Lemma bind_Raise (m : M T A) (k : A -> M T B) (w w' : world T) (e : exn) :
  m w = (Raise e, w') -> bind m k w = (Raise e, w').
Proof. unfold bind. intros ->. reflexivity. Qed.

Lemma bind_OutOfFuel (m : M T A) (k : A -> M T B) (w w' : world T) :
  m w = (OutOfFuel, w') -> bind m k w = (OutOfFuel, w').
Proof. unfold bind. intros ->. reflexivity. Qed.

Lemma bind_ret (a : A) (k : A -> M T B) (w : world T) :
  bind (ret a) k w = k a w.
Proof. reflexivity. Qed.
End MonadLaws.

Lemma unpack_BB_slice (a b : Z) (tail : list Z) :
  unpack_BB (slice (a :: b :: tail) 0 2) = Some (a, b).
Proof. unfold slice. simpl. destruct tail; reflexivity. Qed.

(** ** The command engine *)

Arguments _send_command : simpl never.
Arguments check_loop : simpl never.
Arguments _send_check_command : simpl never.

Section Engine.
Context {T : Transport}.

Lemma send_command_ok (command : list Z) (w : world T) :
  forallb is_byte command = true ->
  (length command <= MSG_LEN)%nat ->
  _send_command command w
  = (Return (answer w (frame_of command)), after_exchange w (frame_of command)).
Proof.
  intros Hb Hl. unfold _send_command, bind, try, ret. rewrite Hb.
  unfold pad_report. apply Nat.leb_le in Hl. rewrite Hl.
  unfold device_write, device_read, answer, after_exchange, frame_of. simpl.
  destruct (dev_read T _ MSG_LEN) as [d data]. reflexivity.
Qed.

Lemma send_command_too_long (command : list Z) (w : world T) :
  forallb is_byte command = true ->
  (MSG_LEN < length command)%nat ->
  _send_command command w = (Raise StructError, w).
Proof.
  intros Hb Hl. unfold _send_command, bind, try, ret, raise. rewrite Hb.
  unfold pad_report. apply Nat.leb_gt in Hl. rewrite Hl. reflexivity.
Qed.

(** [_send_check_command] from the first exchange on. *)
Lemma send_check_unfold (cmd : Z) (subcmd : option Z)
    (data : option (list Z)) (w : world T) :
  let payload := payload_of cmd subcmd data in
  forallb is_byte payload = true ->
  _send_check_command cmd subcmd data w
  = bind (_send_command payload)
      (fun raw_data =>
         bind (match subcmd with
               | None =>
                   bind (try (unpack_Bs 1 (slice raw_data 0 1)) StructError)
                        (fun r => ret (nth 0 r 0, None))
               | Some _ =>
                   bind (try (unpack_BB (slice raw_data 0 2)) StructError)
                        (fun '(a, b) => ret (a, Some b))
               end)
           (fun '(rcmd, rsubcmd) =>
              check_loop (S flush_limit) payload cmd subcmd raw_data
                         rcmd rsubcmd 0)) w.
Proof.
  intros payload Hb. subst payload. unfold payload_of in *.
  unfold _send_check_command.
  simpl in Hb. apply andb_true_iff in Hb as [Hc Hb].
  rewrite (to_bytes1_byte _ Hc).
  destruct subcmd as [s|].
  - simpl in Hb. apply andb_true_iff in Hb as [Hs Hb].
    rewrite (to_bytes1_byte _ Hs).
    destruct data as [d|]; reflexivity.
  - destruct data as [d|]; reflexivity.
Qed.

Lemma check_loop_done (fuel : nat) (payload : list Z) (cmd : Z)
    (subcmd : option Z) (raw_data : list Z) (n : nat) (w : world T) :
  check_loop fuel payload cmd subcmd raw_data cmd subcmd n w
  = (Return raw_data, w).
Proof.
  assert (H : negb (cmd =? cmd) || opt_neqb subcmd subcmd = false).
  { rewrite Z.eqb_refl. destruct subcmd; simpl; [rewrite Z.eqb_refl|]; reflexivity. }
  destruct fuel; unfold check_loop; rewrite H; reflexivity.
Qed.

(** With a subcommand, an answer that echoes both bytes ends the
    exchange at once. *)
Lemma send_check_first_try (cmd s : Z) (data : option (list Z))
    (w : world T) (tail : list Z) :
  let payload := payload_of cmd (Some s) data in
  forallb is_byte payload = true ->
  (length payload <= MSG_LEN)%nat ->
  answer w (frame_of payload) = cmd :: s :: tail ->
  _send_check_command cmd (Some s) data w
  = (Return (cmd :: s :: tail), after_exchange w (frame_of payload)).
Proof.
  intros payload Hb Hl Hans.
  rewrite send_check_unfold by exact Hb. fold payload.
  rewrite (bind_Return _ _ _ _ _ (send_command_ok payload w Hb Hl)).
  rewrite Hans, unpack_BB_slice. cbn [bind try ret].
  apply check_loop_done.
Qed.

Lemma bind_fuel {A B} (m : M T A) (k : A -> M T B) (w : world T) :
  fst (m w) <> OutOfFuel ->
  (forall a w', fst (k a w') <> OutOfFuel) ->
  fst (bind m k w) <> OutOfFuel.
Proof.
  intros Hm Hk. unfold bind. destruct (m w) as [[a|e|] w1].
  - apply Hk.
  - discriminate.
  - contradiction.
Qed.

Lemma try_fuel {A} (o : option A) (e : exn) (w : world T) :
  fst (try o e w) <> OutOfFuel.
Proof. destruct o; discriminate. Qed.

Lemma send_command_fuel (command : list Z) (w : world T) :
  fst (_send_command command w) <> OutOfFuel.
Proof.
  unfold _send_command, bind, try, ret, raise, device_write, device_read.
  destruct (forallb is_byte command); [|discriminate].
  destruct (pad_report command); [|discriminate].
  cbn. destruct (dev_read T _ MSG_LEN). discriminate.
Qed.

Lemma check_loop_fuel (fuel : nat) (payload : list Z) (cmd : Z)
    (subcmd : option Z) (raw_data : list Z) (rcmd : Z) (rsubcmd : option Z)
    (n : nat) (w : world T) :
  (fuel + n = S flush_limit)%nat -> (n <= flush_limit)%nat ->
  fst (check_loop fuel payload cmd subcmd raw_data rcmd rsubcmd n w) <> OutOfFuel.
Proof.
  revert raw_data rcmd rsubcmd n w.
  induction fuel as [|fuel IH]; intros raw_data rcmd rsubcmd n w Hf Hn;
    [unfold flush_limit in *; lia|].
  unfold check_loop; fold (@check_loop T).
  destruct (negb (rcmd =? cmd) || opt_neqb rsubcmd subcmd); [|discriminate].
  unfold bind at 1. pose proof (send_command_fuel payload w) as Hs.
  destruct (_send_command payload w) as [[raw|e|] w1];
    [|discriminate|contradiction].
  unfold bind at 1, try.
  destruct (unpack_BB (slice raw 0 2)) as [[a b]|]; [|discriminate].
  unfold ret at 1.
  destruct (flush_limit <? S n)%nat eqn:E.
  - unfold bind, print, raise. discriminate.
  - apply Nat.ltb_ge in E. apply IH; lia.
Qed.

(** The fuel that [_send_check_command] gives its loop is enough: the
    call always returns or raises. *)
Lemma send_check_fuel (cmd : Z) (subcmd : option Z) (data : option (list Z))
    (w : world T) :
  fst (_send_check_command cmd subcmd data w) <> OutOfFuel.
Proof.
  unfold _send_check_command.
  apply bind_fuel; [apply try_fuel|intros p w1].
  apply bind_fuel.
  { destruct subcmd as [s|]; [|discriminate].
    apply bind_fuel; [apply try_fuel|discriminate]. }
  intros p' w2. lazy zeta.
  apply bind_fuel; [apply send_command_fuel|intros raw w3].
  apply bind_fuel.
  { destruct subcmd as [s|]; (apply bind_fuel; [apply try_fuel|]).
    - intros [a b] w4. discriminate.
    - intros r w4. discriminate. }
  intros [rcmd rsubcmd] w4. apply check_loop_fuel; unfold flush_limit; lia.
Qed.

End Engine.

(** C2. [_send_command] on a payload of bytes: when the payload has at
    most 32 bytes, exactly one frame is written; it is 33 bytes long,
    starts with the report id 0, continues with the payload and is
    zero from there on. When the payload has more than 32 bytes, the
    call raises struct.error and the world, the trace of written frames
    included, is as it was. *)
Theorem send_command_frame (T : Transport) (command : list Z) (w : world T) :
  forallb is_byte command = true ->
  ((length command <= 32)%nat ->
     exists (frame data : list Z) (w' : world T),
       _send_command command w = (Return data, w')
       /\ written w' = written w ++ [frame]
       /\ length frame = 33%nat
       /\ frame = 0 :: command ++ replicate (32 - length command) 0)
  /\ ((32 < length command)%nat ->
        _send_command command w = (Raise StructError, w)).
Proof.
  intros Hb. split; intros Hl.
  - exists (frame_of command), (answer w (frame_of command)),
           (after_exchange w (frame_of command)).
    split; [apply send_command_ok; assumption|].
    split; [reflexivity|]. split; [|reflexivity].
    unfold frame_of, MSG_LEN. simpl. rewrite length_app, length_replicate. lia.
  - apply send_command_too_long; assumption.
Qed.

Lemma send_command_frame_witness :
  forallb is_byte [4; 0; 1; 1] = true
  /\ ((length [4; 0; 1; 1] <= 32)%nat ->
        exists (frame data : list Z) (w' : world scripted),
          _send_command [4; 0; 1; 1] (start scripted [] fresh_heap)
          = (Return data, w')
          /\ written w' = written (start scripted [] fresh_heap) ++ [frame]
          /\ length frame = 33%nat
          /\ frame = 0 :: [4; 0; 1; 1] ++ replicate (32 - length [4; 0; 1; 1]) 0)
  /\ ((32 < length [4; 0; 1; 1])%nat ->
        _send_command [4; 0; 1; 1] (start scripted [] fresh_heap)
        = (Raise StructError, start scripted [] fresh_heap)).
Proof.
  split; [reflexivity|].
  apply (send_command_frame scripted [4; 0; 1; 1] (start scripted [] fresh_heap)).
  reflexivity.
Defined.

(** The frame that [_send_check_command] writes holds the opcode, then
    the subopcode if there is one, then the arguments. *)
Lemma send_check_frame_layout (cmd s : Z) (d : list Z) :
  frame_of (payload_of cmd (Some s) (Some d))
  = 0 :: cmd :: s :: d ++ replicate (MSG_LEN - (2 + length d)) 0
  /\ frame_of (payload_of cmd None (Some d))
     = 0 :: cmd :: d ++ replicate (MSG_LEN - (1 + length d)) 0.
Proof. split; reflexivity. Qed.

(** *** Retries *)

Section Retry.
Context {T : Transport}.

(** Without a subcommand the loop cannot be left by its condition: the
    second field read back is never [None]. *)
Lemma check_loop_no_subcmd (fuel : nat) (payload : list Z) (cmd : Z)
    (raw_data : list Z) (rcmd : Z) (rsubcmd : option Z) (n : nat)
    (w w' : world T) (r : list Z) :
  negb (rcmd =? cmd) || opt_neqb rsubcmd None = true ->
  check_loop fuel payload cmd None raw_data rcmd rsubcmd n w <> (Return r, w').
Proof.
  revert raw_data rcmd rsubcmd n w.
  induction fuel as [|fuel IH]; intros raw_data rcmd rsubcmd n w Hc;
    unfold check_loop; fold (@check_loop T); rewrite Hc.
  - discriminate.
  - unfold bind at 1.
    destruct (_send_command payload w) as [[raw| |] w1]; try discriminate.
    unfold bind at 1, try.
    destruct (unpack_BB (slice raw 0 2)) as [[a b]|]; try discriminate.
    unfold ret at 1.
    destruct (flush_limit <? S n)%nat.
    + unfold bind, print, raise. discriminate.
    + apply IH. simpl. apply orb_true_r.
Qed.

(** So an exchange without a subcommand returns only if the very first
    answer echoes the opcode: exactly one frame has been written. *)
Lemma send_check_no_subcmd_returns (cmd : Z) (data : option (list Z))
    (w w' : world T) (r : list Z) :
  forallb is_byte (payload_of cmd None data) = true ->
  _send_check_command cmd None data w = (Return r, w') ->
  w' = after_exchange w (frame_of (payload_of cmd None data))
  /\ r = answer w (frame_of (payload_of cmd None data))
  /\ exists tail, r = cmd :: tail.
Proof.
  intros Hb. rewrite send_check_unfold by exact Hb.
  set (payload := payload_of cmd None data) in *.
  destruct (le_lt_dec (length payload) MSG_LEN) as [Hl|Hl].
  - rewrite (bind_Return _ _ _ _ _ (send_command_ok payload w Hb Hl)).
    set (raw := answer w (frame_of payload)).
    unfold bind at 1. unfold bind at 1. unfold try.
    destruct (unpack_Bs 1 (slice raw 0 1)) as [l|] eqn:Hu; [|discriminate].
    unfold ret at 1. unfold ret at 1.
    destruct (negb (nth 0 l 0 =? cmd) || opt_neqb None None) eqn:Hc.
    + intros H. exfalso. revert H. apply check_loop_no_subcmd. exact Hc.
    + simpl in Hc. rewrite orb_false_r in Hc.
      apply negb_false_iff, Z.eqb_eq in Hc. rewrite Hc.
      rewrite check_loop_done. intros [= <- <-].
      split; [reflexivity|]. split; [reflexivity|].
      unfold unpack_Bs in Hu.
      destruct (length (slice raw 0 1) =? 1)%nat eqn:E; [|discriminate].
      injection Hu as <-. unfold slice in *. simpl in *.
      destruct raw as [|a raw']; [discriminate|].
      simpl in Hc. exists raw'. congruence.
  - rewrite (bind_Raise _ _ _ _ _ (send_command_too_long payload w Hb Hl)).
    discriminate.
Qed.
End Retry.

(** C1. A command without a subcommand byte (here get-keycode, 0x04)
    whose first answer is a stale report and whose second answer echoes
    the opcode: the exchange does not return the matching answer; it
    resends six times and raises. *)
Theorem send_check_retry_without_subcmd :
  let w := start scripted (other_reply :: replicate 7 good_reply) fresh_heap in
  let r := _send_check_command CMD_VIA_DYNAMIC_KEYMAP_GET_KEYCODE None
             (Some [0; 1; 1]) w in
  fst r = Raise (KeyboardNotCompatibleError
                   "Keyboard is not responding as expected.")
  /\ length (written (snd r)) = 7%nat
  /\ stdout (snd r) = [NotResponding good_reply].
Proof. vm_compute. repeat split; reflexivity. Qed.

(** *** The retry bound, with a subcommand, on the scripted transport *)

Lemma scripted_send (payload r : list Z) (d : list (list Z))
    (w : world scripted) :
  forallb is_byte payload = true ->
  (length payload <= MSG_LEN)%nat ->
  device w = r :: d ->
  _send_command payload w
  = (Return (take MSG_LEN r), after_resends w d (frame_of payload) 1).
Proof.
  intros Hb Hl Hdev. rewrite (send_command_ok payload w Hb Hl).
  unfold answer, after_exchange, after_resends.
  cbn [scripted dev_write dev_read]. rewrite Hdev. reflexivity.
Qed.

Lemma after_resends_S (w : world scripted) (d d' : list (list Z))
    (frame : list Z) (k : nat) :
  after_resends (after_resends w d' frame 1) d frame k
  = after_resends w d frame (S k).
Proof.
  unfold after_resends. cbn [written stdout heap slept replicate].
  rewrite <- app_assoc. reflexivity.
Qed.

Lemma stale_header (cmd s : Z) (r : list Z) :
  stale cmd s r = true ->
  exists a b, unpack_BB (slice (take MSG_LEN r) 0 2) = Some (a, b)
              /\ negb (a =? cmd) || opt_neqb (Some b) (Some s) = true.
Proof.
  destruct r as [|a [|b r]]; try discriminate. intros H.
  exists a, b. split.
  - unfold MSG_LEN. cbn [take]. apply unpack_BB_slice.
  - cbn [stale] in H. cbn [opt_neqb]. rewrite negb_andb in H. exact H.
Qed.

Section Bound.
Variables (cmd s : Z) (data : option (list Z)).
Let payload := payload_of cmd (Some s) data.
Hypothesis Hb : forallb is_byte payload = true.
Hypothesis Hl : (length payload <= MSG_LEN)%nat.

(** Stale answers followed by the matching one, while the count stays
    within the limit. *)
Lemma check_loop_absorbs (bads : list (list Z)) (tail : list Z)
    (rest : list (list Z)) (n fuel : nat) (raw_data : list Z) (rcmd : Z)
    (rsubcmd : option Z) (w : world scripted) :
  negb (rcmd =? cmd) || opt_neqb rsubcmd (Some s) = true ->
  forallb (stale cmd s) bads = true ->
  (length (cmd :: s :: tail) <= MSG_LEN)%nat ->
  device w = bads ++ (cmd :: s :: tail) :: rest ->
  (S (n + length bads) <= flush_limit)%nat ->
  (length bads < fuel)%nat ->
  check_loop fuel payload cmd (Some s) raw_data rcmd rsubcmd n w
  = (Return (cmd :: s :: tail),
     after_resends w rest (frame_of payload) (S (length bads))).
Proof.
  intros Hc Hst Hlen. revert n fuel raw_data rcmd rsubcmd w Hc.
  induction bads as [|bad bads IH];
    intros n fuel raw_data rcmd rsubcmd w Hc Hdev Hn Hf;
    (destruct fuel as [|fuel]; [simpl in Hf; lia|]);
    unfold check_loop; fold (@check_loop scripted); rewrite Hc;
    rewrite (bind_Return _ _ _ _ _ (scripted_send payload _ _ w Hb Hl Hdev)).
  - rewrite (take_ge _ _ Hlen), unpack_BB_slice. cbn [try]. rewrite bind_ret.
    replace (flush_limit <? S n)%nat with false
      by (symmetry; apply Nat.ltb_ge; simpl in Hn; lia).
    apply check_loop_done.
  - cbn [forallb] in Hst. apply andb_true_iff in Hst as [Hbad Hst].
    destruct (stale_header cmd s bad Hbad) as (a & b & Hu & Hm).
    rewrite Hu. cbn [try]. rewrite bind_ret.
    replace (flush_limit <? S n)%nat with false
      by (symmetry; apply Nat.ltb_ge; simpl in Hn; lia).
    rewrite (IH Hst (S n) fuel _ a (Some b)
               (after_resends w (bads ++ (cmd :: s :: tail) :: rest)
                  (frame_of payload) 1) Hm eq_refl)
      by (simpl in *; lia).
    rewrite after_resends_S. reflexivity.
Qed.

(** Stale answers until the count passes the limit: the frame read last
    is printed and the call raises, whatever that frame is. *)
Lemma check_loop_gives_up (bads : list (list Z)) (r : list Z)
    (rest : list (list Z)) (n fuel : nat) (raw_data : list Z) (rcmd : Z)
    (rsubcmd : option Z) (w : world scripted) (a b : Z) :
  negb (rcmd =? cmd) || opt_neqb rsubcmd (Some s) = true ->
  forallb (stale cmd s) bads = true ->
  unpack_BB (slice (take MSG_LEN r) 0 2) = Some (a, b) ->
  device w = bads ++ r :: rest ->
  (n + length bads = flush_limit)%nat ->
  (length bads < fuel)%nat ->
  check_loop fuel payload cmd (Some s) raw_data rcmd rsubcmd n w
  = (Raise (KeyboardNotCompatibleError "Keyboard is not responding as expected."),
     snd (print (NotResponding (take MSG_LEN r))
            (after_resends w rest (frame_of payload) (S (length bads))))).
Proof.
  intros Hc Hst Hr. revert n fuel raw_data rcmd rsubcmd w Hc.
  induction bads as [|bad bads IH];
    intros n fuel raw_data rcmd rsubcmd w Hc Hdev Hn Hf;
    (destruct fuel as [|fuel]; [simpl in Hf; lia|]);
    unfold check_loop; fold (@check_loop scripted); rewrite Hc;
    rewrite (bind_Return _ _ _ _ _ (scripted_send payload _ _ w Hb Hl Hdev)).
  - rewrite Hr. cbn [try]. rewrite bind_ret.
    replace (flush_limit <? S n)%nat with true
      by (symmetry; apply Nat.ltb_lt; simpl in Hn; lia).
    reflexivity.
  - cbn [forallb] in Hst. apply andb_true_iff in Hst as [Hbad Hst].
    destruct (stale_header cmd s bad Hbad) as (a' & b' & Hu & Hm).
    rewrite Hu. cbn [try]. rewrite bind_ret.
    replace (flush_limit <? S n)%nat with false
      by (symmetry; apply Nat.ltb_ge; simpl in Hn; lia).
    rewrite (IH Hst (S n) fuel _ a' (Some b')
               (after_resends w (bads ++ r :: rest) (frame_of payload) 1)
               Hm eq_refl)
      by (simpl in *; lia).
    rewrite after_resends_S. reflexivity.
Qed.

(** With a subcommand the bound is as described, for every command: up
    to five stale answers before the matching one are absorbed and the
    matching answer is returned, after one write per answer read. *)
Lemma send_check_absorbs (bads : list (list Z)) (tail : list Z)
    (rest : list (list Z)) (w : world scripted) :
  forallb (stale cmd s) bads = true ->
  (length bads <= flush_limit)%nat ->
  (length (cmd :: s :: tail) <= MSG_LEN)%nat ->
  device w = bads ++ (cmd :: s :: tail) :: rest ->
  _send_check_command cmd (Some s) data w
  = (Return (cmd :: s :: tail),
     after_resends w rest (frame_of payload) (S (length bads))).
Proof.
  intros Hst Hn Hlen Hdev.
  rewrite send_check_unfold by exact Hb. fold payload.
  destruct bads as [|bad bads].
  - rewrite (bind_Return _ _ _ _ _ (scripted_send payload _ _ w Hb Hl Hdev)).
    rewrite (take_ge _ _ Hlen), unpack_BB_slice. cbn [bind try ret].
    apply check_loop_done.
  - rewrite (bind_Return _ _ _ _ _ (scripted_send payload _ _ w Hb Hl Hdev)).
    cbn [forallb] in Hst. apply andb_true_iff in Hst as [Hbad Hst].
    destruct (stale_header cmd s bad Hbad) as (a & b & Hu & Hm).
    rewrite Hu. cbn [bind try ret].
    rewrite (check_loop_absorbs bads tail rest 0 (S flush_limit) _ a (Some b)
               (after_resends w (bads ++ (cmd :: s :: tail) :: rest)
                  (frame_of payload) 1) Hm Hst Hlen eq_refl)
      by (simpl in *; lia).
    rewrite after_resends_S. reflexivity.
Qed.

(** Six stale answers are fatal: the seventh frame read is printed and
    the call raises, even if that frame matches. *)
Lemma send_check_gives_up (bads : list (list Z)) (r : list Z)
    (rest : list (list Z)) (w : world scripted) (a b : Z) :
  forallb (stale cmd s) bads = true ->
  length bads = S flush_limit ->
  unpack_BB (slice (take MSG_LEN r) 0 2) = Some (a, b) ->
  device w = bads ++ r :: rest ->
  _send_check_command cmd (Some s) data w
  = (Raise (KeyboardNotCompatibleError "Keyboard is not responding as expected."),
     snd (print (NotResponding (take MSG_LEN r))
            (after_resends w rest (frame_of payload) (S (length bads))))).
Proof.
  intros Hst Hn Hr Hdev.
  rewrite send_check_unfold by exact Hb. fold payload.
  destruct bads as [|bad bads]; [discriminate|].
  rewrite (bind_Return _ _ _ _ _ (scripted_send payload _ _ w Hb Hl Hdev)).
  cbn [forallb] in Hst. apply andb_true_iff in Hst as [Hbad Hst].
  destruct (stale_header cmd s bad Hbad) as (a' & b' & Hu & Hm).
  rewrite Hu. cbn [bind try ret].
  rewrite (check_loop_gives_up bads r rest 0 (S flush_limit) _ a' (Some b')
             (after_resends w (bads ++ r :: rest) (frame_of payload) 1)
             a b Hm Hst Hr eq_refl) by (simpl in *; lia).
  rewrite after_resends_S. reflexivity.
Qed.
End Bound.

(** The same on a sample. *)
Lemma send_check_retry_with_subcmd :
  (forall n, (n <= 5)%nat ->
     fst (_send_check_command CMD_RPI_COMMAND
            (Some RPI_CMD_GET_CURRENT_MODE_INDEX) None
            (start scripted (replicate n other_reply ++ [good_reply2]) fresh_heap))
     = Return good_reply2)
  /\ fst (_send_check_command CMD_RPI_COMMAND
            (Some RPI_CMD_GET_CURRENT_MODE_INDEX) None
            (start scripted (replicate 6 other_reply ++ [good_reply2]) fresh_heap))
     = Raise (KeyboardNotCompatibleError
                "Keyboard is not responding as expected.").
Proof.
  split; [|vm_compute; reflexivity].
  intros n Hn.
  do 6 (destruct n as [|n]; [vm_compute; reflexivity|]). lia.
Qed.

(** ** The conversion table *)

Lemma index_of_lookup (p : position) (l : list position) (i : nat) :
  index_of p l = Some i -> l !! i = Some p.
Proof.
  revert i. induction l as [|q l IH]; intros i; simpl; [discriminate|].
  destruct (decide (q = p)) as [->|Hne].
  - intros [= <-]. reflexivity.
  - destruct (index_of p l) as [j|] eqn:E; simpl; [|discriminate].
    intros [= <-]. simpl. apply IH. reflexivity.
Qed.

Lemma index_of_elem (p : position) (l : list position) :
  p ∈ l -> is_Some (index_of p l).
Proof.
  induction l as [|q l IH]; intros H; [inversion H|]. simpl.
  destruct (decide (q = p)); [eauto|].
  apply elem_of_cons in H as [->|H]; [congruence|].
  destruct (IH H) as [j ->]. simpl. eauto.
Qed.

Lemma index_of_NoDup (l : list position) (i : nat) (q : position) :
  NoDup l -> l !! i = Some q -> index_of q l = Some i.
Proof.
  revert i. induction l as [|a l IH]; intros i Hnd Hl; [discriminate|].
  apply list.NoDup_cons in Hnd as [Hnotin Hnd].
  destruct i as [|i]; simpl in Hl.
  - injection Hl as ->. simpl. rewrite decide_True by reflexivity. reflexivity.
  - simpl. destruct (decide (a = q)) as [->|].
    + exfalso. apply Hnotin. apply list_elem_of_lookup. eauto.
    + rewrite (IH i Hnd Hl). reflexivity.
Qed.

(** Going from one table to the other and back. *)
Lemma convert_round_trip (sm conv : list position) (p : position) :
  NoDup conv -> (length sm <= length conv)%nat -> p ∈ sm ->
  exists q, convert_switch_matrix p sm conv = Some q
            /\ convert_switch_matrix q conv sm = Some p.
Proof.
  intros Hnd Hlen Hp.
  destruct (index_of_elem p sm Hp) as [i Hi].
  pose proof (index_of_lookup _ _ _ Hi) as Hsm.
  assert (Hlt : (i < length conv)%nat)
    by (apply lookup_lt_Some in Hsm; lia).
  destruct (lookup_lt_is_Some_2 conv i Hlt) as [q Hq].
  exists q. unfold convert_switch_matrix. rewrite Hi. split; [exact Hq|].
  rewrite (index_of_NoDup conv i q Hnd Hq). exact Hsm.
Qed.

(** ** Decoding the switch matrix state *)

Lemma chunks_fmap (w rows : nat) (buf : list Z) :
  chunks w rows buf = (fun i => take w (drop (i * w) buf)) <$> seq 0 rows.
Proof.
  revert buf. induction rows as [|rows IH]; intros buf; [reflexivity|].
  simpl. f_equal. rewrite IH, <- fmap_S_seq, <- list_fmap_compose.
  apply list_fmap_ext. intros _ i _. simpl. rewrite drop_drop. reflexivity.
Qed.

Lemma slice_chunk (w rows i : nat) (raw : list Z) :
  (i < rows)%nat ->
  take w (drop (i * w) (slice raw 2 (2 + rows * w)))
  = slice raw (2 + i * w) (2 + i * w + w).
Proof.
  intros Hi. unfold slice.
  replace (2 + rows * w - 2)%nat with (rows * w)%nat by lia.
  replace (2 + i * w + w - (2 + i * w))%nat with w by lia.
  rewrite (take_drop_commute (take _ _)), take_take.
  replace ((i * w + w) `min` (rows * w))%nat with (i * w + w)%nat by nia.
  rewrite <- take_drop_commute, drop_drop. reflexivity.
Qed.

Lemma unpack_words_big_slice (w rows : nat) (raw : list Z) :
  (2 + rows * w <= length raw)%nat ->
  unpack_words_big w rows (slice raw 2 (2 + rows * w))
  = Some (row_word w raw <$> seq 0 rows).
Proof.
  intros Hlen. unfold unpack_words_big.
  assert (Hl : length (slice raw 2 (2 + rows * w)) = (rows * w)%nat).
  { unfold slice. rewrite length_take, length_drop. lia. }
  rewrite Hl, Nat.eqb_refl. f_equal.
  rewrite chunks_fmap, <- list_fmap_compose.
  apply list_fmap_ext. intros k i Hk.
  apply lookup_seq in Hk as [-> Hk]. unfold row_word, compose.
  rewrite Nat.add_0_l. rewrite (slice_chunk w rows k raw Hk). reflexivity.
Qed.

Lemma row_states_of_spec (rows cols : nat) (raw : list Z) :
  (2 + rows * word_width cols <= length raw)%nat ->
  row_states_of rows cols raw = Some (row_word (word_width cols) raw <$> seq 0 rows).
Proof.
  unfold row_states_of, word_width.
  destruct (cols <=? 8)%nat; [apply unpack_words_big_slice|].
  destruct (cols <=? 16)%nat; [apply unpack_words_big_slice|].
  destruct (cols <=? 24)%nat; [|apply unpack_words_big_slice].
  intros _. reflexivity.
Qed.

Lemma land_bit (word : Z) (col : nat) :
  negb (Z.land word (Z.shiftl 1 (Z.of_nat col)) =? 0)
  = Z.testbit word (Z.of_nat col).
Proof.
  rewrite Z.shiftl_1_l.
  destruct (Z.testbit word (Z.of_nat col)) eqn:Hb.
  - apply negb_true_iff, Z.eqb_neq. intros H0.
    assert (Ht : Z.testbit (Z.land word (2 ^ Z.of_nat col)) (Z.of_nat col) = true).
    { rewrite Z.land_spec, Hb, Z.pow2_bits_true by lia. reflexivity. }
    rewrite H0, Z.bits_0 in Ht. discriminate.
  - apply negb_false_iff, Z.eqb_eq. apply Z.bits_inj'. intros n Hn.
    rewrite Z.land_spec, Z.bits_0.
    destruct (Z.eq_dec n (Z.of_nat col)) as [->|Hne].
    + rewrite Hb. reflexivity.
    + rewrite (Z.pow2_bits_false (Z.of_nat col) n) by lia.
      apply andb_false_r.
Qed.

Lemma max_of_max_list (l : list nat) :
  l <> [] -> max_of l = Some (max_list l).
Proof.
  destruct l as [|a l]; [congruence|]. intros _. simpl. f_equal.
  induction l as [|b l IH]; simpl; [lia|]. rewrite IH. simpl. lia.
Qed.

Lemma mapM_Some_id {A} (l : list A) : mapM Some l = Some l.
Proof. apply mapM_Some_2. induction l; constructor; auto. Qed.

Arguments active_loop : simpl never.

Section Decoding.
Context {T : Transport}.

Lemma reported_position_spec (self : session) (sm : list position)
    (p : position) (w : world T) :
  switch_matrix self = Some sm ->
  reported_position self p w
  = (match report self sm p with
     | Some q => Return q
     | None => Raise ValueError
     end, w).
Proof.
  intros Hsm. unfold reported_position, report, the_switch_matrix.
  destruct (conversion_switch_matrix self) as [conv|]; [|reflexivity].
  rewrite Hsm. unfold bind, try, ret, raise.
  destruct (convert_switch_matrix p sm conv); reflexivity.
Qed.

Lemma active_loop_spec (self : session) (sm : list position)
    (row_states : list Z) (word : nat -> Z) (switches active : list position)
    (w : world T) :
  switch_matrix self = Some sm ->
  (forall p, p ∈ switches -> row_states !! p.1 = Some (word p.1)) ->
  active_loop self row_states switches active w
  = (match mapM (report self sm)
             (filter (fun p => Z.testbit (word p.1) (Z.of_nat p.2) = true)
                     switches) with
     | Some l => Return (active ++ l)
     | None => Raise ValueError
     end, w).
Proof.
  intros Hsm. revert active.
  induction switches as [|[row col] rest IH]; intros active Hrs.
  - unfold active_loop. simpl. rewrite app_nil_r. reflexivity.
  - unfold active_loop; fold (@active_loop T). cbn [fst snd].
    pose proof (Hrs (row, col) ltac:(left)) as Hw. cbn [fst] in Hw.
    rewrite Hw. cbn [fst snd try bind ret].
    rewrite land_bit, filter_cons. cbn [fst snd].
    destruct (Z.testbit (word row) (Z.of_nat col)) eqn:Hb.
    + rewrite decide_True by reflexivity.
      unfold bind at 1. rewrite (reported_position_spec self sm _ w Hsm).
      cbn [mapM]. destruct (report self sm (row, col)) as [q|]; [|reflexivity].
      rewrite IH by (intros p Hp; apply Hrs; right; exact Hp).
      simpl.
      destruct (mapM (report self sm) _) as [l|]; [|reflexivity].
      simpl. rewrite <- app_assoc. reflexivity.
    + rewrite decide_False by discriminate.
      apply IH. intros p Hp. apply Hrs. right. exact Hp.
Qed.
End Decoding.

(** C4. [get_switch_matrix_state] on a non-empty switch matrix map,
    when the exchange returned [raw_data] and [raw_data] holds the two
    header bytes and one word per row. The word width follows the column
    count (1 byte up to 8 columns, 2 up to 16, 3 up to 24, else 4); the
    word of a row is the big-endian value of its bytes; the positions
    found active are the positions of the map, in map order, at which bit
    [col] of the word of [row] is set, and no others. Without a
    conversion table they are returned as they are, with one each is
    converted from the map to the table. *)
Theorem switch_matrix_state_decoding (T : Transport) (self : session)
    (sm : list position) (raw_data : list Z) (w w' : world T) :
  let rows := S (max_list (fst <$> sm)) in
  let cols := S (max_list (snd <$> sm)) in
  let width := if (cols <=? 8)%nat then 1%nat
               else if (cols <=? 16)%nat then 2%nat
               else if (cols <=? 24)%nat then 3%nat
               else 4%nat in
  let word := fun row =>
    from_bytes_big (slice raw_data (2 + row * width) (2 + row * width + width)) in
  let hits := filter (fun p => Z.testbit (word p.1) (Z.of_nat p.2) = true) sm in
  switch_matrix self = Some sm ->
  sm <> [] ->
  _send_check_command CMD_GET_KEYBOARD_VALUE
    (Some KEYBOARD_VALUE_GET_SWITCH_MATRIX_STATE) None w = (Return raw_data, w') ->
  (2 + rows * width <= length raw_data)%nat ->
  (forall p, p ∈ hits <-> p ∈ sm /\ Z.testbit (word p.1) (Z.of_nat p.2) = true)
  /\ (conversion_switch_matrix self = None ->
        get_switch_matrix_state self w = (Return hits, w'))
  /\ (forall conversion, conversion_switch_matrix self = Some conversion ->
        get_switch_matrix_state self w
        = (match mapM (fun p => convert_switch_matrix p sm conversion) hits with
           | Some active => Return active
           | None => Raise ValueError
           end, w')).
Proof.
  intros rows cols width word hits Hsm Hne Hx Hlen.
  assert (Hrun : get_switch_matrix_state self w
                 = (match mapM (report self sm) hits with
                    | Some l => Return l
                    | None => Raise ValueError
                    end, w')).
  { unfold get_switch_matrix_state, the_switch_matrix. rewrite Hsm.
    cbn [try]. rewrite bind_ret.
    rewrite !max_of_max_list by (destruct sm; [congruence|discriminate]).
    cbn [fmap option_fmap option_map try]. rewrite !bind_ret.
    rewrite (bind_Return _ _ _ _ _ Hx).
    fold rows. fold cols.
    rewrite (row_states_of_spec rows cols raw_data Hlen).
    cbn [try]. rewrite bind_ret.
    rewrite (active_loop_spec self sm _ word sm [] w' Hsm).
    - reflexivity.
    - intros p Hp. rewrite list_lookup_fmap.
      assert (Hlt : (p.1 < rows)%nat).
      { subst rows. apply Nat.lt_succ_r. apply max_list_elem_of_le.
        apply list_elem_of_fmap_2. exact Hp. }
      rewrite (lookup_seq_lt 0 rows _ Hlt). reflexivity. }
  split; [|split].
  - intros p. subst hits. rewrite list_elem_of_filter. tauto.
  - intros Hnone. rewrite Hrun. unfold report. rewrite Hnone.
    rewrite mapM_Some_id. reflexivity.
  - intros conversion Hsome. rewrite Hrun. unfold report. rewrite Hsome.
    reflexivity.
Qed.

Lemma switch_matrix_state_decoding_witness :
  switch_matrix matrix_session = Some matrix_map
  /\ matrix_map <> []
  /\ _send_check_command CMD_GET_KEYBOARD_VALUE
       (Some KEYBOARD_VALUE_GET_SWITCH_MATRIX_STATE) None matrix_world
     = (Return matrix_reply, matrix_world')
  /\ (2 + 2 * 2 <= length matrix_reply)%nat
  /\ get_switch_matrix_state matrix_session matrix_world
     = (Return [(0, 0); (0, 9); (1, 3)]%nat, matrix_world').
Proof.
  assert (H1 : switch_matrix matrix_session = Some matrix_map) by reflexivity.
  assert (H2 : matrix_map <> []) by discriminate.
  assert (H3 : _send_check_command CMD_GET_KEYBOARD_VALUE
                 (Some KEYBOARD_VALUE_GET_SWITCH_MATRIX_STATE) None matrix_world
               = (Return matrix_reply, matrix_world')) by (vm_compute; reflexivity).
  assert (H4 : (2 + 2 * 2 <= length matrix_reply)%nat) by (vm_compute; lia).
  repeat (split; [assumption|]).
  pose proof (switch_matrix_state_decoding scripted matrix_session matrix_map
                matrix_reply matrix_world matrix_world' H1 H2 H3 H4)
    as (_ & Hnone & _).
  rewrite (Hnone eq_refl). vm_compute. reflexivity.
Defined.

(** ** The bulk LED push *)

Lemma after_frames_nil {T} (w : world T) : after_frames w [] = w.
Proof. destruct w. unfold after_frames. simpl. rewrite app_nil_r. reflexivity. Qed.

Lemma after_frames_cons {T} (w : world T) (f : list Z) (fs : list (list Z)) :
  after_frames (after_exchange w f) fs = after_frames w (f :: fs).
Proof.
  unfold after_frames, after_exchange. simpl. rewrite <- app_assoc. reflexivity.
Qed.

Lemma colour_buffer_bytes (h : nat -> LED) (refs : list nat) :
  (forall r, r ∈ refs -> byte_colour (colour (h r))) ->
  forallb is_byte (colour_buffer h refs) = true.
Proof.
  unfold colour_buffer. induction refs as [|r refs IH]; intros H; [reflexivity|].
  cbn [mbind list_bind]. rewrite forallb_app. apply andb_true_iff. split.
  - destruct (H r ltac:(left)) as (Ha & Hb & Hc).
    destruct (colour (h r)) as [[a b] c]. simpl in *. rewrite Ha, Hb, Hc. reflexivity.
  - apply IH. intros r' Hr'. apply H. right. exact Hr'.
Qed.

Lemma length_colour_buffer (h : nat -> LED) (refs : list nat) :
  length (colour_buffer h refs) = (3 * length refs)%nat.
Proof.
  unfold colour_buffer. induction refs as [|r refs IH]; [reflexivity|].
  cbn [mbind list_bind]. rewrite length_app, IH.
  destruct (colour (h r)) as [[a b] c]. simpl. lia.
Qed.

Lemma colour_buffer_app (h : nat -> LED) (a b : list nat) :
  colour_buffer h (a ++ b) = colour_buffer h a ++ colour_buffer h b.
Proof. unfold colour_buffer. apply bind_app. Qed.

Lemma elem_of_take_drop {A} (a b : nat) (l : list A) (r : A) :
  r ∈ take a (drop b l) -> r ∈ l.
Proof.
  intros H. apply list_elem_of_lookup in H as [i Hi].
  apply lookup_take_Some in Hi as [Hi _]. rewrite lookup_drop in Hi.
  apply list_elem_of_lookup. eauto.
Qed.

Arguments send_leds_loop : simpl never.

Lemma bind_get_heap {T B} (k : (nat -> LED) -> M T B) (w : world T) :
  bind get_heap k w = k (heap w) w.
Proof. reflexivity. Qed.

Section Push.
Context {T : Transport}.
Variable leds : list nat.

Hypothesis Hecho : echoes T.
Hypothesis Hn : Z.of_nat (length leds) <= 65536.

Lemma packets_bounds :
  (length leds <= 9 * packets leds /\ 9 * packets leds <= length leds + 8)%nat.
Proof.
  unfold packets. pose proof (Nat.div_mod_eq (length leds + 8) 9).
  pose proof (Nat.mod_upper_bound (length leds + 8) 9). lia.
Qed.

Lemma send_leds_loop_spec (fuel j : nat) (w : world T) :
  (length leds - 9 * j <= fuel)%nat ->
  (forall r, r ∈ leds -> byte_colour (colour (heap w r))) ->
  send_leds_loop fuel leds ((9 * j) `min` length leds)%nat w
  = (Return tt,
     after_frames w (fastset_packet (heap w) leds <$> seq j (packets leds - j))).
Proof.
  pose proof packets_bounds as Hp. pose proof Hn as Hn'.
  set (n := length leds) in *. set (packets := packets leds) in *.
  revert j w. induction fuel as [|fuel IH]; intros j w Hf Hcol.
  - unfold send_leds_loop. fold n.
    replace ((9 * j) `min` n <? n)%nat with false
      by (symmetry; apply Nat.ltb_ge; lia).
    replace (packets - j)%nat with 0%nat by lia.
    simpl. rewrite after_frames_nil. reflexivity.
  - unfold send_leds_loop; fold (@send_leds_loop T). fold n.
    destruct ((9 * j) `min` n <? n)%nat eqn:Hlt.
    + apply Nat.ltb_lt in Hlt.
      assert (Hj : (9 * j < n)%nat) by lia.
      replace ((9 * j) `min` n)%nat with (9 * j)%nat by lia.
      set (count := (9 `min` (n - 9 * j))%nat).
      assert (Hslice : slice leds (9 * j) (9 * j + send_per_packet)
                       = take count (drop (9 * j) leds)).
      { unfold slice, send_per_packet.
        replace (9 * j + 9 - 9 * j)%nat with 9%nat by lia.
        subst count. destruct (le_lt_dec 9 (n - 9 * j)).
        - replace (9 `min` (n - 9 * j))%nat with 9%nat by lia. reflexivity.
        - replace (9 `min` (n - 9 * j))%nat with (n - 9 * j)%nat by lia.
          rewrite !take_ge; [reflexivity | |]; rewrite length_drop; fold n; lia. }
      rewrite Hslice.
      assert (Hcount : length (take count (drop (9 * j) leds)) = count).
      { rewrite length_take, length_drop. fold n. subst count. lia. }
      rewrite Hcount.
      rewrite bind_get_heap.
      rewrite (pack_HB_little_ok (Z.of_nat (9 * j)) (Z.of_nat count))
        by (subst count; lia).
      cbn [try]. rewrite bind_ret.
      assert (Hbuf : forallb is_byte
                       (colour_buffer (heap w) (take count (drop (9 * j) leds)))
                     = true).
      { apply colour_buffer_bytes. intros r Hr. apply Hcol.
        apply elem_of_take_drop in Hr. exact Hr. }
      rewrite (join_to_bytes1_bytes _ Hbuf). cbn [try]. rewrite bind_ret.
      set (data := [Z.of_nat (9 * j) mod 256; Z.of_nat (9 * j) / 256;
                    Z.of_nat count]
                   ++ colour_buffer (heap w) (take count (drop (9 * j) leds))).
      set (payload := payload_of CMD_LIGHTING_SET_VALUE
                        (Some VIALRGB_DIRECT_FASTSET) (Some data)).
      assert (Hpb : forallb is_byte payload = true).
      { subst payload data. unfold payload_of.
        assert (Hb1 : is_byte (Z.of_nat (9 * j) mod 256) = true)
          by (apply is_byte_spec; apply Z.mod_pos_bound; lia).
        assert (Hb2 : is_byte (Z.of_nat (9 * j) / 256) = true).
        { apply is_byte_spec. split.
          - apply Z.div_pos; lia.
          - apply Z.div_lt_upper_bound; lia. }
        assert (Hb3 : is_byte (Z.of_nat count) = true)
          by (apply is_byte_spec; subst count; lia).
        cbn [app forallb]. rewrite Hbuf, Hb1, Hb2, Hb3. reflexivity. }
      assert (Hpl : (length payload <= MSG_LEN)%nat).
      { subst payload data. unfold payload_of, MSG_LEN. cbn [app length].
        rewrite length_colour_buffer, Hcount. subst count. lia. }
      destruct (Hecho (device w) CMD_LIGHTING_SET_VALUE VIALRGB_DIRECT_FASTSET
                  (data ++ replicate (MSG_LEN - length payload) 0))
        as [tail Htail].
      assert (Hans : answer w (frame_of payload)
                     = CMD_LIGHTING_SET_VALUE :: VIALRGB_DIRECT_FASTSET :: tail).
      { unfold answer. rewrite <- Htail. reflexivity. }
      rewrite (bind_Return _ _ _ _ _
                 (send_check_first_try CMD_LIGHTING_SET_VALUE
                    VIALRGB_DIRECT_FASTSET (Some data) w tail Hpb Hpl Hans)).
      fold payload.
      replace (9 * j + count)%nat with ((9 * S j) `min` n)%nat
        by (subst count; lia).
      rewrite IH; [| lia | exact Hcol].
      replace (packets - j)%nat with (S (packets - S j))
        by lia.
      cbn [seq fmap list_fmap]. rewrite after_frames_cons.
      reflexivity.
    + apply Nat.ltb_ge in Hlt.
      replace (packets - j)%nat with 0%nat by lia.
      simpl. rewrite after_frames_nil. reflexivity.
Qed.
End Push.

Lemma packet_leds_eq {A} (l : list A) (k : nat) :
  take (9 `min` (length l - 9 * k)) (drop (9 * k) l) = take 9 (drop (9 * k) l).
Proof.
  destruct (le_lt_dec 9 (length l - 9 * k)).
  - replace (9 `min` (length l - 9 * k))%nat with 9%nat by lia. reflexivity.
  - replace (9 `min` (length l - 9 * k))%nat with (length l - 9 * k)%nat by lia.
    rewrite !take_ge; [reflexivity | |]; rewrite length_drop; lia.
Qed.

Lemma chunks_of_nine {A} (m : nat) (l : list A) :
  (length l <= 9 * m)%nat ->
  mjoin ((fun k => take 9 (drop (9 * k) l)) <$> seq 0 m) = l.
Proof.
  revert l. induction m as [|m IH]; intros l Hl.
  - destruct l; [reflexivity | simpl in Hl; lia].
  - cbn [seq fmap list_fmap mjoin list_join]. rewrite <- fmap_S_seq, <- list_fmap_compose.
    rewrite (list_fmap_ext _ (fun k => take 9 (drop (9 * k) (drop 9 l)))).
    + rewrite IH by (rewrite length_drop; lia).
      replace (9 * 0)%nat with 0%nat by lia. rewrite drop_0. apply take_drop.
    + intros _ k _. unfold compose. rewrite drop_drop. f_equal. f_equal. lia.
Qed.

Lemma colour_buffer_join (h : nat -> LED) (ls : list (list nat)) :
  colour_buffer h (mjoin ls) = mjoin (colour_buffer h <$> ls).
Proof.
  induction ls as [|l ls IH]; [reflexivity|].
  change (mjoin (l :: ls)) with (l ++ mjoin ls).
  rewrite colour_buffer_app, IH. reflexivity.
Qed.

Lemma colour_buffer_hsv (h : nat -> LED) (refs : list nat) :
  colour_buffer h refs = hsv_bytes h refs.
Proof.
  induction refs as [|r refs IH]; [reflexivity|].
  change (colour_buffer h (r :: refs))
    with (triple (colour (h r)) ++ colour_buffer h refs).
  change (hsv_bytes h (r :: refs))
    with ([ (colour (h r)).1.1; (colour (h r)).1.2; (colour (h r)).2 ]
          ++ hsv_bytes h refs).
  rewrite IH. destruct (colour (h r)) as [[hu sa] va]. reflexivity.
Qed.

(** C5. [send_leds] on a session of the RGB-capable model whose
    directory holds [n] LEDs with byte-sized colours, [n <= 65536], on a
    device that echoes the reports it gets: the call returns after
    writing exactly [ceil(n / 9)] reports; the [k]-th is the direct-fastset
    report with the offset [9 * k] (16 bits, low byte first), the count
    [min 9 (n - 9 * k)] and, for each of the LEDs
    [9 * k .. 9 * k + count - 1] in index order, its hue, its saturation
    and its value, zero-padded; put end to end, the colour blocks of the
    reports are the hue, saturation and value of every LED of the
    directory, each LED once. *)
Theorem send_leds_packets (T : Transport) (self : session) (w : world T) :
  let leds := _led_map self in
  let n := length leds in
  let count := fun k => (9 `min` (n - 9 * k))%nat in
  let block := fun k =>
    hsv_bytes (heap w) (take (count k) (drop (9 * k) leds)) in
  let packet := fun k =>
    0 :: [CMD_LIGHTING_SET_VALUE; VIALRGB_DIRECT_FASTSET;
          Z.of_nat (9 * k) mod 256; Z.of_nat (9 * k) / 256; Z.of_nat (count k)]
      ++ block k ++ replicate (32 - (5 + 3 * count k)) 0 in
  model self <> PI500 ->
  echoes T ->
  Z.of_nat n <= 65536 ->
  (forall r, r ∈ leds -> byte_colour (colour (heap w r))) ->
  exists w',
    send_leds self w = (Return tt, w')
    /\ written w' = written w ++ (packet <$> seq 0 ((n + 8) / 9))
    /\ heap w' = heap w
    /\ mjoin (block <$> seq 0 ((n + 8) / 9)) = hsv_bytes (heap w) leds.
Proof.
  intros leds n count block packet Hm Hecho Hn Hcol.
  assert (Hblock : forall k,
            block k
            = colour_buffer (heap w) (take (count k) (drop (9 * k) leds)))
    by (intros k; symmetry; apply colour_buffer_hsv).
  exists (after_frames w (fastset_packet (heap w) leds <$> seq 0 (packets leds - 0))).
  split; [|split; [|split]].
  - unfold send_leds. rewrite decide_False by exact Hm.
    pose proof (send_leds_loop_spec leds Hecho Hn (length leds) 0 w) as H.
    replace ((9 * 0) `min` length leds)%nat with 0%nat in H by lia.
    apply H; [lia | exact Hcol].
  - unfold after_frames. cbn [written]. f_equal.
    rewrite Nat.sub_0_r. unfold packets. fold n.
    apply list_fmap_ext. intros _ k _.
    unfold fastset_packet, frame_of, packet. rewrite Hblock. unfold count. fold n.
    cbn [app]. do 6 f_equal. f_equal. f_equal.
    cbn [length]. rewrite length_colour_buffer, length_take, length_drop.
    fold n. unfold MSG_LEN. lia.
  - reflexivity.
  - rewrite <- colour_buffer_hsv.
    rewrite (list_fmap_ext _ (colour_buffer (heap w)
                                ∘ (fun k => take 9 (drop (9 * k) leds)))).
    + rewrite list_fmap_compose, <- colour_buffer_join.
      rewrite chunks_of_nine; [reflexivity|].
      subst n.
      pose proof (Nat.div_mod_eq (length leds + 8) 9).
      pose proof (Nat.mod_upper_bound (length leds + 8) 9). lia.
    + intros _ k _. unfold compose. rewrite Hblock. unfold count. subst n.
      rewrite packet_leds_eq. reflexivity.
Qed.

Lemma led_store_echoes : echoes led_store.
Proof.
  intros d cmd s rest. cbn [led_store dev_write dev_read snd].
  unfold led_device_write.
  destruct rest as [|lo [|hi [|count rest]]];
    try (cbn; eexists; reflexivity).
  destruct ((cmd =? CMD_LIGHTING_SET_VALUE) && (s =? VIALRGB_DIRECT_FASTSET));
    [cbn; eexists; reflexivity|].
  destruct ((cmd =? CMD_RPI_COMMAND) && (s =? RPI_CMD_GET_CURRENT_DIRECT_LEDS));
    cbn; eexists; reflexivity.
Qed.

Lemma send_leds_packets_witness :
  model led_session <> PI500
  /\ echoes led_store
  /\ Z.of_nat (length (_led_map led_session)) <= 65536
  /\ (forall r, r ∈ _led_map led_session ->
        byte_colour (colour (heap rainbow_world r)))
  /\ exists w',
       send_leds led_session rainbow_world = (Return tt, w')
       /\ written w'
          = [ [0; 0x07; 0x42; 0; 0; 9;
               0; 100; 200; 1; 101; 201; 2; 102; 202; 3; 103; 203;
               4; 104; 204; 5; 105; 205; 6; 106; 206; 7; 107; 207;
               8; 108; 208];
              [0; 0x07; 0x42; 9; 0; 2;
               9; 109; 209; 10; 110; 210;
               0; 0; 0; 0; 0; 0; 0; 0; 0; 0; 0; 0; 0; 0; 0; 0; 0; 0; 0; 0; 0] ].
Proof.
  assert (H1 : model led_session <> PI500) by discriminate.
  assert (H3 : Z.of_nat (length (_led_map led_session)) <= 65536)
    by (vm_compute; discriminate).
  assert (H4 : forall r, r ∈ _led_map led_session ->
                         byte_colour (colour (heap rainbow_world r))).
  { intros r Hr. apply elem_of_seq in Hr. unfold byte_colour.
    cbn. rewrite !is_byte_spec. lia. }
  split; [exact H1|]. split; [exact led_store_echoes|].
  split; [exact H3|]. split; [exact H4|].
  destruct (send_leds_packets led_store led_session rainbow_world H1
              led_store_echoes H3 H4) as (w' & Hrun & Hw & _).
  exists w'. split; [exact Hrun|]. rewrite Hw. reflexivity.
Defined.

(** ** The round trip through the device *)

Lemma colour_buffer_cons (h : nat -> LED) (r : nat) (refs : list nat) :
  colour_buffer h (r :: refs) = triple (colour (h r)) ++ colour_buffer h refs.
Proof. reflexivity. Qed.

Lemma store_colours_dev_spec (h : nat -> LED) (refs : list nat)
    (m : nat -> hsv) (off : nat) (rest : list Z) (j : nat) :
  store_colours_dev m off (length refs) (colour_buffer h refs ++ rest) j
  = if decide (off <= j < off + length refs)%nat
    then colour (h (refs !!! (j - off)%nat))
    else m j.
Proof.
  revert m off. induction refs as [|r refs IH]; intros m off.
  - simpl. rewrite decide_False by lia. reflexivity.
  - rewrite colour_buffer_cons. destruct (colour (h r)) as [[a b] c] eqn:Hc.
    cbn [triple app length store_colours_dev]. rewrite IH.
    destruct (decide (S off <= j < S off + length refs)%nat) as [Hin|Hout].
    + rewrite decide_True by (cbn [length]; lia).
      replace (j - off)%nat with (S (j - S off)) by lia. reflexivity.
    + destruct (decide (j = off)) as [->|Hne].
      * rewrite fn_lookup_insert, decide_True by (cbn [length]; lia).
        rewrite Nat.sub_diag. cbn. rewrite Hc. reflexivity.
      * rewrite fn_lookup_insert_ne by congruence.
        rewrite decide_False by (cbn [length]; lia). reflexivity.
Qed.

Lemma le16_decode (a : Z) : 0 <= a -> a mod 256 + 256 * (a / 256) = a.
Proof. intros _. pose proof (Z.div_mod a 256). lia. Qed.

(** What a direct-fastset report does to the colour memory. *)
Lemma fastset_packet_write (h : nat -> LED) (leds : list nat) (k : nat)
    (d : led_device) (j : nat) :
  (9 * k < length leds)%nat ->
  memory (led_device_write d (fastset_packet h leds k)) j
  = if decide (9 * k <= j < 9 * k + 9 `min` (length leds - 9 * k))%nat
    then colour (h (leds !!! j))
    else memory d j.
Proof.
  intros Hk. unfold fastset_packet, frame_of. cbn [app led_device_write].
  replace ((CMD_LIGHTING_SET_VALUE =? CMD_LIGHTING_SET_VALUE)
           && (VIALRGB_DIRECT_FASTSET =? VIALRGB_DIRECT_FASTSET)) with true
    by reflexivity.
  cbn [memory]. rewrite le16_decode by lia. rewrite !Nat2Z.id.
  set (count := (9 `min` (length leds - 9 * k))%nat).
  set (refs := take count (drop (9 * k) leds)).
  assert (Hlen : length refs = count).
  { subst refs. rewrite length_take, length_drop. subst count. lia. }
  rewrite <- Hlen at 1. rewrite store_colours_dev_spec, Hlen.
  destruct (decide (9 * k <= j < 9 * k + count)%nat) as [Hin|Hout]; [|reflexivity].
  subst refs. rewrite lookup_total_take_lt by lia. rewrite lookup_total_drop.
  replace (9 * k + (j - 9 * k))%nat with j by lia. reflexivity.
Qed.

Lemma push_memory (h : nat -> LED) (leds : list nat) (d : led_device)
    (p i : nat) :
  (9 * p <= length leds + 8)%nat ->
  (i < (9 * p) `min` length leds)%nat ->
  memory (foldl (exchange_step led_store) d
            (fastset_packet h leds <$> seq 0 p)) i
  = colour (h (leds !!! i)).
Proof.
  revert i. induction p as [|p IH]; intros i Hp Hi; [lia|].
  rewrite seq_S, fmap_app, foldl_app. cbn [fmap list_fmap foldl Nat.add].
  unfold exchange_step at 1. cbn [led_store dev_write dev_read fst].
  rewrite fastset_packet_write by lia.
  destruct (decide (9 * p <= i < 9 * p + 9 `min` (length leds - 9 * p))%nat);
    [reflexivity|].
  apply IH; lia.
Qed.

Lemma load_colours_dev_S (m : nat -> hsv) (off cnt : nat) :
  load_colours_dev m off (S cnt) = triple (m off) ++ load_colours_dev m (S off) cnt.
Proof. reflexivity. Qed.

Lemma length_load_colours_dev (m : nat -> hsv) (off cnt : nat) :
  length (load_colours_dev m off cnt) = (3 * cnt)%nat.
Proof.
  revert off. induction cnt as [|cnt IH]; intros off; [reflexivity|].
  rewrite load_colours_dev_S, length_app, IH.
  destruct (m off) as [[a b] c]. simpl. lia.
Qed.

Lemma load_slice (m : nat -> hsv) (cnt off i : nat) :
  (i < cnt)%nat ->
  take 3 (drop (i * 3) (load_colours_dev m off cnt)) = triple (m (off + i)%nat).
Proof.
  revert off i. induction cnt as [|cnt IH]; intros off i Hi; [lia|].
  rewrite load_colours_dev_S. destruct i as [|i].
  - rewrite Nat.add_0_r. destruct (m off) as [[a b] c]. reflexivity.
  - replace (off + S i)%nat with (S off + i)%nat by lia.
    rewrite <- (IH (S off) i) by lia.
    destruct (m off) as [[a b] c]. reflexivity.
Qed.

Lemma unpack_BBB_triple (c : hsv) : unpack_BBB (triple c) = Some c.
Proof. destruct c as [[a b] c]. reflexivity. Qed.

Lemma pull_frame_write (d : led_device) (retrieved : nat) :
  led_device_write d (pull_frame retrieved)
  = mkLedDevice (memory d) (pull_answer (memory d) retrieved).
Proof.
  unfold pull_frame, frame_of, payload_of. cbn [app led_device_write].
  replace ((CMD_RPI_COMMAND =? CMD_LIGHTING_SET_VALUE)
           && (RPI_CMD_GET_CURRENT_DIRECT_LEDS =? VIALRGB_DIRECT_FASTSET))
    with false by reflexivity.
  replace ((CMD_RPI_COMMAND =? CMD_RPI_COMMAND)
           && (RPI_CMD_GET_CURRENT_DIRECT_LEDS =? RPI_CMD_GET_CURRENT_DIRECT_LEDS))
    with true by reflexivity.
  rewrite le16_decode, Nat2Z.id by lia.
  f_equal. unfold fit, pull_answer.
  rewrite take_app_le; [apply take_ge|];
    cbn [app length]; rewrite length_load_colours_dev; unfold MSG_LEN; lia.
Qed.

Lemma pull_answer_slice (m : nat -> hsv) (retrieved i : nat) :
  (i < 9)%nat ->
  unpack_BBB (slice (pull_answer m retrieved) (5 + i * 3) (8 + i * 3))
  = Some (m (retrieved + i)%nat).
Proof.
  intros Hi. unfold slice, pull_answer.
  replace (8 + i * 3 - (5 + i * 3))%nat with 3%nat by lia.
  rewrite <- drop_drop. cbn [app drop]. rewrite drop_0.
  rewrite load_slice by exact Hi. apply unpack_BBB_triple.
Qed.

Arguments store_colours : simpl never.
Arguments direct_leds_loop : simpl never.

Section Pull.
Context {T : Transport}.
Variable leds : list nat.
Hypothesis Hnodup : NoDup leds.

Lemma store_colours_spec (retrieved : nat) (m : nat -> hsv) (raw : list Z)
    (ixs : list nat) (w : world T) :
  (forall i, i ∈ ixs ->
     unpack_BBB (slice raw (5 + i * 3) (8 + i * 3)) = Some (m (retrieved + i)%nat)) ->
  exists h',
    store_colours leds retrieved raw ixs w
    = (Return tt, mkWorld (device w) (written w) (stdout w) h' (slept w))
    /\ (forall i r, i ∈ ixs -> leds !! (retrieved + i)%nat = Some r ->
          colour (h' r) = m (retrieved + i)%nat)
    /\ (forall j r, leds !! j = Some r ->
          (forall i, i ∈ ixs -> j <> (retrieved + i)%nat) ->
          colour (h' r) = colour (heap w r)).
Proof.
  revert w. induction ixs as [|i rest IH]; intros w Hraw.
  - exists (heap w). split; [destruct w; reflexivity|].
    split; [intros i r Hi; inversion Hi | reflexivity].
  - unfold store_colours; fold (@store_colours T).
    assert (Hrest : forall i', i' ∈ rest ->
              unpack_BBB (slice raw (5 + i' * 3) (8 + i' * 3))
              = Some (m (retrieved + i')%nat))
      by (intros i' Hi'; apply Hraw; right; exact Hi').
    destruct (retrieved + i <? length leds)%nat eqn:Hlt.
    + apply Nat.ltb_lt in Hlt.
      destruct (lookup_lt_is_Some_2 leds _ Hlt) as [r0 Hr0].
      rewrite (Hraw i ltac:(left)), Hr0.
      set (w1 := mkWorld (device w) (written w) (stdout w)
                   (<[r0 := with_colour (heap w r0) (m (retrieved + i)%nat)]> (heap w))
                   (slept w)).
      assert (Hstep : forall k : unit -> M T unit,
                bind (bind (try (Some (m (retrieved + i)%nat)) StructError)
                        (fun c => bind (try (Some r0) IndexError)
                                    (fun r => set_colour r c))) k w
                = k tt w1) by reflexivity.
      rewrite Hstep.
      destruct (IH w1 Hrest) as (h' & Hrun & Ha & Hb).
      exists h'. split; [exact Hrun|]. split.
      * intros i' r Hi' Hr.
        destruct (decide (i' ∈ rest)) as [Hin|Hnin]; [apply Ha; assumption|].
        apply elem_of_cons in Hi' as [->|Hi']; [|contradiction].
        rewrite Hr0 in Hr. injection Hr as <-.
        rewrite (Hb (retrieved + i)%nat r0 Hr0).
        -- subst w1. cbn [heap]. rewrite fn_lookup_insert. reflexivity.
        -- intros i'' Hi'' Heq. apply Hnin.
           replace i with i'' by lia. exact Hi''.
      * intros j r Hj Hne.
        rewrite (Hb j r Hj) by (intros i' Hi'; apply Hne; right; exact Hi').
        subst w1. cbn [heap]. rewrite fn_lookup_insert_ne; [reflexivity|].
        intros ->. apply (Hne i ltac:(left)).
        apply (NoDup_lookup leds j (retrieved + i)%nat r Hnodup Hj Hr0).
    + apply Nat.ltb_ge in Hlt. rewrite bind_ret.
      destruct (IH w Hrest) as (h' & Hrun & Ha & Hb).
      exists h'. split; [exact Hrun|]. split.
      * intros i' r Hi' Hr. apply elem_of_cons in Hi' as [->|Hi'].
        -- apply lookup_lt_Some in Hr. lia.
        -- apply Ha; assumption.
      * intros j r Hj Hne. apply (Hb j r Hj).
        intros i' Hi'. apply Hne. right. exact Hi'.
Qed.
End Pull.

Lemma le16_bytes (a : Z) :
  0 <= a < 65536 ->
  is_byte (a mod 256) = true /\ is_byte (a / 256) = true.
Proof.
  intros Ha. split; apply is_byte_spec.
  - apply Z.mod_pos_bound. lia.
  - split; [apply Z.div_pos; lia | apply Z.div_lt_upper_bound; lia].
Qed.

(** One request of the pull, on the colour-storing device. *)
Lemma pull_exchange (retrieved : nat) (w : world led_store) :
  Z.of_nat retrieved < 65536 ->
  _send_check_command CMD_RPI_COMMAND (Some RPI_CMD_GET_CURRENT_DIRECT_LEDS)
    (Some [Z.of_nat retrieved mod 256; Z.of_nat retrieved / 256; 9]) w
  = (Return (pull_answer (memory (device w)) retrieved),
     mkWorld (T := led_store)
             (mkLedDevice (memory (device w))
                (pull_answer (memory (device w)) retrieved))
             (written w ++ [pull_frame retrieved]) (stdout w) (heap w) (slept w)).
Proof.
  intros Hr.
  destruct (le16_bytes (Z.of_nat retrieved) ltac:(lia)) as [Hlo Hhi].
  set (data := [Z.of_nat retrieved mod 256; Z.of_nat retrieved / 256; 9]).
  assert (Hframe : frame_of (payload_of CMD_RPI_COMMAND
                     (Some RPI_CMD_GET_CURRENT_DIRECT_LEDS) (Some data))
                   = pull_frame retrieved) by reflexivity.
  assert (Hans : answer w (pull_frame retrieved)
                 = pull_answer (memory (device w)) retrieved).
  { unfold answer. cbn [led_store dev_read dev_write snd].
    rewrite pull_frame_write. cbn [response].
    apply take_ge. unfold pull_answer. cbn [app length].
    rewrite length_load_colours_dev. unfold MSG_LEN. lia. }
  rewrite (send_check_first_try CMD_RPI_COMMAND RPI_CMD_GET_CURRENT_DIRECT_LEDS
             (Some data) w (data ++ load_colours_dev (memory (device w)) retrieved 9)).
  - rewrite Hframe. f_equal. unfold after_exchange.
    cbn [led_store dev_read dev_write fst].
    rewrite pull_frame_write. reflexivity.
  - subst data. unfold payload_of. cbn [app forallb]. rewrite Hlo, Hhi. reflexivity.
  - subst data. unfold payload_of, MSG_LEN. cbn [app length]. lia.
  - rewrite Hframe. exact Hans.
Qed.

Lemma pull_loop_spec (leds : list nat) (fuel j : nat) (w : world led_store) :
  NoDup leds ->
  Z.of_nat (length leds) <= 65536 ->
  (length leds - 9 * j <= fuel)%nat ->
  exists w',
    direct_leds_loop fuel RPI_CMD_GET_CURRENT_DIRECT_LEDS leds (9 * j) w
    = (Return leds, w')
    /\ memory (device w') = memory (device w)
    /\ (forall i r, (9 * j <= i)%nat -> leds !! i = Some r ->
          colour (heap w' r) = memory (device w) i)
    /\ (forall i r, (i < 9 * j)%nat -> leds !! i = Some r ->
          colour (heap w' r) = colour (heap w r)).
Proof.
  intros Hnd Hn. revert j w. induction fuel as [|fuel IH]; intros j w Hf.
  - unfold direct_leds_loop.
    replace (9 * j <? length leds)%nat with false
      by (symmetry; apply Nat.ltb_ge; lia).
    exists w. split; [reflexivity|]. split; [reflexivity|].
    split; [|reflexivity].
    intros i r Hi Hl. apply lookup_lt_Some in Hl. lia.
  - unfold direct_leds_loop; fold (@direct_leds_loop led_store).
    destruct (9 * j <? length leds)%nat eqn:Hlt.
    + apply Nat.ltb_lt in Hlt.
      rewrite (pack_HB_little_ok (Z.of_nat (9 * j)) (Z.of_nat send_per_packet))
        by (unfold send_per_packet; lia).
      cbn [try]. rewrite bind_ret.
      change (Z.of_nat send_per_packet) with 9.
      rewrite (bind_Return _ _ _ _ _ (pull_exchange (9 * j) w ltac:(lia))).
      set (m := memory (device w)).
      set (w1 := mkWorld (T := led_store) (mkLedDevice m (pull_answer m (9 * j)))
                   (written w ++ [pull_frame (9 * j)]) (stdout w) (heap w) (slept w)).
      destruct (store_colours_spec (T := led_store) leds Hnd (9 * j) m
                  (pull_answer m (9 * j)) (seq 0 send_per_packet) w1)
        as (h' & Hrun & Ha & Hb).
      { intros i Hi. apply pull_answer_slice.
        apply elem_of_seq in Hi. unfold send_per_packet in Hi. lia. }
      rewrite (bind_Return _ _ _ _ _ Hrun).
      replace (9 * j + send_per_packet)%nat with (9 * S j)%nat
        by (unfold send_per_packet; lia).
      destruct (IH (S j) (mkWorld (T := led_store) (device w1) (written w1)
                            (stdout w1) h' (slept w1))
                  ltac:(lia)) as (w' & Hloop & Hmem & Hhi & Hlo).
      exists w'. split; [exact Hloop|]. cbn [device heap memory] in *.
      split; [exact Hmem|]. split.
      * intros i r Hi Hl.
        destruct (le_lt_dec (9 * S j) i) as [Hge|Hin].
        -- apply (Hhi i r Hge Hl).
        -- rewrite (Hlo i r Hin Hl).
           replace i with (9 * j + (i - 9 * j))%nat in Hl |- * by lia.
           apply Ha; [|exact Hl].
           apply elem_of_seq. unfold send_per_packet. lia.
      * intros i r Hi Hl. rewrite (Hlo i r ltac:(lia) Hl).
        apply (Hb i r Hl). intros i' _. lia.
    + apply Nat.ltb_ge in Hlt.
      exists w. split; [reflexivity|]. split; [reflexivity|].
      split; [|reflexivity].
      intros i r Hi Hl. apply lookup_lt_Some in Hl. lia.
Qed.

(** [send_leds] on the RGB-capable model, with the world it leaves. *)
Lemma send_leds_run (T : Transport) (self : session) (w : world T) :
  model self <> PI500 ->
  echoes T ->
  Z.of_nat (length (_led_map self)) <= 65536 ->
  (forall r, r ∈ _led_map self -> byte_colour (colour (heap w r))) ->
  send_leds self w
  = (Return tt,
     after_frames w (fastset_packet (heap w) (_led_map self)
                       <$> seq 0 (packets (_led_map self)))).
Proof.
  intros Hm Hecho Hn Hcol.
  unfold send_leds. rewrite decide_False by exact Hm.
  pose proof (send_leds_loop_spec (_led_map self) Hecho Hn
                (length (_led_map self)) 0 w) as H.
  replace ((9 * 0) `min` length (_led_map self))%nat with 0%nat in H by lia.
  rewrite !Nat.sub_0_r in H. apply H; [lia | exact Hcol].
Qed.

(** C6. On a session of the RGB-capable model whose directory holds
    distinct LED objects with byte-sized colours, talking to the device
    that stores what direct-fastset sends: for every valid index [i]
    (0, 8 and 9 included) and every colour [c] of three bytes,
    [set_led_by_idx(i, c)], [send_leds()] and [get_current_direct_leds()]
    all return, and the directory returned by the last has the colour [c]
    at index [i]. *)
Theorem led_round_trip (self : session) (w : world led_store) (i : Z) (c : hsv) :
  let leds := _led_map self in
  model self <> PI500 ->
  NoDup leds ->
  Z.of_nat (length leds) <= 65536 ->
  0 <= i < Z.of_nat (length leds) ->
  byte_colour c ->
  (forall r, r ∈ leds -> byte_colour (colour (heap w r))) ->
  exists (leds' : list nat) (w' : world led_store) (r : nat),
    (let* _ := set_led_by_idx self i c in
     let* _ := send_leds self in
     get_current_direct_leds self) w = (Return leds', w')
    /\ leds' !! Z.to_nat i = Some r
    /\ colour (heap w' r) = c.
Proof.
  intros leds Hm Hnd Hn Hi Hc Hcol.
  assert (Hlt : (Z.to_nat i < length leds)%nat) by lia.
  destruct (lookup_lt_is_Some_2 leds _ Hlt) as [r0 Hr0].
  set (w1 := mkWorld (T := led_store) (device w) (written w) (stdout w)
               (<[r0 := with_colour (heap w r0) c]> (heap w)) (slept w)).
  assert (Hset : set_led_by_idx self i c w = (Return tt, w1)).
  { unfold set_led_by_idx, py_index. fold leds.
    replace (0 <=? i) with true by (symmetry; apply Z.leb_le; lia).
    rewrite Hr0. reflexivity. }
  assert (Hcol1 : forall r, r ∈ leds -> byte_colour (colour (heap w1 r))).
  { intros r Hr. subst w1. cbn [heap].
    destruct (decide (r0 = r)) as [->|Hne].
    - rewrite fn_lookup_insert. exact Hc.
    - rewrite fn_lookup_insert_ne by exact Hne. apply Hcol. exact Hr. }
  pose proof (send_leds_run led_store self w1 Hm led_store_echoes Hn Hcol1) as Hsend.
  fold leds in Hsend.
  set (w2 := after_frames w1 (fastset_packet (heap w1) leds <$> seq 0 (packets leds)))
    in Hsend.
  destruct (pull_loop_spec leds (length leds) 0 w2 Hnd Hn ltac:(lia))
    as (w3 & Hpull & _ & Hhi & _).
  exists leds, w3, r0.
  split; [|split].
  - rewrite (bind_Return _ _ _ _ _ Hset), (bind_Return _ _ _ _ _ Hsend).
    exact Hpull.
  - exact Hr0.
  - rewrite (Hhi (Z.to_nat i) r0 ltac:(lia) Hr0).
    subst w2. unfold after_frames. cbn [device].
    pose proof (packets_bounds leds) as [Hp1 Hp2].
    rewrite push_memory by lia.
    rewrite (list_lookup_total_correct leds _ _ Hr0).
    subst w1. cbn [heap]. rewrite fn_lookup_insert. reflexivity.
Qed.

Lemma led_round_trip_witness :
  model led_session <> PI500
  /\ NoDup (_led_map led_session)
  /\ Z.of_nat (length (_led_map led_session)) <= 65536
  /\ 0 <= 9 < Z.of_nat (length (_led_map led_session))
  /\ byte_colour (1, 2, 3)
  /\ (forall r, r ∈ _led_map led_session -> byte_colour (colour (heap led_world r)))
  /\ exists (leds' : list nat) (w' : world led_store) (r : nat),
       (let* _ := set_led_by_idx led_session 9 (1, 2, 3) in
        let* _ := send_leds led_session in
        get_current_direct_leds led_session) led_world = (Return leds', w')
       /\ leds' !! Z.to_nat 9 = Some r
       /\ colour (heap w' r) = (1, 2, 3).
Proof.
  assert (H1 : model led_session <> PI500) by discriminate.
  assert (H2 : NoDup (_led_map led_session))
    by (apply (bool_decide_unpack _); vm_compute; exact I).
  assert (H3 : Z.of_nat (length (_led_map led_session)) <= 65536)
    by (vm_compute; discriminate).
  assert (H4 : 0 <= 9 < Z.of_nat (length (_led_map led_session)))
    by (vm_compute; split; [discriminate | reflexivity]).
  assert (H5 : byte_colour (1, 2, 3)) by (repeat split).
  assert (H6 : forall r, r ∈ _led_map led_session ->
                         byte_colour (colour (heap led_world r)))
    by (intros r _; repeat split).
  repeat (split; [assumption|]).
  exact (led_round_trip led_session led_world 9 (1, 2, 3) H1 H2 H3 H4 H5 H6).
Defined.

(** ** The effect enumeration *)

Lemma before_sentinel_app_in (a b : list Z) :
  0xFFFF ∈ a -> before_sentinel (a ++ b) = before_sentinel a.
Proof.
  induction a as [|v a IH]; intros H; [inversion H|]. simpl.
  destruct (v =? 0xFFFF) eqn:E; [reflexivity|].
  apply elem_of_cons in H as [H|H]; [apply Z.eqb_neq in E; congruence|].
  rewrite IH by exact H. reflexivity.
Qed.

Lemma before_sentinel_app_notin (a b : list Z) :
  0xFFFF ∉ a -> before_sentinel (a ++ b) = a ++ before_sentinel b.
Proof.
  induction a as [|v a IH]; intros H; [reflexivity|]. simpl.
  apply not_elem_of_cons in H as [Hv Ha].
  replace (v =? 0xFFFF) with false by (symmetry; apply Z.eqb_neq; congruence).
  rewrite IH by exact Ha. reflexivity.
Qed.

Lemma scan_page_in (data effects : list Z) (mx : Z) :
  0xFFFF ∈ data ->
  scan_page data effects mx = inl (effects ++ before_sentinel data).
Proof.
  revert effects mx. induction data as [|v data IH]; intros effects mx H;
    [inversion H|]. simpl.
  destruct (v =? 0xFFFF) eqn:E; [rewrite app_nil_r; reflexivity|].
  apply elem_of_cons in H as [H|H]; [apply Z.eqb_neq in E; congruence|].
  rewrite IH by exact H. rewrite <- app_assoc. reflexivity.
Qed.

Lemma last_nonempty (a : Z) (l : list Z) (d d' : Z) :
  List.last (a :: l) d = List.last (a :: l) d'.
Proof.
  revert a. induction l as [|b l IH]; intros a; [reflexivity|].
  change (List.last (b :: l) d = List.last (b :: l) d'). apply IH.
Qed.

Lemma scan_page_notin (data effects : list Z) (mx : Z) :
  0xFFFF ∉ data ->
  scan_page data effects mx = inr (effects ++ data, List.last data mx).
Proof.
  revert effects mx. induction data as [|v data IH]; intros effects mx H.
  - simpl. rewrite app_nil_r. reflexivity.
  - simpl. apply not_elem_of_cons in H as [Hv Ha].
    replace (v =? 0xFFFF) with false by (symmetry; apply Z.eqb_neq; congruence).
    rewrite IH by exact Ha. rewrite <- app_assoc.
    destruct data as [|z data]; [reflexivity|].
    rewrite (last_nonempty z data v mx). reflexivity.
Qed.

Lemma chunks_le16 (ids : list Z) :
  chunks 2 (length ids) (le16_list ids) = (fun v => [v mod 256; v / 256]) <$> ids.
Proof.
  induction ids as [|v ids IH]; [reflexivity|].
  cbn [length chunks]. unfold le16_list in *. cbn [mbind list_bind app take drop].
  rewrite take_0, drop_0, IH. reflexivity.
Qed.

Lemma unpack_page (ids : list Z) :
  page_ok ids ->
  unpack_words_little 2 15 (drop 2 (page_frame ids)) = Some ids.
Proof.
  intros [Hlen Hr]. unfold page_frame. cbn [app drop]. rewrite drop_0.
  unfold unpack_words_little.
  assert (Hl : length (le16_list ids) = (15 * 2)%nat).
  { rewrite <- Hlen. clear. unfold le16_list.
    induction ids as [|v ids IH]; [reflexivity|].
    cbn [mbind list_bind app length]. rewrite IH. lia. }
  rewrite Hl, Nat.eqb_refl. f_equal.
  rewrite <- Hlen, chunks_le16, <- list_fmap_compose.
  clear Hlen Hl. induction Hr as [|v ids Hv Hr IH]; [reflexivity|].
  cbn [fmap list_fmap]. rewrite IH. f_equal.
  unfold compose. cbn [from_bytes_little].
  pose proof (Z.div_mod v 256). lia.
Qed.

Lemma last_elem_of (a : Z) (l : list Z) (d : Z) : List.last (a :: l) d ∈ a :: l.
Proof.
  revert a. induction l as [|b l IH]; intros a; [left|].
  right. change (List.last (b :: l) d ∈ b :: l). apply IH.
Qed.

Arguments effects_loop : simpl never.

(** One exchange with the scripted transport whose next frame echoes the
    request. *)
Lemma scripted_exchange (cmd s : Z) (data : option (list Z)) (tail : list Z)
    (d : list (list Z)) (w : world scripted) :
  let payload := payload_of cmd (Some s) data in
  forallb is_byte payload = true ->
  (length payload <= MSG_LEN)%nat ->
  device w = (cmd :: s :: tail) :: d ->
  (length (cmd :: s :: tail) <= MSG_LEN)%nat ->
  _send_check_command cmd (Some s) data w
  = (Return (cmd :: s :: tail),
     mkWorld (T := scripted) d (written w ++ [frame_of payload])
             (stdout w) (heap w) (slept w)).
Proof.
  intros payload Hb Hl Hdev Hlen.
  rewrite (send_check_first_try cmd s data w tail Hb Hl).
  - unfold after_exchange. cbn [scripted dev_write dev_read]. rewrite Hdev.
    reflexivity.
  - unfold answer. cbn [scripted dev_write dev_read]. rewrite Hdev.
    cbn [snd]. apply take_ge. exact Hlen.
Qed.

Lemma length_page_frame (ids : list Z) :
  length ids = 15%nat -> length (page_frame ids) = MSG_LEN.
Proof.
  intros Hlen. unfold page_frame. cbn [app length].
  assert (Hl : length (le16_list ids) = (2 * length ids)%nat).
  { unfold le16_list. clear. induction ids as [|v ids IH]; [reflexivity|].
    cbn [mbind list_bind app length]. rewrite IH. lia. }
  rewrite Hl, Hlen. reflexivity.
Qed.

Lemma effects_loop_spec (pages : list (list Z)) (fuel : nat)
    (effects : list Z) (mx : Z) (w : world scripted) (rest : list (list Z)) :
  0 <= mx < 0xFFFF ->
  Forall page_ok pages ->
  0xFFFF ∈ mjoin pages ->
  (length pages <= fuel)%nat ->
  device w = (page_frame <$> pages) ++ rest ->
  exists w',
    effects_loop fuel effects mx w
    = (Return (effects ++ before_sentinel (mjoin pages)), w').
Proof.
  revert fuel effects mx w.
  induction pages as [|page pages IH]; intros fuel effects mx w Hmx Hok Hin Hf Hdev.
  - inversion Hin.
  - destruct fuel as [|fuel]; [simpl in Hf; lia|].
    apply list.Forall_cons in Hok as [[Hlen Hrange] Hok].
    unfold effects_loop; fold (@effects_loop scripted).
    replace (mx <? 65535) with true by (symmetry; apply Z.ltb_lt; lia).
    unfold to_bytes2_little.
    replace ((0 <=? mx) && (mx <? 65536)) with true
      by (symmetry; apply andb_true_iff; split;
          [apply Z.leb_le | apply Z.ltb_lt]; lia).
    cbn [try]. rewrite bind_ret.
    destruct (le16_bytes mx ltac:(lia)) as [Hlo Hhi].
    rewrite (bind_Return _ _ _ _ _
               (scripted_exchange CMD_LIGHTING_GET_VALUE VIALRGB_GET_SUPPORTED
                  (Some [mx mod 256; mx / 256]) (le16_list page)
                  ((page_frame <$> pages) ++ rest) w
                  ltac:(unfold payload_of; cbn [app forallb];
                        rewrite Hlo, Hhi; reflexivity)
                  ltac:(unfold payload_of, MSG_LEN; cbn [app length]; lia)
                  Hdev
                  ltac:(rewrite <- (length_page_frame page Hlen); reflexivity))).
    change (CMD_LIGHTING_GET_VALUE :: VIALRGB_GET_SUPPORTED :: le16_list page)
      with (page_frame page).
    rewrite (unpack_page page (conj Hlen Hrange)). cbn [try]. rewrite bind_ret.
    change (mjoin (page :: pages)) with (page ++ mjoin pages) in *.
    destruct (decide (0xFFFF ∈ page)) as [Hp|Hp].
    + rewrite (scan_page_in page effects mx Hp).
      rewrite (before_sentinel_app_in _ _ Hp). eexists. reflexivity.
    + rewrite (scan_page_notin page effects mx Hp).
      apply elem_of_app in Hin as [Hin|Hin]; [contradiction|].
      destruct page as [|v page]; [discriminate|].
      pose proof (last_elem_of v page mx) as Hlast.
      assert (Hlr : 0 <= List.last (v :: page) mx < 65535).
      { rewrite list.Forall_forall in Hrange. specialize (Hrange _ Hlast).
        assert (List.last (v :: page) mx <> 65535) by (intros E; rewrite E in Hlast;
                                                        contradiction).
        lia. }
      destruct (IH fuel (effects ++ v :: page) (List.last (v :: page) mx)
                  (mkWorld (T := scripted) ((page_frame <$> pages) ++ rest)
                     (written w ++ [frame_of (payload_of CMD_LIGHTING_GET_VALUE
                                       (Some VIALRGB_GET_SUPPORTED)
                                       (Some [mx mod 256; mx / 256]))])
                     (stdout w) (heap w) (slept w))
                  Hlr Hok Hin ltac:(simpl in Hf; lia) eq_refl) as [w' Hw'].
      exists w'. rewrite Hw'. rewrite (before_sentinel_app_notin _ _ Hp).
      rewrite <- app_assoc. reflexivity.
Qed.

(** C7, as the code has it. On the RGB-capable model, when the pages the
    device answers with are well formed (15 ids of 16 bits) and one of
    them holds the sentinel 0xFFFF, [get_supported_effects] returns, with
    as much fuel as there are pages, the ids 0 and 0xFFFF followed by
    exactly the ids received before the first sentinel. *)
Theorem supported_effects_until_sentinel (self : session)
    (pages rest : list (list Z)) (fuel : nat) (w : world scripted) :
  model self <> PI500 ->
  Forall page_ok pages ->
  0xFFFF ∈ mjoin pages ->
  (length pages <= fuel)%nat ->
  device w = (page_frame <$> pages) ++ rest ->
  exists w',
    get_supported_effects fuel self w
    = (Return ([0; 0xFFFF] ++ before_sentinel (mjoin pages)), w').
Proof.
  intros Hm Hok Hin Hf Hdev. unfold get_supported_effects.
  rewrite decide_False by exact Hm.
  apply (effects_loop_spec pages fuel [0; 65535] 0 w rest); try assumption. lia.
Qed.

Lemma supported_effects_until_sentinel_witness :
  model led_session <> PI500
  /\ Forall page_ok sample_pages
  /\ 0xFFFF ∈ mjoin sample_pages
  /\ (length sample_pages <= 2)%nat
  /\ device (start scripted (page_frame <$> sample_pages) fresh_heap)
     = (page_frame <$> sample_pages) ++ []
  /\ exists w',
       get_supported_effects 2 led_session
         (start scripted (page_frame <$> sample_pages) fresh_heap)
       = (Return ([0; 0xFFFF] ++ before_sentinel (mjoin sample_pages)), w').
Proof.
  assert (H1 : model led_session <> PI500) by discriminate.
  assert (H2 : Forall page_ok sample_pages).
  { unfold page_ok. apply (bool_decide_unpack _). vm_compute. exact I. }
  assert (H3 : 0xFFFF ∈ mjoin sample_pages)
    by (apply list_elem_of_In; vm_compute; tauto).
  assert (H4 : (length sample_pages <= 2)%nat) by (simpl; lia).
  assert (H5 : device (start scripted (page_frame <$> sample_pages) fresh_heap)
               = (page_frame <$> sample_pages) ++ [])
    by (symmetry; apply app_nil_r).
  repeat (split; [assumption|]).
  exact (supported_effects_until_sentinel led_session sample_pages [] 2 _
           H1 H2 H3 H4 H5).
Defined.

Lemma effects_loop_zero_page (fuel : nat) (effects : list Z)
    (w : world (constant zero_page)) :
  fst (effects_loop fuel effects 0 w) = OutOfFuel.
Proof.
  revert effects w. induction fuel as [|fuel IH]; intros effects w; [reflexivity|].
  unfold effects_loop; fold (@effects_loop (constant zero_page)).
  cbn [Z.ltb Z.compare to_bytes2_little Z.leb andb try]. rewrite bind_ret.
  rewrite (bind_Return _ _ _ _ _
             (send_check_first_try CMD_LIGHTING_GET_VALUE VIALRGB_GET_SUPPORTED
                (Some [0 mod 256; 0 / 256]) w (replicate 30 0)
                eq_refl ltac:(vm_compute; lia) eq_refl)).
  change (unpack_words_little 2 15
            (drop 2 (CMD_LIGHTING_GET_VALUE :: VIALRGB_GET_SUPPORTED :: replicate 30 0)))
    with (Some (replicate 15 0)).
  cbn [try]. rewrite bind_ret.
  rewrite scan_page_notin
    by (rewrite list_elem_of_In; vm_compute; intuition discriminate).
  apply IH.
Qed.

(** C7 as it was stated does not hold: against a device whose pages never
    hold the sentinel, [get_supported_effects] does not return, whatever
    the fuel. *)
Lemma supported_effects_without_sentinel :
  ~ exists (fuel : nat) (effects : list Z) (w' : world (constant zero_page)),
      get_supported_effects fuel led_session
        (start (constant zero_page) tt fresh_heap) = (Return effects, w').
Proof.
  intros (fuel & effects & w' & H).
  pose proof (effects_loop_zero_page fuel [0; 65535]
                (start (constant zero_page) tt fresh_heap)) as Hl.
  unfold get_supported_effects in H. rewrite decide_False in H by discriminate.
  rewrite H in Hl. discriminate.
Qed.

(** ** Reading the LED colours back *)

(** C8. A session with two LEDs, both black; the device reports other
    colours. [get_current_direct_leds] and [get_saved_direct_leds] return
    a list of the very LED objects of the session's directory, and after
    either call the session's own directory holds the colours that the
    device reported. *)
Theorem direct_leds_read_overwrites_directory :
  let w := start scripted [current_leds_reply; saved_leds_reply] fresh_heap in
  let r1 := get_current_direct_leds two_led_session w in
  let r2 := get_saved_direct_leds two_led_session (snd r1) in
  directory_colours two_led_session w = [(0, 0, 0); (0, 0, 0)]
  /\ fst r1 = Return (_led_map two_led_session)
  /\ directory_colours two_led_session (snd r1) = [(1, 2, 3); (4, 5, 6)]
  /\ fst r2 = Return (_led_map two_led_session)
  /\ directory_colours two_led_session (snd r2) = [(7, 8, 9); (10, 11, 12)].
Proof. vm_compute. repeat split; reflexivity. Qed.

(** ** The unlock handshake *)

Lemma bind_assoc {T A B C} (m : M T A) (f : A -> M T B) (g : B -> M T C)
    (w : world T) :
  bind (bind m f) g w = bind m (fun a => bind (f a) g) w.
Proof. unfold bind. destruct (m w) as [[a|e|] w1]; reflexivity. Qed.

(** The three ways in which the end of [unlock] can go, by the status
    read last. *)
Lemma unlock_conclude_cases (T : Transport) (self : session) (use_leds : bool)
    (w w1 : world T) (unlocked unlock_in_progress : Z) (keys : list position) :
  (let* _ := if use_leds then revert_to_saved_preset else ret tt in
   get_unlock_status self) w
  = (Return (unlocked, unlock_in_progress, keys), w1) ->
  (unlocked <> 0 /\ unlock_in_progress = 0 ->
     unlock_conclude self use_leds w
     = (Return tt, printed_text w1 "Keyboard is unlocked"))
  /\ (unlock_in_progress <> 0 ->
        unlock_conclude self use_leds w
        = (Raise (PlainException
             "Unlock process is still in progress. Nothing can be done until it is complete."),
           printed_text w1 "Something went wrong whilst trying to unlock."))
  /\ (unlocked = 0 /\ unlock_in_progress = 0 ->
        unlock_conclude self use_leds w
        = (Return tt,
           printed_text w1 "Something went wrong whilst trying to unlock.")).
Proof.
  intros Hstatus. unfold unlock_conclude.
  rewrite <- bind_assoc. rewrite (bind_Return _ _ _ _ _ Hstatus).
  repeat split.
  - intros [Hu Hp]. subst unlock_in_progress.
    apply Z.eqb_neq in Hu. rewrite Hu. reflexivity.
  - intros Hp. apply Z.eqb_neq in Hp. rewrite Hp, andb_false_r. reflexivity.
  - intros [-> ->]. reflexivity.
Qed.

(** C9, as the code has it. [unlock] on a keyboard that is not unlocked
    at entry, in a run whose handshake (request and polling loop) has
    finished in the world [w2]: the saved preset is restored when the
    LEDs are in use and the status is read one last time. If that status
    is unlocked and not in progress, "Keyboard is unlocked" is printed
    and the call returns. Otherwise "Something went wrong whilst trying
    to unlock." is printed, and the call raises only if the status says
    the unlock is still in progress; with unlocked and in-progress both
    false it returns normally. *)
Theorem unlock_conclusion (T : Transport) (fuel : nat) (self : session)
    (restricted_commands : bool) (w w0 w1 w2 w3 : world T)
    (in_progress0 : Z) (keys0 : list position)
    (unlocked unlock_in_progress : Z) (keys : list position) :
  let use_leds :=
    bool_decide (model self = PI500PLUS) && negb restricted_commands in
  get_unlock_status self w = (Return (0, in_progress0, keys0), w0) ->
  (if use_leds then set_led_direct_effect self else ret tt) w0 = (Return tt, w1) ->
  unlock_handshake fuel self restricted_commands use_leds in_progress0 keys0 w1
  = (Return tt, w2) ->
  (let* _ := if use_leds then revert_to_saved_preset else ret tt in
   get_unlock_status self) w2
  = (Return (unlocked, unlock_in_progress, keys), w3) ->
  (unlocked <> 0 /\ unlock_in_progress = 0 ->
     unlock fuel self restricted_commands w
     = (Return tt, printed_text w3 "Keyboard is unlocked"))
  /\ (unlock_in_progress <> 0 ->
        unlock fuel self restricted_commands w
        = (Raise (PlainException
             "Unlock process is still in progress. Nothing can be done until it is complete."),
           printed_text w3 "Something went wrong whilst trying to unlock."))
  /\ (unlocked = 0 /\ unlock_in_progress = 0 ->
        unlock fuel self restricted_commands w
        = (Return tt,
           printed_text w3 "Something went wrong whilst trying to unlock.")).
Proof.
  intros use_leds Hentry Heffect Hshake Hstatus.
  assert (Hrun : unlock fuel self restricted_commands w
                 = unlock_conclude self use_leds w2).
  { unfold unlock. fold use_leds.
    rewrite (bind_Return _ _ _ _ _ Hentry).
    rewrite (bind_Return _ _ _ _ _ Heffect).
    cbn [Z.eqb negb].
    rewrite (bind_Return _ _ _ _ _ Hshake). reflexivity. }
  rewrite Hrun.
  exact (unlock_conclude_cases T self use_leds w2 w3 unlocked unlock_in_progress
           keys Hstatus).
Qed.

Lemma unlock_conclusion_witness :
  get_unlock_status plus_session handshake_w
  = (Return (0, 0, [(5, 0); (5, 1)]%nat), handshake_w0)
  /\ (if bool_decide (model plus_session = PI500PLUS) && negb true
      then set_led_direct_effect plus_session else ret tt) handshake_w0
     = (Return tt, handshake_w0)
  /\ unlock_handshake 10 plus_session true
       (bool_decide (model plus_session = PI500PLUS) && negb true)
       0 [(5, 0); (5, 1)]%nat handshake_w0
     = (Return tt, handshake_w2)
  /\ (let* _ := if bool_decide (model plus_session = PI500PLUS) && negb true
                then revert_to_saved_preset else ret tt in
      get_unlock_status plus_session) handshake_w2
     = (Return (0, 0, [(5, 0); (5, 1)]%nat), handshake_w3)
  /\ unlock 10 plus_session true handshake_w
     = (Return tt,
        printed_text handshake_w3 "Something went wrong whilst trying to unlock.").
Proof.
  assert (H1 : get_unlock_status plus_session handshake_w
               = (Return (0, 0, [(5, 0); (5, 1)]%nat), handshake_w0))
    by (vm_compute; reflexivity).
  assert (H2 : (if bool_decide (model plus_session = PI500PLUS) && negb true
                then set_led_direct_effect plus_session else ret tt) handshake_w0
               = (Return tt, handshake_w0)) by reflexivity.
  assert (H3 : unlock_handshake 10 plus_session true
                 (bool_decide (model plus_session = PI500PLUS) && negb true)
                 0 [(5, 0); (5, 1)]%nat handshake_w0
               = (Return tt, handshake_w2)) by (vm_compute; reflexivity).
  assert (H4 : (let* _ := if bool_decide (model plus_session = PI500PLUS)
                             && negb true
                          then revert_to_saved_preset else ret tt in
                get_unlock_status plus_session) handshake_w2
               = (Return (0, 0, [(5, 0); (5, 1)]%nat), handshake_w3))
    by (vm_compute; reflexivity).
  split; [exact H1|]. split; [exact H2|]. split; [exact H3|]. split; [exact H4|].
  exact (proj2 (proj2 (unlock_conclusion scripted 10 plus_session true handshake_w
                         handshake_w0 handshake_w0 handshake_w2 handshake_w3
                         0 _ 0 0 _ H1 H2 H3 H4))
           (conj eq_refl eq_refl)).
Defined.

(** C9 as it was stated does not hold. A handshake in restricted mode:
    the device counts down, then reports unlocked = false and
    in-progress = false. [unlock] prints that something went wrong and
    returns normally. *)
Lemma unlock_inconsistent_end_returns :
  let r := unlock 10 plus_session true handshake_w in
  fst r = Return tt
  /\ List.last (stdout (snd r)) (Text "")
     = Text "Something went wrong whilst trying to unlock."
  /\ device (snd r) = [].
Proof. vm_compute. repeat split; reflexivity. Qed.

(** The same handshake ending unlocked, and ending still in progress. *)
Lemma unlock_sample_runs :
  (let w := start scripted
              [status_reply 0 0; unlock_start_reply; status_reply 0 1;
               poll_reply 0 1 5; poll_reply 0 1 4; poll_reply 0 1 3;
               poll_reply 0 1 2; poll_reply 0 1 1; poll_reply 0 1 0;
               poll_reply 1 0 0; status_reply 1 0] fresh_heap in
   let r := unlock 10 plus_session true w in
   fst r = Return tt
   /\ List.last (stdout (snd r)) (Text "") = Text "Keyboard is unlocked")
  /\ (let w := start scripted
                 [status_reply 0 0; unlock_start_reply; status_reply 0 1;
                  poll_reply 0 0 0; status_reply 0 1] fresh_heap in
      let r := unlock 10 plus_session true w in
      fst r = Raise (PlainException
        "Unlock process is still in progress. Nothing can be done until it is complete.")).
Proof. vm_compute. repeat split; reflexivity. Qed.

(** C10. A PI500PLUS session, [unlock()] with the LEDs in use, on a
    device that reports unlocked = true: before it returns, the call
    writes the direct effect into the transient slot 7 and selects that
    slot; it does not restore the saved preset. *)
Theorem unlock_when_unlocked_writes_preset :
  let w := start scripted [status_reply 1 0; set_mode_reply; set_index_reply]
             fresh_heap in
  let r := unlock 10 plus_session false w in
  fst r = Return tt
  /\ stdout (snd r) = [Text "Keyboard is already unlocked"]
  /\ written (snd r)
     = [ frame_of [CMD_VIAL_COMMAND; VIAL_GET_UNLOCK_STATUS];
         frame_of [CMD_RPI_COMMAND; RPI_CMD_SET_MODE; 7; 0xFF; 1; 0; 255; 1; 2;
                   255; 255];
         frame_of [CMD_RPI_COMMAND; RPI_CMD_SET_CURRENT_MODE_INDEX; 7; 0] ].
Proof. vm_compute. repeat split; reflexivity. Qed.

(** Where the LEDs are not in use (PI500, or restricted mode) the call is
    the no-op described: one status request, one line printed. *)
Lemma unlock_when_unlocked_without_leds (T : Transport) (fuel : nat)
    (self : session) (restricted_commands : bool) (w w1 : world T)
    (unlocked unlock_in_progress : Z) (keys : list position) :
  model self = PI500 \/ restricted_commands = true ->
  get_unlock_status self w = (Return (unlocked, unlock_in_progress, keys), w1) ->
  unlocked <> 0 ->
  unlock fuel self restricted_commands w
  = (Return tt, printed_text w1 "Keyboard is already unlocked").
Proof.
  intros Hno Hstatus Hu. unfold unlock.
  rewrite (bind_Return _ _ _ _ _ Hstatus).
  assert (Huse : bool_decide (model self = PI500PLUS) && negb restricted_commands
                 = false).
  { destruct Hno as [Hm| ->]; [|apply andb_false_r].
    rewrite Hm. reflexivity. }
  rewrite Huse, bind_ret. apply Z.eqb_neq in Hu. rewrite Hu. reflexivity.
Qed.

(** * Further properties of the code *)

(** ** Inversion of the monad *)

Section Inversion.
Context {T : Transport} {A B : Type}.

Lemma bind_Return_inv (m : M T A) (k : A -> M T B) (w w' : world T) (r : B) :
  bind m k w = (Return r, w') ->
  exists a w1, m w = (Return a, w1) /\ k a w1 = (Return r, w').
Proof.
  unfold bind. destruct (m w) as [[a|e|] w1]; intros H;
    [eauto | discriminate | discriminate].
Qed.

Lemma try_Return_inv (o : option A) (e : exn) (w w' : world T) (a : A) :
  try o e w = (Return a, w') -> o = Some a /\ w' = w.
Proof. destruct o; intros [= ]; subst; auto. Qed.
End Inversion.

(** ** What the checked exchange returns and writes *)

Section Exchange.
Context {T : Transport}.

Lemma unpack_BB_header (raw : list Z) (a b : Z) :
  unpack_BB (slice raw 0 2) = Some (a, b) -> exists t, raw = a :: b :: t.
Proof.
  unfold slice. destruct raw as [|x [|y t]]; cbn; try discriminate.
  destruct t; cbn; intros [= -> ->]; eauto.
Qed.

Lemma check_loop_returns_echo (fuel : nat) (payload : list Z) (cmd : Z)
    (subcmd : option Z) (raw_data : list Z) (rcmd : Z) (rsubcmd : option Z)
    (n : nat) (w w' : world T) (r : list Z) :
  (exists t, raw_data = rcmd :: t) ->
  (forall b, rsubcmd = Some b -> exists t, raw_data = rcmd :: b :: t) ->
  check_loop fuel payload cmd subcmd raw_data rcmd rsubcmd n w = (Return r, w') ->
  echo_of cmd subcmd r.
Proof.
  revert raw_data rcmd rsubcmd n w.
  induction fuel as [|fuel IH]; intros raw_data rcmd rsubcmd n w H1 H2;
    unfold check_loop; fold (@check_loop T);
    destruct (negb (rcmd =? cmd) || opt_neqb rsubcmd subcmd) eqn:Hc.
  - discriminate.
  - intros [= <- <-]. apply orb_false_iff in Hc as [Hc1 Hc2].
    apply negb_false_iff, Z.eqb_eq in Hc1. subst rcmd.
    destruct subcmd as [s|], rsubcmd as [b|]; cbn in Hc2; try discriminate.
    + apply negb_false_iff, Z.eqb_eq in Hc2. subst b. apply (H2 s eq_refl).
    + exact H1.
  - intros H. apply bind_Return_inv in H as (raw & w1 & _ & H).
    apply bind_Return_inv in H as ([a b] & w2 & Hu & H).
    apply try_Return_inv in Hu as [Hu ->].
    apply unpack_BB_header in Hu as [t ->].
    destruct (flush_limit <? S n)%nat.
    + apply bind_Return_inv in H as (? & ? & _ & H). discriminate.
    + eapply IH in H; [exact H | eauto |].
      intros b' Hb. injection Hb as Hb. subst b'. eauto.
  - intros [= <- <-]. apply orb_false_iff in Hc as [Hc1 Hc2].
    apply negb_false_iff, Z.eqb_eq in Hc1. subst rcmd.
    destruct subcmd as [s|], rsubcmd as [b|]; cbn in Hc2; try discriminate.
    + apply negb_false_iff, Z.eqb_eq in Hc2. subst b. apply (H2 s eq_refl).
    + exact H1.
Qed.

Lemma send_check_echo_inv (cmd : Z) (subcmd : option Z)
    (data : option (list Z)) (w w' : world T) (r : list Z) :
  _send_check_command cmd subcmd data w = (Return r, w') ->
  echo_of cmd subcmd r.
Proof.
  unfold _send_check_command. intros H.
  apply bind_Return_inv in H as (p & w1 & _ & H).
  apply bind_Return_inv in H as (p' & w2 & _ & H).
  lazy zeta in H.
  apply bind_Return_inv in H as (raw & w3 & _ & H).
  apply bind_Return_inv in H as ([rcmd rsubcmd] & w4 & Hh & H).
  destruct subcmd as [s|].
  - apply bind_Return_inv in Hh as ([a b] & w5 & Hu & Hh).
    apply try_Return_inv in Hu as [Hu ->].
    injection Hh as Ha Hb Hw. subst rcmd rsubcmd w4.
    apply unpack_BB_header in Hu as [t ->].
    eapply check_loop_returns_echo in H; [exact H | eauto |].
    intros b' Hb. injection Hb as Hb. subst b'. eauto.
  - apply bind_Return_inv in Hh as (l & w5 & Hu & Hh).
    apply try_Return_inv in Hu as [Hu ->].
    injection Hh as Ha Hb Hw. subst rcmd rsubcmd w4.
    unfold unpack_Bs in Hu.
    destruct (length (slice raw 0 1) =? 1)%nat eqn:E; [|discriminate].
    injection Hu as <-.
    assert (Hraw : exists t, raw = nth 0 (slice raw 0 1) 0 :: t).
    { unfold slice in *. destruct raw as [|x t]; [discriminate|].
      cbn. eauto. }
    eapply check_loop_returns_echo in H; [exact H | exact Hraw |].
    intros b' Hb. discriminate Hb.
Qed.

(** X1. On any transport: a frame that [_send_check_command] returns
    starts with the opcode that was sent, followed by the subopcode when
    one was sent. A frame that answers another command is never handed
    to the caller. *)
Theorem send_check_returns_echo (cmd : Z) (subcmd : option Z)
    (data : option (list Z)) (w w' : world T) (r : list Z) :
  _send_check_command cmd subcmd data w = (Return r, w') ->
  echo_of cmd subcmd r.
Proof. apply send_check_echo_inv. Qed.
End Exchange.

Lemma send_check_returns_echo_witness :
  _send_check_command CMD_RPI_COMMAND (Some RPI_CMD_GET_CURRENT_MODE_INDEX) None
    (start scripted [other_reply; good_reply2] fresh_heap)
  = (Return good_reply2,
     snd (_send_check_command CMD_RPI_COMMAND
            (Some RPI_CMD_GET_CURRENT_MODE_INDEX) None
            (start scripted [other_reply; good_reply2] fresh_heap)))
  /\ echo_of CMD_RPI_COMMAND (Some RPI_CMD_GET_CURRENT_MODE_INDEX) good_reply2.
Proof.
  assert (H : _send_check_command CMD_RPI_COMMAND
                (Some RPI_CMD_GET_CURRENT_MODE_INDEX) None
                (start scripted [other_reply; good_reply2] fresh_heap)
              = (Return good_reply2,
                 snd (_send_check_command CMD_RPI_COMMAND
                        (Some RPI_CMD_GET_CURRENT_MODE_INDEX) None
                        (start scripted [other_reply; good_reply2] fresh_heap))))
    by (vm_compute; reflexivity).
  split; [exact H|].
  exact (send_check_returns_echo _ _ _ _ _ _ H).
Defined.

(** ** How often a report is written *)

Section Resends.
Context {T : Transport}.

Lemma resends_mono {A} (n n' : nat) (frame : list Z) (m : M T A) :
  (n <= n')%nat -> resends n frame m -> resends n' frame m.
Proof. intros Hn Hm w. destruct (Hm w) as (k & Hk & E). exists k. split; [lia|exact E]. Qed.

Lemma resends_silent {A} (frame : list Z) (m : M T A) :
  (forall w, written (snd (m w)) = written w) -> resends 0 frame m.
Proof. intros H w. exists O. rewrite H. cbn. rewrite app_nil_r. auto. Qed.

Lemma resends_bind {A B} (n n' : nat) (frame : list Z) (m : M T A)
    (k : A -> M T B) :
  resends n frame m -> (forall a, resends n' frame (k a)) ->
  resends (n + n') frame (bind m k).
Proof.
  intros Hm Hk w. unfold bind. destruct (Hm w) as (k1 & Hk1 & E1).
  destruct (m w) as [[a|e|] w1]; cbn [snd] in E1.
  - destruct (Hk a w1) as (k2 & Hk2 & E2). exists (k1 + k2)%nat.
    split; [lia|]. rewrite E2, E1, replicate_add, app_assoc. reflexivity.
  - exists k1. split; [lia|exact E1].
  - exists k1. split; [lia|exact E1].
Qed.

Lemma resends_try {A} (frame : list Z) (o : option A) (e : exn) :
  resends 0 frame (try (T := T) o e).
Proof. apply resends_silent. intros w. destruct o; reflexivity. Qed.

Lemma resends_send_command (command : list Z) :
  resends 1 (frame_of command) (_send_command (T := T) command).
Proof.
  intros w. unfold _send_command.
  destruct (forallb is_byte command); [|exists O; cbn; rewrite app_nil_r; auto].
  cbn [try]. rewrite bind_ret. unfold pad_report.
  destruct (length command <=? MSG_LEN)%nat;
    [|exists O; cbn; rewrite app_nil_r; auto].
  exists 1%nat. split; [lia|]. cbn [try]. rewrite bind_ret.
  unfold bind, device_write, device_read. cbn.
  destruct (dev_read T _ _); reflexivity.
Qed.

Lemma resends_check_loop (fuel : nat) (payload : list Z) (cmd : Z)
    (subcmd : option Z) (raw_data : list Z) (rcmd : Z) (rsubcmd : option Z)
    (n : nat) :
  resends fuel (frame_of payload)
    (check_loop (T := T) fuel payload cmd subcmd raw_data rcmd rsubcmd n).
Proof.
  revert raw_data rcmd rsubcmd n.
  induction fuel as [|fuel IH]; intros raw_data rcmd rsubcmd n;
    unfold check_loop; fold (@check_loop T);
    destruct (negb (rcmd =? cmd) || opt_neqb rsubcmd subcmd);
    try (apply resends_silent; reflexivity).
  - change (S fuel) with (1 + (0 + fuel))%nat.
    apply resends_bind; [apply resends_send_command|]. intros raw.
    apply resends_bind; [apply resends_try|]. intros [a b].
    destruct (flush_limit <? S n)%nat; [|apply IH].
    apply (resends_mono 0); [lia|]. apply resends_silent. reflexivity.
  - apply (resends_mono 0); [lia|]. apply resends_silent. reflexivity.
Qed.

Lemma resends_send_check (cmd : Z) (subcmd : option Z)
    (data : option (list Z)) :
  resends 7 (frame_of (payload_of cmd subcmd data))
    (_send_check_command (T := T) cmd subcmd data).
Proof.
  unfold _send_check_command, to_bytes1.
  destruct (is_byte cmd);
    [|apply (resends_mono 0); [lia|]; apply resends_silent; reflexivity].
  assert (Hgo : forall payload,
    resends 7 (frame_of payload)
      (let* raw_data := _send_command (T := T) payload in
       let* (rcmd, rsubcmd) :=
         match subcmd with
         | None =>
             let* r := try (unpack_Bs 1 (slice raw_data 0 1)) StructError in
             ret (nth 0 r 0, None)
         | Some _ =>
             let* (a, b) := try (unpack_BB (slice raw_data 0 2)) StructError in
             ret (a, Some b)
         end in
       check_loop (S flush_limit) payload cmd subcmd raw_data rcmd rsubcmd 0)).
  { intros payload. change 7%nat with (1 + (0 + S flush_limit))%nat.
    apply resends_bind; [apply resends_send_command|]. intros raw.
    apply resends_bind; [|intros [a b]; apply resends_check_loop].
    destruct subcmd.
    - change O with (0 + 0)%nat. apply resends_bind; [apply resends_try|].
      intros [a b]. apply resends_silent. reflexivity.
    - change O with (0 + 0)%nat. apply resends_bind; [apply resends_try|].
      intros r. apply resends_silent. reflexivity. }
  intros w. cbn [try]. rewrite bind_ret.
  destruct subcmd as [s|].
  - destruct (is_byte s); cbn [try].
    + rewrite bind_assoc, !bind_ret. destruct data; apply Hgo.
    + exists O. cbn. rewrite app_nil_r. split; [lia|reflexivity].
  - rewrite bind_ret. destruct data; [apply Hgo|].
    specialize (Hgo [cmd] w). cbn in Hgo |- *. exact Hgo.
Qed.

(** X2. On any transport and however the call ends,
    [_send_check_command] writes one and the same report, the padded
    command, at most seven times (the first attempt and six more), and
    writes nothing else. *)
Theorem send_check_resends (cmd : Z) (subcmd : option Z)
    (data : option (list Z)) (w : world T) :
  exists k,
    (k <= 7)%nat
    /\ written (snd (_send_check_command cmd subcmd data w))
       = written w ++ replicate k (frame_of (payload_of cmd subcmd data)).
Proof. apply resends_send_check. Qed.
End Resends.

(** ** Version queries *)

(** X3. [get_via_protocol_version] asks with the subcommand 0, so the
    byte after the opcode is checked against 0 and the version that is
    returned is the single byte that follows it: a response that carries a
    version word of 256 or more is never accepted. *)
Theorem via_protocol_version_is_one_byte (T : Transport) (w w' : world T)
    (v : Z) :
  get_via_protocol_version w = (Return v, w') ->
  exists tail,
    _send_check_command CMD_GET_PROTOCOL_VERSION (Some 0) None w
    = (Return (CMD_GET_PROTOCOL_VERSION :: 0 :: v :: tail), w').
Proof.
  unfold get_via_protocol_version. intros H.
  apply bind_Return_inv in H as (raw & w1 & Hs & Ht).
  apply try_Return_inv in Ht as [Hu ->].
  destruct (send_check_echo_inv _ _ _ _ _ _ Hs) as [t ->].
  unfold slice in Hu. cbn in Hu.
  destruct t as [|b [|c t]]; cbn in Hu; try discriminate.
  - injection Hu as <-. exists []. rewrite Hs. do 3 f_equal.
  - injection Hu as <-. exists (c :: t). rewrite Hs. do 3 f_equal.
Qed.

Lemma via_protocol_version_is_one_byte_witness :
  get_via_protocol_version (start scripted [version_reply 0 12] fresh_heap)
  = (Return 12,
     snd (get_via_protocol_version (start scripted [version_reply 0 12] fresh_heap)))
  /\ exists tail,
       _send_check_command CMD_GET_PROTOCOL_VERSION (Some 0) None
         (start scripted [version_reply 0 12] fresh_heap)
       = (Return (CMD_GET_PROTOCOL_VERSION :: 0 :: 12 :: tail),
          snd (get_via_protocol_version
                 (start scripted [version_reply 0 12] fresh_heap))).
Proof.
  assert (H : get_via_protocol_version (start scripted [version_reply 0 12] fresh_heap)
              = (Return 12,
                 snd (get_via_protocol_version
                        (start scripted [version_reply 0 12] fresh_heap))))
    by (vm_compute; reflexivity).
  split; [exact H|].
  exact (via_protocol_version_is_one_byte _ _ _ _ H).
Defined.

(** ** Finding the keyboard *)

Lemma filter_filter_first (devices : list descriptor) (first : descriptor)
    (rest : list descriptor) :
  List.filter is_vial_interface (List.filter is_rpi_keyboard devices)
  = first :: rest ->
  exists before after,
    devices = before ++ first :: after
    /\ is_compatible first = true
    /\ Forall (fun d => is_compatible d = false) before.
Proof.
  unfold is_compatible.
  induction devices as [|d devices IH]; [discriminate|]. cbn.
  destruct (is_rpi_keyboard d) eqn:Hr; cbn.
  - destruct (is_vial_interface d) eqn:Hv.
    + intros [= -> <-]. exists [], devices. rewrite Hr, Hv. auto.
    + intros H. destruct (IH H) as (before & after & -> & Hc & Hb).
      exists (d :: before), after. repeat split; [exact Hc|].
      constructor; [rewrite Hr, Hv; reflexivity|exact Hb].
  - intros H. destruct (IH H) as (before & after & -> & Hc & Hb).
    exists (d :: before), after. repeat split; [exact Hc|].
    constructor; [rewrite Hr; reflexivity|exact Hb].
Qed.

(** X4. The path that [_search_devices] returns is that of the first
    entry of the enumeration that is a Raspberry Pi keyboard (vendor and
    product id) and its Vial interface (serial number, usage page and
    usage): every entry listed before it fails one of the tests. *)
Theorem search_devices_first_compatible (devices : list descriptor)
    (p : string) (lines : list string) :
  _search_devices devices = FoundDevice p lines ->
  exists before d after,
    devices = before ++ d :: after
    /\ path d = p
    /\ is_rpi_keyboard d = true /\ is_vial_interface d = true
    /\ Forall (fun d' => is_rpi_keyboard d' && is_vial_interface d' = false)
         before.
Proof.
  unfold _search_devices.
  destruct (length (List.filter is_rpi_keyboard devices) =? 0)%nat;
    [discriminate|].
  destruct (List.filter is_vial_interface (List.filter is_rpi_keyboard devices))
    as [|first rest] eqn:E; [discriminate|].
  intros [= <- _].
  destruct (filter_filter_first _ _ _ E) as (before & after & -> & Hc & Hb).
  unfold is_compatible in Hc. apply andb_true_iff in Hc as [Hr Hv].
  exists before, first, after. auto.
Qed.

Lemma search_devices_first_compatible_witness :
  _search_devices sample_devices = FoundDevice "/dev/hidraw2" []
  /\ exists before d after,
       sample_devices = before ++ d :: after
       /\ path d = "/dev/hidraw2"
       /\ is_rpi_keyboard d = true /\ is_vial_interface d = true
       /\ Forall (fun d' => is_rpi_keyboard d' && is_vial_interface d' = false)
            before.
Proof.
  split; [reflexivity|].
  apply (search_devices_first_compatible sample_devices "/dev/hidraw2" []).
  reflexivity.
Defined.

Lemma filter_nil_Forall {A} (f : A -> bool) (l : list A) :
  List.filter f l = [] <-> Forall (fun a => f a = false) l.
Proof.
  induction l as [|a l IH]; cbn.
  - split; auto.
  - destruct (f a) eqn:E.
    + split; [discriminate|]. intros H. inversion H; congruence.
    + rewrite IH. split; [auto|]. intros H. inversion H; auto.
Qed.

Lemma filter_filter_nil (devices : list descriptor) :
  List.filter is_vial_interface (List.filter is_rpi_keyboard devices) = []
  <-> Forall (fun d => is_rpi_keyboard d && is_vial_interface d = false) devices.
Proof.
  induction devices as [|d devices IH]; cbn.
  - split; auto.
  - destruct (is_rpi_keyboard d) eqn:Hr; cbn.
    + destruct (is_vial_interface d) eqn:Hv.
      * split; [discriminate|]. intros H. inversion H; subst.
        rewrite Hr, Hv in *. discriminate.
      * rewrite IH. split; [constructor; [rewrite Hr, Hv|]; auto|].
        intros H. inversion H; auto.
    + rewrite IH. split; [constructor; [rewrite Hr|]; auto|].
      intros H. inversion H; auto.
Qed.

(** X5. The two errors of [_search_devices]: NoKeyboardFoundError exactly
    when no entry has the vendor and product id of a Raspberry Pi
    keyboard; the incompatible-firmware error exactly when some entry has
    them but none of those is the Vial interface. *)
Theorem search_devices_errors (devices : list descriptor) :
  (_search_devices devices = NoKeyboardFoundError
   <-> Forall (fun d => is_rpi_keyboard d = false) devices)
  /\ (_search_devices devices = NotRunningCompatibleFirmware
      <-> Exists (fun d => is_rpi_keyboard d = true) devices
          /\ Forall (fun d => is_rpi_keyboard d && is_vial_interface d = false)
               devices).
Proof.
  unfold _search_devices.
  destruct (List.filter is_rpi_keyboard devices) as [|k ks] eqn:Ek.
  - cbn. pose proof (proj1 (filter_nil_Forall _ _) Ek) as Hall.
    split; [split; auto|]. split; [discriminate|].
    intros [Hex _]. apply list.Exists_exists in Hex as (d & Hin & Hd).
    rewrite list.Forall_forall in Hall. rewrite (Hall d Hin) in Hd.
    discriminate.
  - rewrite <- Ek.
    assert (Hex : Exists (fun d => is_rpi_keyboard d = true) devices).
    { apply list.Exists_exists. exists k.
      assert (Hin : In k (List.filter is_rpi_keyboard devices))
        by (rewrite Ek; left; reflexivity).
      apply List.filter_In in Hin as [Hin Hk].
      split; [apply list_elem_of_In; exact Hin|exact Hk]. }
    assert (Hnot : ~ Forall (fun d => is_rpi_keyboard d = false) devices).
    { intros Hall. apply filter_nil_Forall in Hall. congruence. }
    replace (length (List.filter is_rpi_keyboard devices) =? 0)%nat with false
      by (rewrite Ek; reflexivity).
    destruct (List.filter is_vial_interface (List.filter is_rpi_keyboard devices))
      as [|first rest] eqn:Ev.
    + apply filter_filter_nil in Ev.
      split; [split; [discriminate|intros H; destruct (Hnot H)]|].
      split; auto.
    + split; [split; [discriminate|intros H; destruct (Hnot H)]|].
      split; [discriminate|]. intros [_ Hall].
      apply filter_filter_nil in Hall. congruence.
Qed.

(** ** Flushing the input *)

Lemma flush_step (r : list Z) (d : list (list Z)) (w : world scripted)
    (fuel : nat) :
  device w = r :: d -> r <> [] ->
  _flush_hid_buffer (S fuel) w
  = _flush_hid_buffer fuel
      (mkWorld (T := scripted) d (written w) (stdout w) (heap w) (slept w)).
Proof.
  intros Hd Hr. destruct w as [dv wr so hp sl]. cbn in Hd. subst dv.
  destruct r as [|x r]; [congruence|].
  unfold _flush_hid_buffer; fold (@_flush_hid_buffer scripted).
  unfold bind, device_read. cbn. destruct r; reflexivity.
Qed.

(** X6. [_flush_hid_buffer] on a device with pending input: it reads
    until a read returns nothing, so with [n] non-empty frames pending it
    makes [n + 1] reads, leaves no input behind and writes nothing. *)
Theorem flush_hid_buffer_drains (d : list (list Z)) (w : world scripted)
    (fuel : nat) :
  device w = d -> Forall (fun r => r <> []) d ->
  ((length d < fuel)%nat -> _flush_hid_buffer fuel w = (Return tt, drained w))
  /\ ((fuel <= length d)%nat -> fst (_flush_hid_buffer fuel w) = OutOfFuel).
Proof.
  revert w fuel. induction d as [|r d IH]; intros w fuel Hd Hall.
  - split.
    + intros Hf. destruct fuel as [|fuel]; [cbn in Hf; lia|].
      destruct w as [dv wr so hp sl]. cbn in Hd. subst dv. reflexivity.
    + intros Hf. destruct fuel; [reflexivity|cbn in Hf; lia].
  - inversion Hall as [|? ? Hr Hall']; subst.
    destruct fuel as [|fuel].
    + split; [cbn; lia|reflexivity].
    + rewrite (flush_step r d w fuel Hd Hr).
      destruct (IH (mkWorld (T := scripted) d (written w) (stdout w)
                      (heap w) (slept w)) fuel eq_refl Hall') as [H1 H2].
      split; intros Hf; [apply H1|apply H2]; cbn in Hf |- *; lia.
Qed.

Lemma flush_hid_buffer_drains_witness :
  device (start scripted [[1; 2]; [3]] fresh_heap) = [[1; 2]; [3]]
  /\ Forall (fun r : list Z => r <> []) [[1; 2]; [3]]
  /\ _flush_hid_buffer 3 (start scripted [[1; 2]; [3]] fresh_heap)
     = (Return tt, drained (start scripted [[1; 2]; [3]] fresh_heap)).
Proof.
  assert (Hall : Forall (fun r : list Z => r <> []) [[1; 2]; [3]])
    by (repeat constructor; discriminate).
  split; [reflexivity|]. split; [exact Hall|].
  apply (proj1 (flush_hid_buffer_drains [[1; 2]; [3]]
                  (start scripted [[1; 2]; [3]] fresh_heap) 3 eq_refl Hall)).
  cbn. lia.
Defined.

(** X7. [_flush_hid_buffer] has no bound of its own: on a device that
    has something to deliver at every read it never returns. *)
Theorem flush_hid_buffer_never_ends (b : Z) (frame : list Z)
    (w : world (constant (b :: frame))) (fuel : nat) :
  fst (_flush_hid_buffer fuel w) = OutOfFuel.
Proof.
  revert w. induction fuel as [|fuel IH]; intros w; [reflexivity|].
  unfold _flush_hid_buffer; fold (@_flush_hid_buffer (constant (b :: frame))).
  unfold bind, device_read. cbn. apply IH.
Qed.

(** ** Arguments that are checked before anything is written *)

Section Setters.
Context {T : Transport}.
Hypothesis Hecho : echoes T.

Lemma send_check_echoed (cmd s : Z) (data : list Z) (w : world T) :
  forallb is_byte (cmd :: s :: data) = true ->
  (length (cmd :: s :: data) <= MSG_LEN)%nat ->
  exists tail,
    _send_check_command cmd (Some s) (Some data) w
    = (Return (cmd :: s :: tail),
       after_exchange w (frame_of (cmd :: s :: data))).
Proof.
  intros Hb Hl.
  destruct (Hecho (device w) cmd s
              (data ++ replicate (MSG_LEN - length (cmd :: s :: data)) 0))
    as [tail Ht].
  exists tail.
  apply (send_check_first_try cmd s (Some data) w tail Hb Hl). exact Ht.
Qed.

(** X8. [set_hue] and [set_brightness] take one byte: with a value from
    0 to 255 and a device that echoes the command, one report (0xFC, the
    subcommand, the value) is written and the call returns; any other
    value raises OverflowError before anything is written. *)
Theorem global_setters_take_a_byte (v : Z) (w : world T) :
  (0 <= v < 256 ->
     set_hue v w
     = (Return tt, after_exchange w (frame_of [CMD_RPI_COMMAND; RPI_CMD_SET_HUE; v]))
     /\ set_brightness v w
        = (Return tt,
           after_exchange w (frame_of [CMD_RPI_COMMAND; RPI_CMD_SET_BRIGHTNESS; v])))
  /\ (~ 0 <= v < 256 ->
        set_hue v w = (Raise OverflowError, w)
        /\ set_brightness v w = (Raise OverflowError, w)).
Proof.
  split.
  - intros Hv. apply is_byte_spec in Hv.
    unfold set_hue, set_brightness, to_bytes1. rewrite Hv. cbn [try].
    rewrite !bind_ret.
    destruct (send_check_echoed CMD_RPI_COMMAND RPI_CMD_SET_HUE [v] w)
      as [t1 H1]; [cbn; rewrite Hv; reflexivity|unfold MSG_LEN; cbn; lia|].
    destruct (send_check_echoed CMD_RPI_COMMAND RPI_CMD_SET_BRIGHTNESS [v] w)
      as [t2 H2]; [cbn; rewrite Hv; reflexivity|unfold MSG_LEN; cbn; lia|].
    rewrite (bind_Return _ _ _ _ _ H1), (bind_Return _ _ _ _ _ H2).
    split; reflexivity.
  - intros Hv. rewrite <- is_byte_spec in Hv.
    apply not_true_is_false in Hv.
    unfold set_hue, set_brightness, to_bytes1. rewrite Hv. split; reflexivity.
Qed.
End Setters.

Lemma global_setters_take_a_byte_witness :
  echoes led_store
  /\ set_hue 300 led_world = (Raise OverflowError, led_world)
  /\ fst (set_hue 128 led_world) = Return tt.
Proof.
  split; [exact led_store_echoes|]. split.
  - apply (global_setters_take_a_byte led_store_echoes 300 led_world). lia.
  - rewrite (proj1 (proj1 (global_setters_take_a_byte led_store_echoes 128 led_world)
                      ltac:(lia))).
    reflexivity.
Defined.

Lemma pack_Bs_not_byte (a b c : Z) :
  is_byte a && is_byte b && is_byte c = false -> pack_Bs [a; b; c] = None.
Proof.
  cbn. unfold pack_B.
  destruct (is_byte a), (is_byte b), (is_byte c); cbn; congruence.
Qed.

(** X9. The keymap operations check their arguments themselves: on a
    session without a conversion table, a layer, row or column that does
    not fit a byte makes [get_keycode] and [set_keycode] raise
    struct.error, and so does a keycode of [set_keycode] outside 0..65535;
    in each case nothing is written to the device. *)
Theorem keycode_arguments_checked (T : Transport) (self : session)
    (row col : nat) (layer keycode : Z) (dont_convert : bool) (w : world T) :
  conversion_switch_matrix self = None ->
  (~ 0 <= layer < 256 \/ (256 <= row)%nat \/ (256 <= col)%nat ->
     get_keycode self (row, col) layer dont_convert w = (Raise StructError, w)
     /\ set_keycode self (row, col) layer keycode dont_convert w
        = (Raise StructError, w))
  /\ (~ 0 <= keycode < 65536 ->
        set_keycode self (row, col) layer keycode dont_convert w
        = (Raise StructError, w)).
Proof.
  intros Hc. unfold get_keycode, set_keycode, wire_position. rewrite Hc.
  rewrite !bind_ret. split.
  - intros Hbad.
    assert (Hp : pack_Bs [layer; Z.of_nat row; Z.of_nat col] = None).
    { apply pack_Bs_not_byte. apply not_true_is_false. intros Hb.
      apply andb_true_iff in Hb as [Hb Hb3]. apply andb_true_iff in Hb as [Hb1 Hb2].
      apply is_byte_spec in Hb1, Hb2, Hb3. lia. }
    rewrite Hp. split; reflexivity.
  - intros Hk. unfold pack_H_big.
    replace ((0 <=? keycode) && (keycode <? 65536)) with false by lia.
    destruct (pack_Bs _); reflexivity.
Qed.

Lemma keycode_arguments_checked_witness :
  conversion_switch_matrix matrix_session = None
  /\ get_keycode matrix_session (0, 300)%nat 0 false matrix_world
     = (Raise StructError, matrix_world)
  /\ set_keycode matrix_session (0, 1)%nat 0 70000 false matrix_world
     = (Raise StructError, matrix_world).
Proof.
  split; [reflexivity|]. split.
  - apply (keycode_arguments_checked scripted matrix_session 0 300 0 0 false
             matrix_world eq_refl). right. right. lia.
  - apply (keycode_arguments_checked scripted matrix_session 0 1 0 70000 false
             matrix_world eq_refl). lia.
Defined.

(** ** Single LEDs *)

(** X10. A negative LED index: [set_led_by_idx] accepts it and colours
    the LED counted from the end of the directory, as Python indexing
    does, while [send_led_by_idx] with the same index raises struct.error
    and writes nothing. *)
Theorem negative_led_index (T : Transport) (self : session) (led_idx : Z)
    (c : hsv) (w : world T) :
  model self <> PI500 ->
  - Z.of_nat (length (_led_map self)) <= led_idx < 0 ->
  (exists r,
     _led_map self !! Z.to_nat (Z.of_nat (length (_led_map self)) + led_idx)
     = Some r
     /\ set_led_by_idx self led_idx c w = set_colour r c w)
  /\ send_led_by_idx self led_idx w = (Raise StructError, w).
Proof.
  intros Hm Hi.
  assert (Hp : exists r,
    _led_map self !! Z.to_nat (Z.of_nat (length (_led_map self)) + led_idx)
    = Some r /\ py_index (_led_map self) led_idx = Some r).
  { unfold py_index.
    replace (0 <=? led_idx) with false by lia.
    replace (- Z.of_nat (length (_led_map self)) <=? led_idx) with true by lia.
    destruct (lookup_lt_is_Some_2 (_led_map self)
                (Z.to_nat (Z.of_nat (length (_led_map self)) + led_idx)))
      as [r Hr]; [lia|]. exists r. auto. }
  destruct Hp as (r & Hr & Hp). split.
  - exists r. split; [exact Hr|]. unfold set_led_by_idx. rewrite Hp.
    cbn [try]. rewrite bind_ret. reflexivity.
  - unfold send_led_by_idx. rewrite decide_False by exact Hm.
    rewrite Hp. cbn [try]. rewrite bind_ret.
    unfold bind at 1. unfold get_led at 1.
    unfold pack_HB_little, pack_H_little.
    replace ((0 <=? led_idx) && (led_idx <? 65536)) with false by lia.
    destruct (colour (heap w r)) as [[hu sa] va]. reflexivity.
Qed.

Lemma negative_led_index_witness :
  model led_session <> PI500
  /\ - Z.of_nat (length (_led_map led_session)) <= -1 < 0
  /\ set_led_by_idx led_session (-1) (1, 2, 3) led_world
     = set_colour 10 (1, 2, 3) led_world
  /\ send_led_by_idx led_session (-1) led_world = (Raise StructError, led_world).
Proof.
  assert (Hm : model led_session <> PI500) by discriminate.
  assert (Hi : - Z.of_nat (length (_led_map led_session)) <= -1 < 0)
    by (cbn; lia).
  split; [exact Hm|]. split; [exact Hi|].
  destruct (negative_led_index led_store led_session (-1) (1, 2, 3) led_world
              Hm Hi) as [(r & Hr & Hs) Hsend].
  split; [|exact Hsend].
  injection Hr as <-. exact Hs.
Defined.

(** X11. [send_led_by_idx] against the device that stores what
    direct-fastset sends: for a valid index whose LED holds a colour of
    three bytes, the call returns and exactly that LED's colour is stored
    on the device at that index; the colours of the other LEDs on the
    device and the LED objects stay as they were. *)
Theorem send_led_by_idx_stores_one (self : session) (w : world led_store)
    (i r : nat) :
  model self <> PI500 ->
  _led_map self !! i = Some r ->
  Z.of_nat i < 65536 ->
  byte_colour (colour (heap w r)) ->
  exists w',
    send_led_by_idx self (Z.of_nat i) w = (Return tt, w')
    /\ memory (device w') = <[i := colour (heap w r)]> (memory (device w))
    /\ heap w' = heap w.
Proof.
  intros Hm Hr Hi Hc.
  unfold send_led_by_idx. rewrite decide_False by exact Hm.
  unfold py_index. replace (0 <=? Z.of_nat i) with true by lia.
  rewrite Nat2Z.id, Hr. cbn [try]. rewrite bind_ret.
  unfold bind at 1. unfold get_led at 1.
  destruct (colour (heap w r)) as [[hu sa] va] eqn:Ecol.
  destruct Hc as (H1 & H2 & H3). cbn in H1, H2, H3.
  rewrite pack_HB_little_ok by lia. cbn [try]. rewrite bind_ret.
  rewrite join_to_bytes1_bytes by (cbn; rewrite H1, H2, H3; reflexivity).
  cbn [try]. rewrite bind_ret.
  destruct (le16_bytes (Z.of_nat i)) as [Hlo Hhi]; [lia|].
  destruct (send_check_echoed led_store_echoes CMD_LIGHTING_SET_VALUE
              VIALRGB_DIRECT_FASTSET
              ([Z.of_nat i mod 256; Z.of_nat i / 256; 1] ++ [hu; sa; va]) w)
    as [tail Hs].
  { cbn. rewrite Hlo, Hhi, H1, H2, H3. reflexivity. }
  { unfold MSG_LEN. cbn. lia. }
  rewrite (bind_Return _ _ _ _ _ Hs). eexists. split; [reflexivity|].
  split; [|reflexivity].
  cbn. rewrite le16_decode by lia. rewrite Nat2Z.id. reflexivity.
Qed.

Lemma send_led_by_idx_stores_one_witness :
  model led_session <> PI500
  /\ _led_map led_session !! 9%nat = Some 9%nat
  /\ Z.of_nat 9 < 65536
  /\ byte_colour (colour (heap led_world 9%nat))
  /\ exists w',
       send_led_by_idx led_session (Z.of_nat 9) led_world = (Return tt, w')
       /\ memory (device w') = <[9%nat := colour (heap led_world 9%nat)]>
                                 (memory (device led_world))
       /\ heap w' = heap led_world.
Proof.
  assert (Hm : model led_session <> PI500) by discriminate.
  assert (Hr : _led_map led_session !! 9%nat = Some 9%nat) by reflexivity.
  assert (Hi : Z.of_nat 9 < 65536) by (cbn; lia).
  assert (Hc : byte_colour (colour (heap led_world 9%nat)))
    by (repeat split; reflexivity).
  split; [exact Hm|]. split; [exact Hr|]. split; [exact Hi|].
  split; [exact Hc|].
  exact (send_led_by_idx_stores_one led_session led_world 9 9 Hm Hr Hi Hc).
Defined.

(** ** Presets *)

Lemma pack_preset_inv (i : Z) (p : Preset) (data : list Z) :
  pack_preset i p = Some data ->
  data = [i; p_flags p; p_effect p mod 256; p_effect p / 256; p_speed p;
          Z.b2z (p_fixed_hue p); p_startup_animation p; p_hue p; p_sat p]
  /\ is_byte i = true /\ 0 <= p_effect p < 65536.
Proof.
  unfold pack_preset, pack_H_little. cbn. unfold pack_B.
  destruct (is_byte i) eqn:Hi; [|discriminate].
  destruct (is_byte (p_flags p)); [|discriminate]. cbn.
  destruct ((0 <=? p_effect p) && (p_effect p <? 65536)) eqn:He; [|discriminate].
  destruct (is_byte (p_speed p)); [|discriminate].
  destruct (is_byte (Z.b2z (p_fixed_hue p))); [|discriminate].
  destruct (is_byte (p_startup_animation p)); [|discriminate].
  destruct (is_byte (p_hue p)); [|discriminate].
  destruct (is_byte (p_sat p)); [|discriminate]. cbn.
  intros [= <-]. repeat split; lia.
Qed.

(** X12. Encoding and decoding of presets agree: when the device answers
    the get-mode command with the nine bytes that [set_preset] packs for
    the preset [p] at index [i], [get_preset] returns the fields of [p]
    (with [fixed_hue] as 0 or 1) after writing the one report 0xFC 0x05
    [i]. *)
Theorem get_preset_reads_what_set_preset_packs (i : Z) (p : Preset)
    (data : list Z) (d : list (list Z)) (w : world scripted) :
  pack_preset i p = Some data ->
  device w = fit MSG_LEN ([CMD_RPI_COMMAND; RPI_CMD_GET_MODE] ++ data) :: d ->
  fst (get_preset i w) = Return (as_read p)
  /\ written (snd (get_preset i w))
     = written w ++ [frame_of [CMD_RPI_COMMAND; RPI_CMD_GET_MODE; i]].
Proof.
  intros Hp Hd. apply pack_preset_inv in Hp as (-> & Hi & He).
  unfold get_preset, to_bytes1. rewrite Hi. cbn [try]. rewrite bind_ret.
  cbn in Hd.
  pose proof (scripted_exchange CMD_RPI_COMMAND RPI_CMD_GET_MODE (Some [i]) _ d w
                ltac:(cbn; rewrite Hi; reflexivity)
                ltac:(unfold MSG_LEN; cbn; lia) Hd
                ltac:(unfold MSG_LEN; cbn; lia)) as Hs.
  rewrite (bind_Return _ _ _ _ _ Hs). cbn.
  rewrite le16_decode by lia. destruct p. split; reflexivity.
Qed.


Lemma scripted_step (cmd s : Z) (data : option (list Z)) (tail : list Z)
    (d : list (list Z)) (w : world scripted) :
  forallb is_byte (payload_of cmd (Some s) data) = true ->
  (length (payload_of cmd (Some s) data) <= MSG_LEN)%nat ->
  device w = (cmd :: s :: tail) :: d ->
  (length (cmd :: s :: tail) <= MSG_LEN)%nat ->
  exists w',
    _send_check_command cmd (Some s) data w = (Return (cmd :: s :: tail), w')
    /\ device w' = d
    /\ written w' = written w ++ [frame_of (payload_of cmd (Some s) data)]
    /\ stdout w' = stdout w /\ heap w' = heap w /\ slept w' = slept w.
Proof.
  intros Hb Hl Hd Ht. eexists. split.
  - apply (scripted_exchange cmd s data tail d w Hb Hl Hd Ht).
  - cbn. auto.
Qed.

(** X13. [get_current_effect] reads the current preset index, then the
    preset at that index; when the preset's [fixed_hue] is 0 it makes a
    third exchange and returns the preset with the global hue in place of
    its own, otherwise it returns the preset as read and makes no third
    exchange. *)
Theorem current_effect_takes_the_global_hue (cur saved e0 e1 ghue : Z)
    (r : preset_read) (d : list (list Z)) (w : world scripted) :
  0 <= cur < 256 ->
  device w = index_reply cur saved :: mode_reply cur r e0 e1 :: hue_reply ghue :: d ->
  let result := get_current_effect w in
  (r_fixed_hue r = 0 ->
     fst result = Return (mkPresetRead (r_flags r) (e0 + 256 * e1) (r_speed r)
                            0 (r_startup_animation r) ghue (r_sat r))
     /\ device (snd result) = d)
  /\ (r_fixed_hue r <> 0 ->
        fst result = Return (mkPresetRead (r_flags r) (e0 + 256 * e1) (r_speed r)
                               (r_fixed_hue r) (r_startup_animation r) (r_hue r)
                               (r_sat r))
        /\ device (snd result) = hue_reply ghue :: d).
Proof.
  intros Hcur Hd result. subst result. apply is_byte_spec in Hcur.
  unfold get_current_effect, get_current_preset_index.
  rewrite bind_assoc.
  cbn in Hd.
  destruct (scripted_step CMD_RPI_COMMAND RPI_CMD_GET_CURRENT_MODE_INDEX None
              _ _ w eq_refl ltac:(unfold MSG_LEN; cbn; lia) Hd
              ltac:(unfold MSG_LEN; cbn; lia))
    as (w1 & E1 & Hd1 & _).
  rewrite (bind_Return _ _ _ _ _ E1). cbn [slice drop take Nat.sub unpack_BB try].
  rewrite bind_assoc, !bind_ret.
  unfold get_preset, to_bytes1. rewrite Hcur. cbn [try]. rewrite bind_assoc, bind_ret.
  rewrite bind_assoc.
  destruct (scripted_step CMD_RPI_COMMAND RPI_CMD_GET_MODE (Some [cur]) _ _ w1
              ltac:(cbn; rewrite Hcur; reflexivity)
              ltac:(unfold MSG_LEN; cbn; lia) Hd1
              ltac:(unfold MSG_LEN; cbn; lia))
    as (w2 & E2 & Hd2 & _).
  rewrite (bind_Return _ _ _ _ _ E2).
  cbn [slice drop take Nat.sub unpack_preset try]. rewrite bind_ret.
  cbn [r_fixed_hue].
  split.
  - intros Hf. rewrite Hf. cbn [Z.eqb]. unfold get_hue. rewrite bind_assoc.
    destruct (scripted_step CMD_RPI_COMMAND RPI_CMD_GET_HUE None _ _ w2
                eq_refl ltac:(unfold MSG_LEN; cbn; lia) Hd2
                ltac:(unfold MSG_LEN; cbn; lia))
      as (w3 & E3 & Hd3 & _).
    rewrite (bind_Return _ _ _ _ _ E3). rewrite !bind_ret.
    unfold ret. cbn [fst snd]. split; [|exact Hd3].
    cbn. unfold with_hue. cbn. do 2 f_equal. lia.
  - intros Hf. apply Z.eqb_neq in Hf. rewrite Hf.
    unfold ret. cbn [fst snd]. split; [reflexivity|exact Hd2].
Qed.

Lemma get_preset_reads_what_set_preset_packs_witness :
  pack_preset 3 sample_preset = Some [3; 0xFF; 2; 1; 200; 1; 2; 30; 255]
  /\ fst (get_preset 3
            (start scripted
               [fit MSG_LEN ([CMD_RPI_COMMAND; RPI_CMD_GET_MODE]
                             ++ [3; 0xFF; 2; 1; 200; 1; 2; 30; 255])]
               fresh_heap))
     = Return (as_read sample_preset).
Proof.
  split; [reflexivity|].
  apply (get_preset_reads_what_set_preset_packs 3 sample_preset
           [3; 0xFF; 2; 1; 200; 1; 2; 30; 255] []
           (start scripted
              [fit MSG_LEN ([CMD_RPI_COMMAND; RPI_CMD_GET_MODE]
                            ++ [3; 0xFF; 2; 1; 200; 1; 2; 30; 255])]
              fresh_heap) eq_refl eq_refl).
Defined.

Lemma current_effect_takes_the_global_hue_witness :
  0 <= 2 < 256
  /\ fst (get_current_effect
            (start scripted
               [index_reply 2 5;
                mode_reply 2 (mkPresetRead 0xFF 0 200 0 2 30 255) 6 0;
                hue_reply 77] fresh_heap))
     = Return (mkPresetRead 0xFF (6 + 256 * 0) 200 0 2 77 255).
Proof.
  assert (H : 0 <= 2 < 256) by lia.
  split; [exact H|].
  apply (proj1 (current_effect_takes_the_global_hue 2 5 6 0 77
                  (mkPresetRead 0xFF 0 200 0 2 30 255) []
                  (start scripted
                     [index_reply 2 5;
                      mode_reply 2 (mkPresetRead 0xFF 0 200 0 2 30 255) 6 0;
                      hue_reply 77] fresh_heap) H eq_refl)).
  reflexivity.
Defined.

(** ** The effect catalogue *)

Lemma names_back_all :
  forallb (fun id => names_back id true && names_back id false) (seqZ 0 45)
  = true.
Proof. vm_compute. reflexivity. Qed.

(** X14. Names and numbers of the catalogue agree: for every effect
    number from 0 to 44, the name that [get_vial_effect_name] gives, the
    display name as well as the internal one, is a name for which
    [get_vial_effect_id] gives that number back. *)
Theorem effect_id_of_name (id : Z) (pretty_name : bool) :
  0 <= id < 45 ->
  exists name,
    get_vial_effect_name id pretty_name = inr (Some name)
    /\ get_vial_effect_id name = Some id.
Proof.
  intros Hid. pose proof names_back_all as Hall.
  rewrite forallb_forall in Hall.
  assert (Hin : In id (seqZ 0 45)) by (apply list_elem_of_In, elem_of_seqZ; lia).
  specialize (Hall id Hin). apply andb_true_iff in Hall as [Ht Hf].
  unfold names_back in Ht, Hf.
  destruct pretty_name.
  - destruct (get_vial_effect_name id true) as [e|[name|]]; try discriminate.
    exists name. split; [reflexivity|]. apply bool_decide_eq_true in Ht; exact Ht.
  - destruct (get_vial_effect_name id false) as [e|[name|]]; try discriminate.
    exists name. split; [reflexivity|]. apply bool_decide_eq_true in Hf; exact Hf.
Qed.

Lemma effect_id_of_name_witness :
  0 <= 1 < 45
  /\ exists name,
       get_vial_effect_name 1 true = inr (Some name)
       /\ get_vial_effect_id name = Some 1.
Proof.
  assert (H : 0 <= 1 < 45) by lia.
  split; [exact H|]. exact (effect_id_of_name 1 true H).
Defined.

(** X15. [get_vial_effect_name] outside the table: a number of 45 or
    more gives [None]; a negative number is not rejected but indexes the
    table from its end, so -45..-1 name the effects 0..44; below -45 the
    indexing raises IndexError. *)
Theorem effect_name_outside_the_table (id : Z) (pretty_name : bool) :
  (45 <= id -> get_vial_effect_name id pretty_name = inr None)
  /\ (-45 <= id < 0 ->
        get_vial_effect_name id pretty_name
        = get_vial_effect_name (id + 45) pretty_name)
  /\ (id < -45 -> get_vial_effect_name id pretty_name = inl IndexError).
Proof.
  unfold get_vial_effect_name, py_index.
  change (length vial_effects) with 45%nat.
  change (- Z.of_nat 45) with (-45). change (Z.of_nat 45) with 45.
  repeat split; intros H.
  - replace (id <? 45) with false by lia. reflexivity.
  - replace (id <? 45) with true by lia. replace (id + 45 <? 45) with true by lia.
    replace (0 <=? id) with false by lia. replace (-45 <=? id) with true by lia.
    replace (0 <=? id + 45) with true by lia.
    replace (45 + id) with (id + 45) by lia. reflexivity.
  - replace (id <? 45) with true by lia.
    replace (0 <=? id) with false by lia. replace (-45 <=? id) with false by lia.
    reflexivity.
Qed.

Lemma effect_name_outside_the_table_witness :
  get_vial_effect_name 45 true = inr None
  /\ get_vial_effect_name (-1) true = get_vial_effect_name (-1 + 45) true
  /\ get_vial_effect_name (-46) true = inl IndexError.
Proof.
  split; [|split].
  - apply (proj1 (effect_name_outside_the_table 45 true)). lia.
  - apply (proj1 (proj2 (effect_name_outside_the_table (-1) true))). lia.
  - apply (proj2 (proj2 (effect_name_outside_the_table (-46) true))). lia.
Defined.

(** X16. [all_vial_effects] returns [None], not a list, and appends the
    row of the skip effect to the shared table. That changes what
    [get_vial_effect_id] answers: any spelling of "skip" or
    "VIALRGB_EFFECT_SKIP" gives 0xFFFF on the table as loaded and 45, the
    place of the appended row, once [all_vial_effects] has been called. *)
Theorem all_vial_effects_shadows_skip (name : string) :
  simple_name true name = "skip"
  \/ simple_name true name = "vialrgb effect skip" ->
  get_vial_effect_id_in vial_effects name = get_vial_effect_id name
  /\ get_vial_effect_id name = Some 0xFFFF
  /\ fst (all_vial_effects vial_effects) = None
  /\ get_vial_effect_id_in (snd (all_vial_effects vial_effects)) name = Some 45.
Proof.
  intros H. split; [reflexivity|].
  unfold get_vial_effect_id, get_vial_effect_id_in.
  destruct H as [-> | ->]; repeat split; vm_compute; reflexivity.
Qed.

Lemma all_vial_effects_shadows_skip_witness :
  simple_name true " VIALRGB_EFFECT_SKIP" = "vialrgb effect skip"
  /\ get_vial_effect_id " VIALRGB_EFFECT_SKIP" = Some 0xFFFF
  /\ get_vial_effect_id_in (snd (all_vial_effects vial_effects))
       " VIALRGB_EFFECT_SKIP" = Some 45.
Proof.
  assert (H : simple_name true " VIALRGB_EFFECT_SKIP" = "vialrgb effect skip")
    by (vm_compute; reflexivity).
  split; [exact H|].
  destruct (all_vial_effects_shadows_skip " VIALRGB_EFFECT_SKIP" (or_intror H))
    as (_ & H1 & _ & H2).
  split; [exact H1|exact H2].
Defined.

(** ** Which reports an operation writes *)

Section WritesOnly.
Context {T : Transport} (P : list Z -> Prop).

Lemma writes_only_silent {A} (m : M T A) :
  (forall w, written (snd (m w)) = written w) -> writes_only P m.
Proof. intros H w. exists []. rewrite H, app_nil_r. auto. Qed.

Lemma writes_only_bind {A B} (m : M T A) (k : A -> M T B) :
  writes_only P m -> (forall a, writes_only P (k a)) ->
  writes_only P (bind m k).
Proof.
  intros Hm Hk w. unfold bind. destruct (Hm w) as (f1 & E1 & H1).
  destruct (m w) as [[a|e|] w1]; cbn [snd] in E1.
  - destruct (Hk a w1) as (f2 & E2 & H2). exists (f1 ++ f2).
    rewrite E2, E1, app_assoc. split; [reflexivity|].
    apply Forall_app; auto.
  - exists f1. auto.
  - exists f1. auto.
Qed.

Lemma writes_only_try {A} (o : option A) (e : exn) :
  writes_only P (try (T := T) o e).
Proof. apply writes_only_silent. intros w. destruct o; reflexivity. Qed.

Lemma writes_only_resends {A} (n : nat) (frame : list Z) (m : M T A) :
  P frame -> resends n frame m -> writes_only P m.
Proof.
  intros Hp Hm w. destruct (Hm w) as (k & _ & E). exists (replicate k frame).
  split; [exact E|]. apply Forall_replicate. exact Hp.
Qed.

Lemma writes_only_send_command (command : list Z) :
  P (frame_of command) -> writes_only P (_send_command (T := T) command).
Proof.
  intros Hp. apply (writes_only_resends 1 (frame_of command)); [exact Hp|].
  apply resends_send_command.
Qed.

Lemma writes_only_send_check (cmd : Z) (subcmd : option Z)
    (data : option (list Z)) :
  P (frame_of (payload_of cmd subcmd data)) ->
  writes_only P (_send_check_command (T := T) cmd subcmd data).
Proof.
  intros Hp. apply (writes_only_resends 7 _ _ Hp). apply resends_send_check.
Qed.

Lemma writes_only_reported_position (self : session) (p : position) :
  writes_only P (reported_position (T := T) self p).
Proof.
  unfold reported_position. destruct (conversion_switch_matrix self).
  - apply writes_only_bind; [apply writes_only_try|]. intros sm.
    apply writes_only_try.
  - apply writes_only_silent. reflexivity.
Qed.

Lemma writes_only_unlock_keys (self : session) (n : nat) (rest : list Z)
    (keys : list position) :
  (length rest <= n)%nat -> writes_only P (unlock_keys (T := T) self rest keys).
Proof.
  revert rest keys. induction n as [|n IH]; intros rest keys Hn.
  - destruct rest; [|cbn in Hn; lia]. apply writes_only_silent. reflexivity.
  - destruct rest as [|row [|col rest]];
      try (apply writes_only_silent; reflexivity).
    cbn [unlock_keys].
    destruct (negb (row =? 255) && negb (col =? 255)).
    + apply writes_only_bind; [apply writes_only_reported_position|].
      intros p. apply IH. cbn in Hn. lia.
    + apply IH. cbn in Hn. lia.
Qed.
End WritesOnly.

Section Restricted.
Context {T : Transport}.

Lemma vial_frame (sub : Z) : vial_report (frame_of [CMD_VIAL_COMMAND; sub]).
Proof. eexists. reflexivity. Qed.

Lemma writes_only_get_unlock_status (self : session) :
  writes_only vial_report (get_unlock_status (T := T) self).
Proof.
  unfold get_unlock_status.
  apply writes_only_bind; [apply writes_only_send_command, vial_frame|].
  intros raw. apply writes_only_bind; [apply writes_only_try|]. intros [u p].
  apply writes_only_bind; [apply (writes_only_unlock_keys _ _ _ _ _ (Nat.le_refl _))|].
  intros keys. apply writes_only_silent. reflexivity.
Qed.

Lemma writes_only_show_keys_plain (keys : list position) :
  writes_only vial_report (show_keys_plain (T := T) keys).
Proof.
  induction keys as [|key keys IH]; [apply writes_only_silent; reflexivity|].
  cbn [show_keys_plain]. apply writes_only_bind; [|intros _; exact IH].
  apply writes_only_silent. reflexivity.
Qed.

Lemma writes_only_poll_loop (fuel : nat) (unlocked unlock_in_progress last : Z) :
  writes_only vial_report
    (poll_loop (T := T) fuel unlocked unlock_in_progress last).
Proof.
  revert unlocked unlock_in_progress last.
  induction fuel as [|fuel IH]; intros u p last;
    unfold poll_loop; fold (@poll_loop T);
    (destruct (negb (p =? 0)); [|apply writes_only_silent; reflexivity]).
  - apply writes_only_silent. reflexivity.
  - apply writes_only_bind.
    + unfold unlock_poll.
      apply writes_only_bind; [apply writes_only_send_command, vial_frame|].
      intros raw. apply writes_only_try.
    + intros [[u' p'] c]. apply writes_only_bind.
      * destruct (negb (c =? last)); [|apply writes_only_silent; reflexivity].
        apply writes_only_bind; [apply writes_only_silent; reflexivity|].
        intros _. apply writes_only_silent. reflexivity.
      * intros last'. apply writes_only_bind; [apply writes_only_silent; reflexivity|].
        intros _. apply IH.
Qed.

Lemma writes_only_restricted_unlock (fuel : nat) (self : session) :
  writes_only vial_report (unlock (T := T) fuel self true).
Proof.
  unfold unlock. rewrite andb_false_r.
  apply writes_only_bind; [apply writes_only_get_unlock_status|].
  intros [[u p] keys].
  apply writes_only_bind; [apply writes_only_silent; reflexivity|]. intros _.
  destruct (negb (u =? 0)); [apply writes_only_silent; reflexivity|].
  apply writes_only_bind.
  - unfold unlock_handshake. cbn [negb andb].
    apply writes_only_bind; [apply writes_only_silent; reflexivity|]. intros _.
    apply writes_only_bind; [apply writes_only_silent; reflexivity|]. intros _.
    apply writes_only_bind; [apply writes_only_show_keys_plain|]. intros _.
    apply writes_only_bind.
    { unfold request_unlock. apply writes_only_bind.
      - apply writes_only_send_check. eexists. reflexivity.
      - intros _. apply writes_only_silent. reflexivity. }
    intros _. apply writes_only_bind; [apply writes_only_get_unlock_status|].
    intros [[u' p'] keys'].
    apply writes_only_bind; [apply writes_only_poll_loop|].
    intros _. apply writes_only_silent. reflexivity.
  - intros _. unfold unlock_conclude.
    apply writes_only_bind; [apply writes_only_silent; reflexivity|]. intros _.
    apply writes_only_bind; [apply writes_only_get_unlock_status|].
    intros [[u' p'] keys'].
    destruct (negb (u' =? 0) && (p' =? 0)); [apply writes_only_silent; reflexivity|].
    apply writes_only_bind; [apply writes_only_silent; reflexivity|]. intros _.
    destruct (negb (p' =? 0)); apply writes_only_silent; reflexivity.
Qed.

(** X17. [unlock] with [restricted_commands] set keeps to the commands
    that the keyboard accepts while an unlock is in progress: on any
    transport, for any session and however the call ends, every report it
    writes is a Vial command (report id 0, then 0xFE); no keymap or
    lighting command is written. *)
Theorem restricted_unlock_writes_vial_only (fuel : nat) (self : session)
    (w : world T) :
  exists frames,
    written (snd (unlock fuel self true w)) = written w ++ frames
    /\ Forall (fun frame => exists rest, frame = 0 :: CMD_VIAL_COMMAND :: rest)
         frames.
Proof. apply writes_only_restricted_unlock. Qed.
End Restricted.

(** ** The polling loop *)

Lemma unlock_poll_scripted (u p c : Z) (d : list (list Z)) (w : world scripted) :
  device w = poll_reply u p c :: d ->
  unlock_poll w
  = (Return (u, p, c),
     after_resends w d (frame_of [CMD_VIAL_COMMAND; VIAL_UNLOCK_POLL]) 1).
Proof.
  intros Hd. unfold unlock_poll.
  rewrite (bind_Return _ _ _ _ _
             (scripted_send [CMD_VIAL_COMMAND; VIAL_UNLOCK_POLL] _ d w eq_refl
                ltac:(unfold MSG_LEN; cbn; lia) Hd)).
  reflexivity.
Qed.

(** X18. The polling loop of [unlock] against a device that reports the
    unlock as in progress for a number of polls and as finished at the
    next one: the loop returns the values of that last poll after one poll
    and one sleep per response, writes only poll reports, and prints the
    counter of a poll only when it differs from the counter printed
    before ([last_counter], -1 at the start). *)
Theorem poll_loop_run (busy : list (Z * Z * Z)) (u c : Z) (rest : list (list Z))
    (fuel : nat) (u0 p0 last : Z) (w : world scripted) :
  p0 <> 0 ->
  Forall still_busy busy ->
  device w = poll_frames (busy ++ [(u, 0, c)]) ++ rest ->
  (length busy < fuel)%nat ->
  exists w',
    poll_loop fuel u0 p0 last w = (Return (u, 0), w')
    /\ device w' = rest
    /\ written w'
       = written w ++ replicate (S (length busy))
                        (frame_of [CMD_VIAL_COMMAND; VIAL_UNLOCK_POLL])
    /\ stdout w' = stdout w ++ counters_shown last (busy ++ [(u, 0, c)])
    /\ slept w' = (slept w + S (length busy))%nat
    /\ heap w' = heap w.
Proof.
  revert fuel u0 p0 last w.
  induction busy as [|[[u1 p1] c1] busy IH]; intros fuel u0 p0 last w Hp Hb Hd Hf.
  - destruct fuel as [|fuel]; [cbn in Hf; lia|].
    unfold poll_loop; fold (@poll_loop scripted).
    apply Z.eqb_neq in Hp. rewrite Hp. cbn [negb].
    cbn [app fmap list_fmap poll_frames] in Hd. 
    rewrite (bind_Return _ _ _ _ _ (unlock_poll_scripted u 0 c rest w Hd)).
    destruct fuel; cbn [poll_loop Z.eqb negb].
    all: destruct (c =? last) eqn:Ec; cbn [negb counters_shown app];
      rewrite ?Ec; eexists; (split; [reflexivity|]); cbn;
      rewrite ?app_nil_r; repeat split; try reflexivity; try lia.
  - destruct fuel as [|fuel]; [cbn in Hf; lia|].
    inversion Hb as [|? ? Hp1 Hb']; subst. unfold still_busy in Hp1. cbn in Hp1.
    unfold poll_loop; fold (@poll_loop scripted).
    apply Z.eqb_neq in Hp. rewrite Hp. cbn [negb].
    cbn [app fmap list_fmap poll_frames] in Hd.
    rewrite (bind_Return _ _ _ _ _ (unlock_poll_scripted u1 p1 c1 _ w Hd)).
    destruct (c1 =? last) eqn:Ec; cbn [negb].
    + rewrite bind_ret. unfold bind at 1. unfold sleep at 1.
      edestruct (IH fuel u1 p1 last) as (w' & E & H1 & H2 & H3 & H4 & H5);
        [exact Hp1|exact Hb'| |cbn in Hf; lia|].
      2:{ exists w'. split; [exact E|]. rewrite H1, H2, H3, H4, H5. cbn.
          rewrite Ec. rewrite <- !app_assoc. repeat split; try reflexivity. lia. }
      reflexivity.
    + rewrite bind_assoc. unfold bind at 1. unfold print at 1.
      rewrite bind_ret. unfold bind at 1. unfold sleep at 1.
      edestruct (IH fuel u1 p1 c1) as (w' & E & H1 & H2 & H3 & H4 & H5);
        [exact Hp1|exact Hb'| |cbn in Hf; lia|].
      2:{ exists w'. split; [exact E|]. rewrite H1, H2, H3, H4, H5. cbn.
          rewrite Ec. rewrite <- !app_assoc. repeat split; try reflexivity. lia. }
      reflexivity.
Qed.

Lemma poll_loop_run_witness :
  (1 <> 0)
  /\ Forall still_busy [(0, 1, 2); (0, 1, 2); (0, 1, 1)]
  /\ exists w',
       poll_loop 10 0 1 (-1)
         (start scripted
            (poll_frames ([(0, 1, 2); (0, 1, 2); (0, 1, 1)] ++ [(1, 0, 0)]) ++ [])
            fresh_heap)
       = (Return (1, 0), w')
       /\ stdout w' = [UnlockCounter 2; UnlockCounter 1; UnlockCounter 0]
       /\ slept w' = 4%nat.
Proof.
  assert (Hp : 1 <> 0) by discriminate.
  assert (Hb : Forall still_busy [(0, 1, 2); (0, 1, 2); (0, 1, 1)])
    by (repeat constructor; discriminate).
  split; [exact Hp|]. split; [exact Hb|].
  destruct (poll_loop_run [(0, 1, 2); (0, 1, 2); (0, 1, 1)] 1 0 [] 10 0 1 (-1)
              (start scripted
                 (poll_frames ([(0, 1, 2); (0, 1, 2); (0, 1, 1)] ++ [(1, 0, 0)])
                  ++ []) fresh_heap) Hp Hb eq_refl ltac:(cbn; lia))
    as (w' & E & _ & _ & Hs & Hz & _).
  exists w'. split; [exact E|]. split; [exact Hs|exact Hz].
Defined.

(** ** Enumerating the LEDs *)

Section Enumerate.
Variable self : session.
Hypothesis Hm : model self <> PI500.
Hypothesis Hc : conversion_switch_matrix self = None.

Lemma get_led_info_scripted (i : nat) (info : led_info) (d : list (list Z))
    (w : world scripted) :
  (i < 256)%nat ->
  device w = info_reply info :: d ->
  exists w',
    get_led_info self (Z.of_nat i) w
    = (Return (let '(x, y, flags, row, col) := info in
               (x, y, flags, (Z.to_nat row, Z.to_nat col))), w')
    /\ device w' = d
    /\ length (written w') = S (length (written w))
    /\ heap w' = heap w.
Proof.
  intros Hi Hd. destruct info as [[[[x y] fl] row] col].
  unfold get_led_info. rewrite decide_False by exact Hm.
  assert (Hb : is_byte (Z.of_nat i) = true) by (apply is_byte_spec; lia).
  unfold to_bytes1. rewrite Hb. cbn [try]. rewrite bind_ret.
  cbn in Hd.
  destruct (scripted_step CMD_LIGHTING_GET_VALUE VIALRGB_GET_LED_INFO
              (Some [Z.of_nat i]) _ _ w
              ltac:(cbn; rewrite Hb; reflexivity)
              ltac:(unfold MSG_LEN; cbn; lia) Hd
              ltac:(unfold MSG_LEN; cbn; lia))
    as (w1 & E1 & Hd1 & Hw1 & _ & Hh1 & _).
  rewrite (bind_Return _ _ _ _ _ E1).
  cbn [slice drop take Nat.sub unpack_BBBBB try]. rewrite bind_ret.
  rewrite Hc, !bind_ret. exists w1. split; [reflexivity|].
  rewrite Hw1, length_app. cbn. repeat split; auto; lia.
Qed.

Lemma get_leds_loop_scripted (infos : list led_info) (j : nat) (acc : list LED)
    (d : list (list Z)) (w : world scripted) :
  (j + length infos <= 256)%nat ->
  device w = (info_reply <$> infos) ++ d ->
  exists w',
    get_leds_loop self (seq j (length infos)) acc w
    = (Return (acc ++ imap (fun i => led_of_info (j + i)) infos), w')
    /\ device w' = d
    /\ length (written w') = (length (written w) + length infos)%nat
    /\ heap w' = heap w.
Proof.
  revert j acc w. induction infos as [|info infos IH]; intros j acc w Hj Hd.
  - exists w. cbn. rewrite app_nil_r. repeat split; auto; lia.
  - cbn [length seq get_leds_loop]. cbn in Hd, Hj.
    destruct (get_led_info_scripted j info _ w ltac:(lia) Hd)
      as (w1 & E1 & Hd1 & Hw1 & Hh1).
    rewrite (bind_Return _ _ _ _ _ E1).
    destruct info as [[[[x y] fl] row] col].
    destruct (IH (S j) (acc ++ [mkLED j x y fl (Z.to_nat row, Z.to_nat col) (0, 0, 0)])
                w1 ltac:(lia) Hd1) as (w2 & E2 & Hd2 & Hw2 & Hh2).
    exists w2. split.
    + rewrite E2. f_equal. f_equal. rewrite <- app_assoc. cbn. f_equal.
      rewrite Nat.add_0_r. f_equal. apply imap_ext. intros i a _. cbn.
      f_equal. lia.
    + repeat split; [exact Hd2|lia|congruence].
Qed.

Lemma get_leds_loop_app (l1 l2 : list nat) (acc : list LED) (w : world scripted) :
  get_leds_loop self (l1 ++ l2) acc w
  = bind (get_leds_loop self l1 acc) (fun acc' => get_leds_loop self l2 acc') w.
Proof.
  revert acc w. induction l1 as [|i l1 IH]; intros acc w; [reflexivity|].
  cbn [app get_leds_loop]. rewrite bind_assoc. unfold bind.
  destruct (get_led_info self (Z.of_nat i) w) as [[[[[x y] fl] m]|e|] w1];
    [rewrite IH; reflexivity|reflexivity|reflexivity].
Qed.

Lemma get_number_leds_scripted (n : Z) (d : list (list Z)) (w : world scripted) :
  0 <= n < 65536 ->
  device w = number_reply n :: d ->
  exists w',
    get_number_leds self w = (Return n, w')
    /\ device w' = d
    /\ length (written w') = S (length (written w))
    /\ heap w' = heap w.
Proof.
  intros Hn Hd. unfold get_number_leds. rewrite decide_False by exact Hm.
  cbn in Hd.
  destruct (scripted_step CMD_LIGHTING_GET_VALUE VIALRGB_GET_NUMBER_LEDS None
              _ _ w eq_refl ltac:(unfold MSG_LEN; cbn; lia) Hd
              ltac:(unfold MSG_LEN; cbn; lia))
    as (w1 & E1 & Hd1 & Hw1 & _ & Hh1 & _).
  rewrite (bind_Return _ _ _ _ _ E1). cbn.
  rewrite le16_decode by lia. exists w1. split; [reflexivity|].
  rewrite Hw1, length_app. cbn. repeat split; auto; lia.
Qed.

(** X19. [get_leds] against a device that reports [n] LEDs, [n] at most
    256, and then describes them one by one: it returns after [n + 1]
    exchanges with one LED object per description, numbered 0 to [n - 1]
    in the order of the answers, each with the coordinates, flags and
    matrix position read and the colour (0, 0, 0); no LED object that
    exists already is touched. *)
Theorem get_leds_enumerates (infos : list led_info) (d : list (list Z))
    (w : world scripted) :
  (length infos <= 256)%nat ->
  device w = number_reply (Z.of_nat (length infos)) :: (info_reply <$> infos) ++ d ->
  exists w',
    get_leds self w = (Return (imap led_of_info infos), w')
    /\ device w' = d
    /\ length (written w') = (length (written w) + 1 + length infos)%nat
    /\ heap w' = heap w.
Proof.
  intros Hn Hd. unfold get_leds. rewrite decide_False by exact Hm.
  destruct (get_number_leds_scripted (Z.of_nat (length infos)) _ w ltac:(lia) Hd)
    as (w1 & E1 & Hd1 & Hw1 & Hh1).
  rewrite (bind_Return _ _ _ _ _ E1). rewrite Nat2Z.id.
  destruct (get_leds_loop_scripted infos 0 [] d w1 ltac:(lia) Hd1)
    as (w2 & E2 & Hd2 & Hw2 & Hh2).
  exists w2. split; [exact E2|]. repeat split; [exact Hd2|lia|congruence].
Qed.

(** X20. The LED index travels in one byte: when the device reports more
    than 256 LEDs, [get_leds] asks for the LEDs 0 to 255 and then raises
    OverflowError at index 256, after 257 exchanges, instead of returning
    a directory. *)
Theorem get_leds_beyond_256 (n : Z) (infos : list led_info) (d : list (list Z))
    (w : world scripted) :
  256 < n < 65536 ->
  length infos = 256%nat ->
  device w = number_reply n :: (info_reply <$> infos) ++ d ->
  fst (get_leds self w) = Raise OverflowError
  /\ length (written (snd (get_leds self w))) = (length (written w) + 257)%nat.
Proof.
  intros Hn Hl Hd. unfold get_leds. rewrite decide_False by exact Hm.
  destruct (get_number_leds_scripted n _ w ltac:(lia) Hd)
    as (w1 & E1 & Hd1 & Hw1 & Hh1).
  rewrite (bind_Return _ _ _ _ _ E1).
  replace (Z.to_nat n) with (256 + (Z.to_nat n - 256))%nat by lia.
  rewrite seq_app, get_leds_loop_app.
  destruct (get_leds_loop_scripted infos 0 [] d w1 ltac:(lia) Hd1)
    as (w2 & E2 & Hd2 & Hw2 & Hh2).
  rewrite Hl in E2, Hw2. rewrite (bind_Return _ _ _ _ _ E2).
  destruct (Z.to_nat n - 256)%nat as [|k] eqn:Ek; [lia|].
  cbn [seq get_leds_loop Nat.add].
  unfold get_led_info. rewrite decide_False by exact Hm.
  split; [reflexivity|].
  change (length (written w2) = (length (written w) + 257)%nat). lia.
Qed.
End Enumerate.

Lemma get_leds_enumerates_witness :
  model rgb_session <> PI500
  /\ conversion_switch_matrix rgb_session = None
  /\ exists w',
       get_leds rgb_session
         (start scripted
            (number_reply (Z.of_nat (length [(10, 20, 4, 0, 0); (30, 20, 4, 0, 1)]))
             :: (info_reply <$> [(10, 20, 4, 0, 0); (30, 20, 4, 0, 1)]) ++ [])
            fresh_heap)
       = (Return [mkLED 0 10 20 4 (0, 0)%nat (0, 0, 0);
                  mkLED 1 30 20 4 (0, 1)%nat (0, 0, 0)], w').
Proof.
  assert (Hm : model rgb_session <> PI500) by discriminate.
  split; [exact Hm|]. split; [reflexivity|].
  destruct (get_leds_enumerates rgb_session Hm eq_refl
              [(10, 20, 4, 0, 0); (30, 20, 4, 0, 1)] []
              (start scripted
                 (number_reply (Z.of_nat (length [(10, 20, 4, 0, 0); (30, 20, 4, 0, 1)]))
                  :: (info_reply <$> [(10, 20, 4, 0, 0); (30, 20, 4, 0, 1)]) ++ [])
                 fresh_heap) ltac:(cbn; lia) eq_refl)
    as (w' & E & _).
  exists w'. exact E.
Defined.

Lemma get_leds_beyond_256_witness :
  model rgb_session <> PI500
  /\ 256 < 300 < 65536
  /\ length (replicate 256 ((0, 0, 4, 0, 0) : led_info)) = 256%nat
  /\ fst (get_leds rgb_session
            (start scripted
               (number_reply 300
                :: (info_reply <$> replicate 256 ((0, 0, 4, 0, 0) : led_info)) ++ [])
               fresh_heap))
     = Raise OverflowError.
Proof.
  assert (Hm : model rgb_session <> PI500) by discriminate.
  assert (Hn : 256 < 300 < 65536) by lia.
  assert (Hl : length (replicate 256 ((0, 0, 4, 0, 0) : led_info)) = 256%nat)
    by apply length_replicate.
  split; [exact Hm|]. split; [exact Hn|]. split; [exact Hl|].
  apply (get_leds_beyond_256 rgb_session Hm eq_refl 300
           (replicate 256 ((0, 0, 4, 0, 0) : led_info)) []
           (start scripted
              (number_reply 300
               :: (info_reply <$> replicate 256 ((0, 0, 4, 0, 0) : led_info)) ++ [])
              fresh_heap) Hn Hl eq_refl).
Defined.

(** ** The PI500 grid *)

Lemma find_led_spec {T} (refs : list nat) (p : position) (w : world T) :
  find_led refs p w
  = (match List.find (fun l => bool_decide (matrix l = p)) (heap w <$> refs) with
     | Some l => Return (idx l)
     | None => Raise ValueError
     end, w).
Proof.
  induction refs as [|r refs IH]; [reflexivity|].
  cbn [find_led fmap list_fmap List.find]. unfold bind at 1. unfold get_led at 1.
  destruct (decide (matrix (heap w r) = p)) as [E|E].
  - rewrite bool_decide_eq_true_2 by exact E. reflexivity.
  - rewrite bool_decide_eq_false_2 by exact E. exact IH.
Qed.

Lemma install_leds_heap {T} (base : nat) (leds : list LED) (w : world T) :
  heap (snd (install_leds base leds w)) <$> seq base (length leds) = leds.
Proof.
  apply list_eq. intros i. rewrite list_lookup_fmap.
  destruct (decide (i < length leds)%nat) as [Hi|Hi].
  - rewrite lookup_seq_lt by exact Hi. cbn.
    rewrite decide_True by lia.
    replace (base + i - base)%nat with i by lia.
    destruct (lookup_lt_is_Some_2 leds i Hi) as [l Hl]. rewrite Hl. reflexivity.
  - rewrite lookup_seq_ge by lia. rewrite lookup_ge_None_2 by lia. reflexivity.
Qed.

Lemma pi500_grid_found :
  forallb (fun i =>
             match List.find (fun l => bool_decide (matrix l = (i / 16, i mod 16)%nat))
                     pi500_leds with
             | Some l => (idx l =? i)%nat
             | None => false
             end) (seq 0 96) = true.
Proof. vm_compute. reflexivity. Qed.

Lemma pi500_grid_bounds :
  forallb (fun l => (fst (matrix l) <? 6)%nat && (snd (matrix l) <? 16)%nat)
    pi500_leds = true.
Proof. vm_compute. reflexivity. Qed.

(** X21. On the PI500 the directory that [__init__] builds is the 6 x 16
    grid in row-major order: with those LED objects in place,
    [led_matrix_to_idx] maps (row, col) to 16 * row + col for row below 6
    and col below 16, whatever the conversion table holds (it is not
    consulted on this model), and raises ValueError for any other
    position. *)
Theorem pi500_led_index (T : Transport) (tbl : switch_matrix_module)
    (pv : option variant_t) (cc : variant_t) (base row col : nat)
    (w0 : world T) :
  let w := snd (install_leds base pi500_leds w0) in
  let self := session_of tbl PI500 pv cc (seq base (6 * 16)) in
  ((row < 6)%nat /\ (col < 16)%nat ->
     led_matrix_to_idx self (row, col) w = (Return (16 * row + col)%nat, w))
  /\ (~ ((row < 6)%nat /\ (col < 16)%nat) ->
        led_matrix_to_idx self (row, col) w = (Raise ValueError, w)).
Proof.
  intros w self.
  assert (Hfind : led_matrix_to_idx self (row, col) w
                  = (match List.find (fun l => bool_decide (matrix l = (row, col)))
                             pi500_leds with
                     | Some l => Return (idx l)
                     | None => Raise ValueError
                     end, w)).
  { unfold led_matrix_to_idx. subst self. cbn [session_of init_tables
      conversion_switch_matrix model _led_map].
    rewrite decide_True by reflexivity. rewrite bind_ret, find_led_spec.
    subst w. change (6 * 16)%nat with (length pi500_leds).
    rewrite install_leds_heap. reflexivity. }
  rewrite Hfind. split.
  - intros [Hr Hc]. pose proof pi500_grid_found as Hall.
    rewrite forallb_forall in Hall.
    specialize (Hall (16 * row + col)%nat).
    assert (Hin : In (16 * row + col)%nat (seq 0 96)) by (apply in_seq; lia).
    specialize (Hall Hin).
    replace ((16 * row + col) / 16)%nat with row in Hall
      by (apply (Nat.div_unique _ 16 row col); lia).
    replace ((16 * row + col) mod 16)%nat with col in Hall
      by (apply (Nat.mod_unique _ 16 row col); lia).
    destruct (List.find _ pi500_leds) as [l|]; [|discriminate].
    apply Nat.eqb_eq in Hall. rewrite Hall. reflexivity.
  - intros Hout.
    destruct (List.find _ pi500_leds) as [l|] eqn:E; [|reflexivity].
    apply find_some in E as [Hin Hl]. apply bool_decide_eq_true in Hl.
    pose proof pi500_grid_bounds as Hall. rewrite forallb_forall in Hall.
    specialize (Hall l Hin). rewrite Hl in Hall. cbn [fst snd] in Hall.
    apply andb_true_iff in Hall as [H1 H2].
    apply Nat.ltb_lt in H1, H2. destruct Hout. split; assumption.
Qed.

Lemma pi500_led_index_witness :
  ((2 < 6)%nat /\ (3 < 16)%nat)
  /\ led_matrix_to_idx (session_of sample_tables PI500 None ISO (seq 0 (6 * 16)))
       (2, 3)%nat
       (snd (install_leds 0 pi500_leds (start scripted [] fresh_heap)))
     = (Return (16 * 2 + 3)%nat,
        snd (install_leds 0 pi500_leds (start scripted [] fresh_heap))).
Proof.
  assert (H : (2 < 6)%nat /\ (3 < 16)%nat) by lia.
  split; [exact H|].
  exact (proj1 (pi500_led_index scripted sample_tables None ISO 0 2 3
                  (start scripted [] fresh_heap)) H).
Defined.

(** ** Clearing the LEDs *)

Lemma omap_lookup_seq {A} (l : list A) (j k : nat) :
  (j + k <= length l)%nat ->
  omap (fun i => l !! i) (seq j k) = take k (drop j l).
Proof.
  revert j. induction k as [|k IH]; intros j Hj; [reflexivity|].
  cbn [seq omap list_omap].
  destruct (lookup_lt_is_Some_2 l j ltac:(lia)) as [a Ha]. rewrite Ha.
  rewrite (drop_S l a j Ha). cbn [take]. f_equal. apply IH. lia.
Qed.

Section Clear.
Context {T : Transport}.
Variable self : session.

Lemma clear_loop_spec (idxs : list nat) (w : world T) :
  Forall (fun i => (i < length (_led_map self))%nat) idxs ->
  exists w',
    clear_loop self idxs w = (Return tt, w')
    /\ written w' = written w /\ device w' = device w
    /\ stdout w' = stdout w /\ slept w' = slept w
    /\ forall r,
         heap w' r
         = if decide (r ∈ omap (fun i => _led_map self !! i) idxs)
           then with_colour (heap w r) (0, 0, 0)
           else heap w r.
Proof.
  revert w. induction idxs as [|i idxs IH]; intros w Hall.
  - exists w. split; [reflexivity|]. repeat split; auto.
  - inversion Hall as [|? ? Hi Hall']; subst.
    destruct (lookup_lt_is_Some_2 _ _ Hi) as [r Hr].
    cbn [clear_loop]. unfold set_led_by_idx, py_index.
    replace (0 <=? Z.of_nat i) with true by lia. rewrite Nat2Z.id, Hr.
    cbn [try]. rewrite bind_assoc, bind_ret. unfold bind at 1.
    unfold set_colour at 1.
    set (w1 := mkWorld (device w) (written w) (stdout w)
                 (<[r := with_colour (heap w r) (0, 0, 0)]> (heap w)) (slept w)).
    destruct (IH w1 Hall') as (w' & E & Hw & Hd & Hs & Hz & Hh).
    exists w'. split; [exact E|]. rewrite Hw, Hd, Hs, Hz.
    repeat split. intros r'. rewrite Hh. cbn [omap list_omap]. rewrite Hr.
    subst w1. cbn [heap].
    destruct (decide (r = r')) as [->|Hne].
    + rewrite fn_lookup_insert. rewrite (decide_True (P := r' ∈ r' :: _))
        by (left; reflexivity).
      destruct (decide _); reflexivity.
    + rewrite fn_lookup_insert_ne by exact Hne.
      destruct (decide (r' ∈ omap _ idxs)) as [Hin|Hin].
      * rewrite decide_True by (right; exact Hin). reflexivity.
      * rewrite decide_False; [reflexivity|].
        intros Hin'. apply elem_of_cons in Hin' as [->|Hin']; auto.
Qed.

Lemma pi500_draw_spec (refs : list nat) (col : Z) (w : world T) :
  exists w',
    pi500_draw refs col w = (Return tt, w')
    /\ written w' = written w /\ device w' = device w
    /\ heap w' = heap w /\ slept w' = slept w
    /\ length (stdout w') = (length (stdout w) + length refs)%nat.
Proof.
  revert col w. induction refs as [|r refs IH]; intros col w.
  - exists w. cbn. repeat split; auto.
  - cbn [pi500_draw]. unfold bind at 1. unfold get_led at 1.
    unfold bind at 1. unfold print at 1.
    destruct (IH (pi500_col (colour (heap w r)) col)
                (mkWorld (device w) (written w)
                   (stdout w ++ [Cell (matrix (heap w r))
                                   (pi500_col (colour (heap w r)) col)])
                   (heap w) (slept w)))
      as (w' & E & Hw & Hd & Hh & Hz & Hs).
    exists w'. split; [exact E|]. rewrite Hw, Hd, Hh, Hz, Hs. cbn.
    rewrite length_app. cbn. repeat split; auto. lia.
Qed.

Lemma send_leds_keeps_heap (w : world T) :
  model self = PI500
  \/ (echoes T /\ Z.of_nat (length (_led_map self)) <= 65536
      /\ forall r, r ∈ _led_map self -> byte_colour (colour (heap w r))) ->
  exists w',
    send_leds self w = (Return tt, w')
    /\ heap w' = heap w
    /\ (model self = PI500 -> written w' = written w /\ device w' = device w).
Proof.
  intros [Hm|(Hecho & Hn & Hcol)].
  - unfold send_leds. rewrite decide_True by exact Hm.
    destruct (pi500_draw_spec (_led_map self) 7 w)
      as (w1 & E & Hw & Hd & Hh & _).
    rewrite (bind_Return _ _ _ _ _ E). eexists. split; [reflexivity|].
    cbn. auto.
  - destruct (decide (model self = PI500)) as [Hm|Hm].
    + unfold send_leds. rewrite decide_True by exact Hm.
      destruct (pi500_draw_spec (_led_map self) 7 w)
        as (w1 & E & Hw & Hd & Hh & _).
      rewrite (bind_Return _ _ _ _ _ E). eexists. split; [reflexivity|].
      cbn. auto.
    + rewrite (send_leds_run T self w Hm Hecho Hn Hcol).
      eexists. split; [reflexivity|]. split; [reflexivity|].
      intros Hm'. destruct (Hm Hm').
Qed.

(** X22. [rgb_clear] on the PI500, or on the other model with at most
    65536 LEDs and a device that echoes its commands: it returns
    whatever the colours were before (colours that are no bytes
    included), every LED object of the directory keeps its fields and
    gets the colour (0, 0, 0), LED objects outside the directory are
    untouched, and on the PI500 nothing is written to the device. *)
Theorem rgb_clear_blackens (w : world T) :
  model self = PI500
  \/ (echoes T /\ Z.of_nat (length (_led_map self)) <= 65536) ->
  exists w',
    rgb_clear self w = (Return tt, w')
    /\ (forall r, r ∈ _led_map self ->
          heap w' r = with_colour (heap w r) (0, 0, 0))
    /\ (forall r, r ∉ _led_map self -> heap w' r = heap w r)
    /\ (model self = PI500 -> written w' = written w /\ device w' = device w).
Proof.
  intros Hcase. unfold rgb_clear.
  destruct (clear_loop_spec (seq 0 (length (_led_map self))) w)
    as (w1 & E1 & Hw1 & Hd1 & Hs1 & Hz1 & Hh1).
  { apply list.Forall_forall. intros i Hi. apply elem_of_seq in Hi. lia. }
  rewrite (bind_Return _ _ _ _ _ E1).
  rewrite omap_lookup_seq in Hh1 by lia.
  rewrite drop_0, firstn_all in Hh1.
  destruct (send_leds_keeps_heap w1) as (w2 & E2 & Hh2 & Hp).
  { destruct Hcase as [Hm|[Hecho Hn]]; [left; exact Hm|right].
    split; [exact Hecho|]. split; [exact Hn|]. intros r Hr.
    rewrite Hh1, decide_True by exact Hr. repeat split; reflexivity. }
  exists w2. split; [exact E2|]. rewrite Hh2. repeat split.
  - intros r Hr. rewrite Hh1, decide_True by exact Hr. reflexivity.
  - intros r Hr. rewrite Hh1, decide_False by exact Hr. reflexivity.
  - rewrite (proj1 (Hp H)). exact Hw1.
  - rewrite (proj2 (Hp H)). exact Hd1.
Qed.
End Clear.

Lemma rgb_clear_blackens_witness :
  (echoes led_store /\ Z.of_nat (length (_led_map led_session)) <= 65536)
  /\ exists w',
       rgb_clear led_session led_world = (Return tt, w')
       /\ forall r, r ∈ _led_map led_session ->
            heap w' r = with_colour (heap led_world r) (0, 0, 0).
Proof.
  assert (H : echoes led_store /\ Z.of_nat (length (_led_map led_session)) <= 65536)
    by (split; [exact led_store_echoes|cbn; lia]).
  split; [exact H|].
  destruct (rgb_clear_blackens led_session led_world (or_intror H))
    as (w' & E & Hin & _).
  exists w'. split; [exact E|exact Hin].
Defined.

(** ** The constructor *)

Lemma version_lt_bytes (x yz : Z) :
  0 <= yz ->
  version_lt (x, Z.shiftr yz 4, Z.land yz 0x0F) (1, 2, 0) = true
  <-> x < 1 \/ (x = 1 /\ yz < 0x20).
Proof.
  intros Hyz. unfold version_lt.
  rewrite Z.shiftr_div_pow2 by lia.
  change 0x0F with (Z.ones 4). rewrite Z.land_ones by lia.
  change (2 ^ 4) with 16.
  pose proof (Z.mod_pos_bound yz 16 ltac:(lia)) as Hm.
  pose proof (Z.div_mod yz 16 ltac:(lia)) as Hd.
  split.
  - intros H. apply orb_true_iff in H as [H|H]; [left; lia|].
    apply andb_true_iff in H as [H1 H2]. right. split; [lia|].
    apply orb_true_iff in H2 as [H2|H2]; [lia|].
    apply andb_true_iff in H2 as [_ H2]. lia.
  - intros [H|[H1 H2]].
    + replace (x <? 1) with true by lia. reflexivity.
    + subst x. cbn [Z.ltb Z.eqb Z.compare Pos.compare Pos.compare_cont orb andb].
      replace (yz / 16 <? 2) with true by lia. reflexivity.
Qed.

Lemma scripted_send_step (payload r : list Z) (d : list (list Z))
    (w : world scripted) :
  forallb is_byte payload = true ->
  (length payload <= MSG_LEN)%nat ->
  device w = r :: d ->
  exists w',
    _send_command payload w = (Return (take MSG_LEN r), w')
    /\ device w' = d
    /\ written w' = written w ++ [frame_of payload]
    /\ stdout w' = stdout w /\ heap w' = heap w /\ slept w' = slept w.
Proof.
  intros Hb Hl Hd. eexists. split; [apply (scripted_send payload r d w Hb Hl Hd)|].
  cbn. auto.
Qed.

Lemma get_unlock_status_idle (self : session) (d : list (list Z))
    (w : world scripted) :
  device w = idle_status :: d ->
  exists w',
    get_unlock_status self w = (Return (0, 0, []), w')
    /\ device w' = d
    /\ written w' = written w ++ [frame_of [CMD_VIAL_COMMAND; VIAL_GET_UNLOCK_STATUS]]
    /\ stdout w' = stdout w /\ heap w' = heap w /\ slept w' = slept w.
Proof.
  intros Hd. unfold get_unlock_status.
  destruct (scripted_send_step [CMD_VIAL_COMMAND; VIAL_GET_UNLOCK_STATUS] _ _ w
              eq_refl ltac:(unfold MSG_LEN; cbn; lia) Hd)
    as (w1 & E1 & H1).
  rewrite (bind_Return _ _ _ _ _ E1). exists w1. split; [reflexivity|exact H1].
Qed.

Lemma via_version_scripted (v : Z) (d : list (list Z)) (w : world scripted) :
  device w = version_reply 0 v :: d ->
  exists w',
    get_via_protocol_version w = (Return v, w')
    /\ device w' = d
    /\ written w' = written w ++ [frame_of [CMD_GET_PROTOCOL_VERSION; 0]]
    /\ stdout w' = stdout w /\ heap w' = heap w /\ slept w' = slept w.
Proof.
  intros Hd. cbn in Hd. unfold get_via_protocol_version.
  destruct (scripted_step CMD_GET_PROTOCOL_VERSION 0 None _ _ w eq_refl
              ltac:(unfold MSG_LEN; cbn; lia) Hd ltac:(unfold MSG_LEN; cbn; lia))
    as (w1 & E1 & H1).
  rewrite (bind_Return _ _ _ _ _ E1). cbn [slice drop take Nat.sub unpack_H_big try].
  exists w1. split; [|exact H1]. replace (0 * 256 + v) with v by lia. reflexivity.
Qed.

Lemma vial_information_scripted (b0 b1 b2 b3 fl : Z) (d : list (list Z))
    (w : world scripted) :
  device w = vial_reply b0 b1 b2 b3 fl :: d ->
  exists w',
    get_vial_information w
    = (Return (from_bytes_little [b0; b1; b2; b3], 0, fl), w')
    /\ device w' = d
    /\ written w' = written w ++ [frame_of [CMD_VIAL_COMMAND; VIAL_GET_KEYBOARD_ID]]
    /\ stdout w' = stdout w /\ heap w' = heap w /\ slept w' = slept w.
Proof.
  intros Hd. cbn in Hd. unfold get_vial_information.
  destruct (scripted_send_step [CMD_VIAL_COMMAND; VIAL_GET_KEYBOARD_ID] _ _ w
              eq_refl ltac:(unfold MSG_LEN; cbn; lia) Hd)
    as (w1 & E1 & H1).
  rewrite (bind_Return _ _ _ _ _ E1).
  cbn [slice drop take Nat.sub MSG_LEN unpack_IQB_little length Nat.eqb try
       from_bytes_little].
  exists w1. split; [|exact H1].
  replace (fl + 256 * 0) with fl by lia. reflexivity.
Qed.

Lemma firmware_version_scripted (x yz : Z) (d : list (list Z))
    (w : world scripted) :
  device w = firmware_reply x yz :: d ->
  exists w',
    get_firmware_version w
    = (Return (x, Z.shiftr yz 4, Z.land yz 0x0F), w')
    /\ device w' = d
    /\ written w' = written w ++ [frame_of [CMD_RPI_COMMAND; RPI_CMD_GET_VERSION]]
    /\ stdout w' = stdout w /\ heap w' = heap w /\ slept w' = slept w.
Proof.
  intros Hd. cbn in Hd. unfold get_firmware_version.
  destruct (scripted_step CMD_RPI_COMMAND RPI_CMD_GET_VERSION None _ _ w eq_refl
              ltac:(unfold MSG_LEN; cbn; lia) Hd ltac:(unfold MSG_LEN; cbn; lia))
    as (w1 & E1 & H1).
  rewrite (bind_Return _ _ _ _ _ E1). cbn [slice drop take Nat.sub from_bytes_little].
  exists w1. split; [|exact H1]. unfold ret.
  replace (x + 256 * 0) with x by lia. replace (yz + 256 * 0) with yz by lia.
  reflexivity.
Qed.

Section Init.
Variables (fuel : nat) (tbl : switch_matrix_module) (model : model_t)
  (product_variant : option variant_t) (country_code : variant_t) (base : nat).
Variable vs : versions.
Variables (rest : list (list Z)) (w : world scripted).
Hypothesis Hd : device w = init_script vs ++ rest.
Hypothesis Hyz : 0 <= fw_minor_patch vs.

(** X23. The version gate of [__init__], against a device that reports
    no unlock in progress and then answers the three version queries:
    all three queries are made before anything is checked, so the device
    has been asked for its firmware version also when the first check
    fails; the constructor raises KeyboardNotCompatibleError for a Via
    protocol below 9, else for a Vial protocol below 4, else for a
    firmware older than 1.2.0 (major, then minor and patch as the two
    halves of one byte); and on the PI500 with versions that pass it
    returns the session with the 96 LED objects, having printed
    nothing. *)
Theorem init_version_gate :
  let result := init_session fuel tbl model product_variant country_code base w in
  (via vs < 9 ->
     fst result = Raise (KeyboardNotCompatibleError
                           "The keyboard does not support Via protocol 9 or later")
     /\ device (snd result) = rest)
  /\ (9 <= via vs -> vial_version vs < 4 ->
        fst result = Raise (KeyboardNotCompatibleError
                              "The keyboard does not support Vial protocol 4 or later")
        /\ device (snd result) = rest)
  /\ (9 <= via vs -> 4 <= vial_version vs -> firmware_too_old vs ->
        fst result = Raise (KeyboardNotCompatibleError
                              "The keyboard does not support firmware version 1.2.0 or later")
        /\ device (snd result) = rest)
  /\ (9 <= via vs -> 4 <= vial_version vs -> ~ firmware_too_old vs ->
        model = PI500 ->
        fst result
        = Return (session_of tbl PI500 product_variant country_code
                    (seq base (6 * 16)))
        /\ device (snd result) = rest
        /\ stdout (snd result) = stdout w).
Proof.
  intros result. subst result. unfold init_session.
  destruct (init_tables tbl model product_variant country_code)
    as [[variant sm] conv] eqn:Et.
  assert (Hstart : exists (w0 : world scripted) (refs : list nat),
            match model with
            | PI500 => install_leds base pi500_leds
            | PI500PLUS => ret []
            end w = (Return refs, w0)
            /\ device w0 = device w /\ stdout w0 = stdout w
            /\ (model = PI500 -> refs = seq base (6 * 16))).
  { destruct model.
    - eexists _, _. split; [reflexivity|]. cbn. auto.
    - eexists _, _. split; [reflexivity|]. cbn. split; [auto|]. split; [auto|].
      discriminate. }
  destruct Hstart as (w0 & refs & E0 & Hd0 & Hs0 & Hrefs).
  rewrite (bind_Return _ _ _ _ _ E0).
  rewrite Hd in Hd0. unfold init_script in Hd0. cbn [app] in Hd0.
  destruct (get_unlock_status_idle (mkSession model variant sm conv refs) _ w0 Hd0)
    as (w1 & E1 & Hd1 & _ & Hs1 & _).
  rewrite (bind_Return _ _ _ _ _ E1). cbn [Z.eqb negb]. rewrite bind_ret.
  destruct (via_version_scripted _ _ w1 Hd1) as (w2 & E2 & Hd2 & _ & Hs2 & _).
  rewrite (bind_Return _ _ _ _ _ E2).
  destruct (vial_information_scripted _ _ _ _ _ _ w2 Hd2)
    as (w3 & E3 & Hd3 & _ & Hs3 & _).
  rewrite (bind_Return _ _ _ _ _ E3).
  destruct (firmware_version_scripted _ _ _ w3 Hd3)
    as (w4 & E4 & Hd4 & _ & Hs4 & _).
  rewrite (bind_Return _ _ _ _ _ E4).
  fold (vial_version vs).
  pose proof (version_lt_bytes (fw_major vs) (fw_minor_patch vs) Hyz) as Hfw.
  fold (firmware_too_old vs) in Hfw.
  repeat split.
  - replace (via vs <? 9) with true by lia. reflexivity.
  - replace (via vs <? 9) with true by lia. exact Hd4.
  - replace (via vs <? 9) with false by lia.
    replace (vial_version vs <? 4) with true by lia. reflexivity.
  - replace (via vs <? 9) with false by lia.
    replace (vial_version vs <? 4) with true by lia. exact Hd4.
  - replace (via vs <? 9) with false by lia.
    replace (vial_version vs <? 4) with false by lia.
    rewrite (proj2 Hfw) by assumption. reflexivity.
  - replace (via vs <? 9) with false by lia.
    replace (vial_version vs <? 4) with false by lia.
    rewrite (proj2 Hfw) by assumption. exact Hd4.
  - replace (via vs <? 9) with false by lia.
    replace (vial_version vs <? 4) with false by lia.
    destruct (version_lt _ _) eqn:Ev; [destruct H1; apply Hfw; reflexivity|].
    subst model. rewrite bool_decide_eq_false_2 by discriminate.
    cbn [andb]. rewrite bind_ret. unfold session_of. rewrite Et.
    rewrite (Hrefs eq_refl). reflexivity.
  - replace (via vs <? 9) with false by lia.
    replace (vial_version vs <? 4) with false by lia.
    destruct (version_lt _ _) eqn:Ev; [destruct H1; apply Hfw; reflexivity|].
    subst model. rewrite bool_decide_eq_false_2 by discriminate.
    cbn [andb]. rewrite bind_ret. exact Hd4.
  - replace (via vs <? 9) with false by lia.
    replace (vial_version vs <? 4) with false by lia.
    destruct (version_lt _ _) eqn:Ev; [destruct H1; apply Hfw; reflexivity|].
    subst model. rewrite bool_decide_eq_false_2 by discriminate.
    cbn [andb]. rewrite bind_ret. cbn [ret snd].
    rewrite Hs4, Hs3, Hs2, Hs1. exact Hs0.
Qed.
End Init.

Lemma init_version_gate_witness :
  device (start scripted (init_script (mkVersions 9 4 0 0 0 1 1 0x20) ++ [])
            fresh_heap)
  = init_script (mkVersions 9 4 0 0 0 1 1 0x20) ++ []
  /\ 0 <= fw_minor_patch (mkVersions 9 4 0 0 0 1 1 0x20)
  /\ fst (init_session 0 sample_tables PI500 None ISO 100
            (start scripted (init_script (mkVersions 9 4 0 0 0 1 1 0x20) ++ [])
               fresh_heap))
     = Return (session_of sample_tables PI500 None ISO (seq 100 (6 * 16))).
Proof.
  assert (H : 0 <= fw_minor_patch (mkVersions 9 4 0 0 0 1 1 0x20)) by (cbn; lia).
  split; [reflexivity|]. split; [exact H|].
  apply (proj2 (proj2 (proj2 (init_version_gate 0 sample_tables PI500 None ISO 100
                                (mkVersions 9 4 0 0 0 1 1 0x20) []
                                (start scripted
                                   (init_script (mkVersions 9 4 0 0 0 1 1 0x20) ++ [])
                                   fresh_heap) eq_refl H)))).
  - cbn. lia.
  - cbn. lia.
  - unfold firmware_too_old. cbn. lia.
  - reflexivity.
Defined.

(** ** The unlock keys *)

Section UnlockKeys.
Context {T : Transport}.
Variable self : session.
Hypothesis Hc : conversion_switch_matrix self = None.

Lemma unlock_keys_spec (n : nat) (body : list Z) (keys : list position)
    (w : world T) :
  (length body <= n)%nat ->
  unlock_keys self body keys w
  = (if Nat.even (length body)
     then Return (keys ++ (key_position <$> List.filter is_key (key_pairs body)))
     else Raise StructError, w).
Proof.
  revert body keys. induction n as [|n IH]; intros body keys Hn.
  - destruct body; [|cbn in Hn; lia]. cbn. rewrite app_nil_r. reflexivity.
  - destruct body as [|row [|col body]].
    + cbn. rewrite app_nil_r. reflexivity.
    + reflexivity.
    + cbn [unlock_keys key_pairs List.filter length Nat.even].
      unfold is_key at 1. cbn [fst snd].
      destruct (negb (row =? 255) && negb (col =? 255)).
      * unfold reported_position. rewrite Hc, bind_ret.
        rewrite IH by (cbn in Hn; lia).
        destruct (Nat.even (length body)); [|reflexivity].
        cbn [fmap list_fmap]. rewrite <- app_assoc. reflexivity.
      * apply IH. cbn in Hn. lia.
Qed.

End UnlockKeys.

(** X24. [get_unlock_status] on a session without a conversion table:
    the bytes after the two status bytes are read as (row, col) pairs and
    the unlock keys reported are, in order, the pairs in which neither
    byte is 0xFF; a pair with 0xFF in one place only is dropped as well.
    A response with an odd number of bytes after the status raises
    struct.error. *)
Theorem unlock_status_keys (self : session) (u p : Z) (body : list Z)
    (d : list (list Z)) (w : world scripted) :
  conversion_switch_matrix self = None ->
  device w = (u :: p :: body) :: d ->
  (length body <= 30)%nat ->
  (Nat.even (length body) = true ->
     fst (get_unlock_status self w)
     = Return (u, p, key_position <$> List.filter is_key (key_pairs body)))
  /\ (Nat.even (length body) = false ->
        fst (get_unlock_status self w) = Raise StructError).
Proof.
  intros Hc Hd Hl. unfold get_unlock_status.
  destruct (scripted_send_step [CMD_VIAL_COMMAND; VIAL_GET_UNLOCK_STATUS] _ _ w
              eq_refl ltac:(unfold MSG_LEN; cbn; lia) Hd)
    as (w1 & E1 & _).
  rewrite (bind_Return _ _ _ _ _ E1).
  assert (Ht : take MSG_LEN (u :: p :: body) = u :: p :: body).
  { apply take_ge. unfold MSG_LEN. cbn. lia. }
  rewrite Ht. rewrite unpack_BB_slice. cbn [try drop]. rewrite bind_ret.
  rewrite drop_0. unfold bind.
  rewrite (unlock_keys_spec self Hc (length body) body [] w1 (Nat.le_refl _)).
  split; intros He; rewrite He; reflexivity.
Qed.

Lemma unlock_status_keys_witness :
  conversion_switch_matrix plus_session = None
  /\ (length [5; 0; 0xFF; 1; 5; 0xFF; 5; 1] <= 30)%nat
  /\ fst (get_unlock_status plus_session
            (start scripted [0 :: 1 :: [5; 0; 0xFF; 1; 5; 0xFF; 5; 1]] fresh_heap))
     = Return (0, 1, [(5, 0); (5, 1)]%nat).
Proof.
  assert (Hl : (length [5; 0; 0xFF; 1; 5; 0xFF; 5; 1] <= 30)%nat) by (cbn; lia).
  split; [reflexivity|]. split; [exact Hl|].
  apply (proj1 (unlock_status_keys plus_session 0 1 [5; 0; 0xFF; 1; 5; 0xFF; 5; 1] []
                  (start scripted [0 :: 1 :: [5; 0; 0xFF; 1; 5; 0xFF; 5; 1]]
                     fresh_heap) eq_refl eq_refl Hl)).
  reflexivity.
Defined.

(** ** The keymap *)

Lemma scripted_step_no_subcmd (cmd : Z) (data : option (list Z))
    (tail : list Z) (d : list (list Z)) (w : world scripted) :
  forallb is_byte (payload_of cmd None data) = true ->
  (length (payload_of cmd None data) <= MSG_LEN)%nat ->
  device w = (cmd :: tail) :: d ->
  (length (cmd :: tail) <= MSG_LEN)%nat ->
  exists w',
    _send_check_command cmd None data w = (Return (cmd :: tail), w')
    /\ device w' = d
    /\ written w' = written w ++ [frame_of (payload_of cmd None data)]
    /\ stdout w' = stdout w /\ heap w' = heap w /\ slept w' = slept w.
Proof.
  intros Hb Hl Hd Ht.
  rewrite (send_check_unfold cmd None data w Hb).
  rewrite (bind_Return _ _ _ _ _ (scripted_send _ _ d w Hb Hl Hd)).
  rewrite take_ge by exact Ht.
  cbn [slice drop take Nat.sub unpack_Bs length Nat.eqb try].
  rewrite take_0. cbn [unpack_Bs length Nat.eqb try].
  rewrite bind_assoc, !bind_ret. cbn [nth].
  rewrite check_loop_done. eexists. split; [reflexivity|]. cbn.
  rewrite app_nil_r || idtac. auto.
Qed.

(** X25. Encoding and decoding of keycodes agree. On a session without
    a conversion table, for a layer, row and column of one byte each and
    a keycode of two bytes: [set_keycode] writes the opcode 0x05 followed
    by layer, row, column and the keycode with its high byte first, and
    returns when that is echoed; and when the device answers opcode 0x04
    with those same five bytes, [get_keycode], which writes the opcode
    with layer, row and column, returns that keycode. *)
Theorem get_keycode_reads_what_set_keycode_packs (self : session)
    (row col : nat) (layer keycode : Z) (d : list (list Z))
    (w : world scripted) :
  conversion_switch_matrix self = None ->
  0 <= layer < 256 -> (row < 256)%nat -> (col < 256)%nat ->
  0 <= keycode < 65536 ->
  (device w
   = fit MSG_LEN (CMD_VIA_DYNAMIC_KEYMAP_SET_KEYCODE
                    :: keycode_bytes layer row col keycode) :: d ->
   fst (set_keycode self (row, col) layer keycode false w) = Return tt
   /\ written (snd (set_keycode self (row, col) layer keycode false w))
      = written w ++ [frame_of (CMD_VIA_DYNAMIC_KEYMAP_SET_KEYCODE
                                  :: keycode_bytes layer row col keycode)])
  /\ (device w
      = fit MSG_LEN (CMD_VIA_DYNAMIC_KEYMAP_GET_KEYCODE
                       :: keycode_bytes layer row col keycode) :: d ->
      fst (get_keycode self (row, col) layer false w) = Return keycode
      /\ written (snd (get_keycode self (row, col) layer false w))
         = written w ++ [frame_of [CMD_VIA_DYNAMIC_KEYMAP_GET_KEYCODE; layer;
                                    Z.of_nat row; Z.of_nat col]]).
Proof.
  intros Hc Hlayer Hrow Hcol Hk.
  assert (Bl : is_byte layer = true) by (apply is_byte_spec; lia).
  assert (Br : is_byte (Z.of_nat row) = true) by (apply is_byte_spec; lia).
  assert (Bc : is_byte (Z.of_nat col) = true) by (apply is_byte_spec; lia).
  assert (Bh : is_byte (keycode / 256) = true).
  { apply is_byte_spec. split; [apply Z.div_pos; lia|].
    apply Z.div_lt_upper_bound; lia. }
  assert (Bm : is_byte (keycode mod 256) = true).
  { apply is_byte_spec. apply Z.mod_pos_bound. lia. }
  split; intros Hd; cbn in Hd.
  - unfold set_keycode, wire_position. rewrite Hc, bind_ret.
    cbn [pack_Bs]. unfold pack_B, pack_H_big. rewrite Bl, Br, Bc.
    replace ((0 <=? keycode) && (keycode <? 65536)) with true by lia.
    cbn [app try]. rewrite bind_ret.
    destruct (scripted_step_no_subcmd CMD_VIA_DYNAMIC_KEYMAP_SET_KEYCODE
                (Some [layer; Z.of_nat row; Z.of_nat col; keycode / 256;
                       keycode mod 256]) _ _ w
                ltac:(cbn; rewrite Bl, Br, Bc, Bh, Bm; reflexivity)
                ltac:(unfold MSG_LEN; cbn; lia) Hd
                ltac:(unfold MSG_LEN; cbn; lia))
      as (w1 & E1 & _ & Hw1 & _).
    rewrite (bind_Return _ _ _ _ _ E1).
    cbn [slice drop take Nat.sub unpack_BBBH_big try]. rewrite !bind_ret.
    split; [reflexivity|exact Hw1].
  - unfold get_keycode, wire_position. rewrite Hc, bind_ret.
    cbn [pack_Bs]. unfold pack_B. rewrite Bl, Br, Bc.
    cbn [app try]. rewrite bind_ret.
    destruct (scripted_step_no_subcmd CMD_VIA_DYNAMIC_KEYMAP_GET_KEYCODE
                (Some [layer; Z.of_nat row; Z.of_nat col]) _ _ w
                ltac:(cbn; rewrite Bl, Br, Bc; reflexivity)
                ltac:(unfold MSG_LEN; cbn; lia) Hd
                ltac:(unfold MSG_LEN; cbn; lia))
      as (w1 & E1 & _ & Hw1 & _).
    rewrite (bind_Return _ _ _ _ _ E1).
    cbn [slice drop take Nat.sub unpack_BBBH_big try]. rewrite !bind_ret.
    split; [|exact Hw1]. cbn [fst ret]. f_equal.
    pose proof (Z.div_mod keycode 256 ltac:(lia)). lia.
Qed.

Lemma get_keycode_reads_what_set_keycode_packs_witness :
  conversion_switch_matrix matrix_session = None
  /\ 0 <= 0 < 256 /\ (1 < 256)%nat /\ (3 < 256)%nat /\ 0 <= 0x0104 < 65536
  /\ fst (get_keycode matrix_session (1, 3)%nat 0 false
            (start scripted
               [fit MSG_LEN (CMD_VIA_DYNAMIC_KEYMAP_GET_KEYCODE
                               :: keycode_bytes 0 1 3 0x0104)] fresh_heap))
     = Return 0x0104.
Proof.
  assert (H0 : 0 <= 0 < 256) by lia.
  assert (H1 : (1 < 256)%nat) by lia.
  assert (H2 : (3 < 256)%nat) by lia.
  assert (H3 : 0 <= 0x0104 < 65536) by lia.
  split; [reflexivity|]. split; [exact H0|]. split; [exact H1|].
  split; [exact H2|]. split; [exact H3|].
  apply (proj2 (get_keycode_reads_what_set_keycode_packs matrix_session 1 3 0
                  0x0104 []
                  (start scripted
                     [fit MSG_LEN (CMD_VIA_DYNAMIC_KEYMAP_GET_KEYCODE
                                     :: keycode_bytes 0 1 3 0x0104)] fresh_heap)
                  eq_refl H0 H1 H2 H3)).
  reflexivity.
Defined.

(** ** The conversion table, by model *)

Section Wire.
Context {T : Transport}.

(** A checked exchange with a well-formed command writes the padded
    command at least once. *)
Lemma send_check_writes (cmd : Z) (subcmd : option Z) (data : option (list Z))
    (w : world T) :
  forallb is_byte (payload_of cmd subcmd data) = true ->
  (length (payload_of cmd subcmd data) <= MSG_LEN)%nat ->
  exists k,
    (1 <= k <= 7)%nat
    /\ written (snd (_send_check_command cmd subcmd data w))
       = written w ++ replicate k (frame_of (payload_of cmd subcmd data)).
Proof.
  intros Hb Hl. rewrite (send_check_unfold cmd subcmd data w Hb).
  rewrite (bind_Return _ _ _ _ _ (send_command_ok _ w Hb Hl)).
  set (frame := frame_of (payload_of cmd subcmd data)).
  set (raw := answer w frame).
  assert (Hrest : resends (0 + S flush_limit) frame
            (bind (T := T)
               (match subcmd with
                | None =>
                    bind (try (unpack_Bs 1 (slice raw 0 1)) StructError)
                         (fun r => ret (nth 0 r 0, None))
                | Some _ =>
                    bind (try (unpack_BB (slice raw 0 2)) StructError)
                         (fun '(a, b) => ret (a, Some b))
                end)
               (fun '(rcmd, rsubcmd) =>
                  check_loop (S flush_limit) (payload_of cmd subcmd data) cmd
                    subcmd raw rcmd rsubcmd 0))).
  { apply resends_bind; [|intros [a b]; apply resends_check_loop].
    destruct subcmd.
    - change O with (0 + 0)%nat. apply resends_bind; [apply resends_try|].
      intros [a b]. apply resends_silent. reflexivity.
    - change O with (0 + 0)%nat. apply resends_bind; [apply resends_try|].
      intros r. apply resends_silent. reflexivity. }
  destruct (Hrest (after_exchange w frame)) as (k & Hk & E).
  exists (S k). split; [unfold flush_limit in Hk; lia|].
  rewrite E. cbn [after_exchange written replicate].
  rewrite <- app_assoc. reflexivity.
Qed.

Lemma get_keycode_wire (self : session) (matrix : position) (row col : nat)
    (layer : Z) (dont_convert : bool) (w : world T) :
  wire_position self matrix dont_convert w = (Return (row, col), w) ->
  0 <= layer < 256 -> (row < 256)%nat -> (col < 256)%nat ->
  exists k,
    (1 <= k <= 7)%nat
    /\ written (snd (get_keycode self matrix layer dont_convert w))
       = written w
         ++ replicate k (frame_of [CMD_VIA_DYNAMIC_KEYMAP_GET_KEYCODE; layer;
                                   Z.of_nat row; Z.of_nat col]).
Proof.
  intros Hw Hlayer Hrow Hcol.
  assert (Bl : is_byte layer = true) by (apply is_byte_spec; lia).
  assert (Br : is_byte (Z.of_nat row) = true) by (apply is_byte_spec; lia).
  assert (Bc : is_byte (Z.of_nat col) = true) by (apply is_byte_spec; lia).
  unfold get_keycode. rewrite (bind_Return _ _ _ _ _ Hw).
  cbn [pack_Bs]. unfold pack_B. rewrite Bl, Br, Bc. cbn [app try]. rewrite bind_ret.
  destruct (send_check_writes CMD_VIA_DYNAMIC_KEYMAP_GET_KEYCODE None
              (Some [layer; Z.of_nat row; Z.of_nat col]) w
              ltac:(cbn; rewrite Bl, Br, Bc; reflexivity)
              ltac:(unfold MSG_LEN; cbn; lia)) as (k & Hk & E).
  exists k. split; [exact Hk|]. unfold bind.
  destruct (_send_check_command _ _ _ w) as [[raw|e|] w1]; cbn [snd] in E |- *;
    try exact E.
  destruct (unpack_BBBH_big _) as [[[[a b] c] d]|]; exact E.
Qed.

Lemma set_keycode_wire (self : session) (matrix : position) (row col : nat)
    (layer keycode : Z) (dont_convert : bool) (w : world T) :
  wire_position self matrix dont_convert w = (Return (row, col), w) ->
  0 <= layer < 256 -> (row < 256)%nat -> (col < 256)%nat ->
  0 <= keycode < 65536 ->
  exists k,
    (1 <= k <= 7)%nat
    /\ written (snd (set_keycode self matrix layer keycode dont_convert w))
       = written w
         ++ replicate k (frame_of [CMD_VIA_DYNAMIC_KEYMAP_SET_KEYCODE; layer;
                                   Z.of_nat row; Z.of_nat col;
                                   keycode / 256; keycode mod 256]).
Proof.
  intros Hw Hlayer Hrow Hcol Hk.
  assert (Bl : is_byte layer = true) by (apply is_byte_spec; lia).
  assert (Br : is_byte (Z.of_nat row) = true) by (apply is_byte_spec; lia).
  assert (Bc : is_byte (Z.of_nat col) = true) by (apply is_byte_spec; lia).
  assert (Bh : is_byte (keycode / 256) = true).
  { apply is_byte_spec. split; [apply Z.div_pos; lia|].
    apply Z.div_lt_upper_bound; lia. }
  assert (Bm : is_byte (keycode mod 256) = true).
  { apply is_byte_spec. apply Z.mod_pos_bound. lia. }
  unfold set_keycode. rewrite (bind_Return _ _ _ _ _ Hw).
  cbn [pack_Bs]. unfold pack_B, pack_H_big. rewrite Bl, Br, Bc.
  replace ((0 <=? keycode) && (keycode <? 65536)) with true by lia.
  cbn [app try]. rewrite bind_ret.
  destruct (send_check_writes CMD_VIA_DYNAMIC_KEYMAP_SET_KEYCODE None
              (Some [layer; Z.of_nat row; Z.of_nat col; keycode / 256;
                     keycode mod 256]) w
              ltac:(cbn; rewrite Bl, Br, Bc, Bh, Bm; reflexivity)
              ltac:(unfold MSG_LEN; cbn; lia)) as (k & Hk' & E).
  exists k. split; [exact Hk'|]. unfold bind.
  destruct (_send_check_command _ _ _ w) as [[raw|e|] w1]; cbn [snd] in E |- *;
    try exact E.
  destruct (unpack_BBBH_big _) as [[[[a b] c] d]|]; exact E.
Qed.
End Wire.

(** C3, as the code has it. After construction it is the PI500PLUS
    session that has no conversion table: positions are reported as they
    came, and for a layer, row and column of one byte each (and a keycode
    of two bytes) [get_keycode] and [set_keycode] write the report that
    carries the opcode, the layer, then the caller's row and the caller's
    column (then the keycode, high byte first), whether or not
    [dont_convert] is set. The PI500 session holds the table
    SWITCH_MATRIX_CONVERSION_PI500_ISO, whatever the country code:
    reports convert a position from the switch matrix map to that table;
    requests convert the caller's position from that table to the switch
    matrix map, raise ValueError with nothing written when it is not in
    the table, and otherwise write the report with the converted row and
    column. The report is written at least once and, with resends, at
    most seven times. When the table has no duplicates and is as long as
    the map, going from the map to the table and back recovers every
    position of the map. *)
Theorem conversion_table_by_model (tbl : switch_matrix_module)
    (pv : option variant_t) (cc : variant_t) (refs : list nat) :
  let plus := session_of tbl PI500PLUS pv cc refs in
  let base := session_of tbl PI500 pv cc refs in
  let sm := SWITCH_MATRIX_PI500 tbl in
  let conv := SWITCH_MATRIX_CONVERSION_PI500_ISO tbl in
  (conversion_switch_matrix plus = None
   /\ forall (T : Transport) (row col : nat) (layer keycode : Z)
        (dont_convert : bool) (w : world T),
        reported_position plus (row, col) w = (Return (row, col), w)
        /\ (0 <= layer < 256 -> (row < 256)%nat -> (col < 256)%nat ->
            0 <= keycode < 65536 ->
            (exists k,
               (1 <= k <= 7)%nat
               /\ written (snd (get_keycode plus (row, col) layer dont_convert w))
                  = written w
                    ++ replicate k
                         (frame_of [CMD_VIA_DYNAMIC_KEYMAP_GET_KEYCODE; layer;
                                    Z.of_nat row; Z.of_nat col]))
            /\ (exists k,
                  (1 <= k <= 7)%nat
                  /\ written (snd (set_keycode plus (row, col) layer keycode
                                     dont_convert w))
                     = written w
                       ++ replicate k
                            (frame_of [CMD_VIA_DYNAMIC_KEYMAP_SET_KEYCODE; layer;
                                       Z.of_nat row; Z.of_nat col;
                                       keycode / 256; keycode mod 256]))))
  /\ (conversion_switch_matrix base = Some conv
      /\ switch_matrix base = Some sm
      /\ forall (T : Transport) (matrix : position) (layer keycode : Z)
           (w : world T),
           reported_position base matrix w
           = (match convert_switch_matrix matrix sm conv with
              | Some p => Return p
              | None => Raise ValueError
              end, w)
           /\ (convert_switch_matrix matrix conv sm = None ->
               get_keycode base matrix layer false w = (Raise ValueError, w)
               /\ set_keycode base matrix layer keycode false w
                  = (Raise ValueError, w))
           /\ (forall row col : nat,
                 convert_switch_matrix matrix conv sm = Some (row, col) ->
                 0 <= layer < 256 -> (row < 256)%nat -> (col < 256)%nat ->
                 0 <= keycode < 65536 ->
                 (exists k,
                    (1 <= k <= 7)%nat
                    /\ written (snd (get_keycode base matrix layer false w))
                       = written w
                         ++ replicate k
                              (frame_of [CMD_VIA_DYNAMIC_KEYMAP_GET_KEYCODE; layer;
                                         Z.of_nat row; Z.of_nat col]))
                 /\ (exists k,
                       (1 <= k <= 7)%nat
                       /\ written (snd (set_keycode base matrix layer keycode
                                          false w))
                          = written w
                            ++ replicate k
                                 (frame_of [CMD_VIA_DYNAMIC_KEYMAP_SET_KEYCODE;
                                            layer; Z.of_nat row; Z.of_nat col;
                                            keycode / 256; keycode mod 256]))))
  /\ (NoDup conv -> (length sm <= length conv)%nat ->
      forall p, p ∈ sm ->
        exists q, convert_switch_matrix p sm conv = Some q
                  /\ convert_switch_matrix q conv sm = Some p).
Proof.
  intros plus base sm conv. split; [|split].
  - split; [reflexivity|]. intros T0 row col layer keycode dc w.
    split; [reflexivity|]. intros Hl Hr Hc Hk.
    assert (Hw : wire_position plus (row, col) dc w = (Return (row, col), w))
      by reflexivity.
    split.
    + apply (get_keycode_wire plus (row, col) row col layer dc w Hw Hl Hr Hc).
    + apply (set_keycode_wire plus (row, col) row col layer keycode dc w Hw
               Hl Hr Hc Hk).
  - assert (Hbase : base = mkSession PI500 (Some cc) (Some sm) (Some conv) refs)
      by (subst base sm conv; destruct cc; reflexivity).
    rewrite Hbase. clear Hbase.
    split; [reflexivity|]. split; [reflexivity|].
    intros T0 mx layer keycode w. split; [|split].
    + unfold reported_position, the_switch_matrix.
      cbn [conversion_switch_matrix switch_matrix].
      unfold bind, try, ret, raise.
      destruct (convert_switch_matrix mx sm conv) as [[r c]|]; reflexivity.
    + intros Hn. unfold get_keycode, set_keycode, wire_position,
        the_switch_matrix.
      cbn [conversion_switch_matrix switch_matrix].
      unfold bind, try, ret, raise. rewrite Hn. split; reflexivity.
    + intros row col Hs Hl Hr Hc Hk.
      assert (Hw : wire_position
                     (mkSession PI500 (Some cc) (Some sm) (Some conv) refs)
                     mx false w = (Return (row, col), w)).
      { unfold wire_position, the_switch_matrix.
        cbn [conversion_switch_matrix switch_matrix].
        unfold bind, try, ret, raise. rewrite Hs. reflexivity. }
      split.
      * apply (get_keycode_wire _ mx row col layer false w Hw Hl Hr Hc).
      * apply (set_keycode_wire _ mx row col layer keycode false w Hw
                 Hl Hr Hc Hk).
  - intros Hnd Hlen p Hp. apply convert_round_trip; assumption.
Qed.

Lemma sample_table_NoDup : NoDup (SWITCH_MATRIX_CONVERSION_PI500_ISO sample_tables).
Proof. apply (bool_decide_unpack _). vm_compute. exact I. Qed.

Lemma conversion_table_by_model_witness :
  NoDup (SWITCH_MATRIX_CONVERSION_PI500_ISO sample_tables)
  /\ (length (SWITCH_MATRIX_PI500 sample_tables)
      <= length (SWITCH_MATRIX_CONVERSION_PI500_ISO sample_tables))%nat
  /\ conversion_switch_matrix (session_of sample_tables PI500PLUS (Some ANSI) ISO [])
     = None
  /\ conversion_switch_matrix (session_of sample_tables PI500 None JIS [])
     = Some (SWITCH_MATRIX_CONVERSION_PI500_ISO sample_tables)
  /\ (exists k,
        (1 <= k <= 7)%nat
        /\ written (snd (get_keycode
                           (session_of sample_tables PI500PLUS (Some ANSI) ISO [])
                           (0, 1)%nat 2 false
                           (start scripted [good_reply] fresh_heap)))
           = written (start scripted [good_reply] fresh_heap)
             ++ replicate k (frame_of [CMD_VIA_DYNAMIC_KEYMAP_GET_KEYCODE; 2;
                                       Z.of_nat 0; Z.of_nat 1]))
  /\ (forall p, p ∈ SWITCH_MATRIX_PI500 sample_tables ->
        exists q,
          convert_switch_matrix p (SWITCH_MATRIX_PI500 sample_tables)
            (SWITCH_MATRIX_CONVERSION_PI500_ISO sample_tables) = Some q
          /\ convert_switch_matrix q
               (SWITCH_MATRIX_CONVERSION_PI500_ISO sample_tables)
               (SWITCH_MATRIX_PI500 sample_tables) = Some p).
Proof.
  assert (Hlen : (length (SWITCH_MATRIX_PI500 sample_tables)
                  <= length (SWITCH_MATRIX_CONVERSION_PI500_ISO sample_tables))%nat)
    by (simpl; lia).
  split; [exact sample_table_NoDup|]. split; [exact Hlen|].
  pose proof (conversion_table_by_model sample_tables (Some ANSI) ISO [])
    as (HA & _ & HC).
  pose proof (conversion_table_by_model sample_tables None JIS [])
    as (_ & HB & _).
  split; [exact (proj1 HA)|]. split; [exact (proj1 HB)|]. split.
  - destruct HA as [_ HA].
    apply (proj2 (HA scripted 0%nat 1%nat 2 0 false
                    (start scripted [good_reply] fresh_heap)));
      [lia|lia|lia|lia].
  - exact (HC sample_table_NoDup Hlen).
Defined.

(** C3 as it was stated does not hold: a PI500 session does get a
    conversion table, and a request made through it reaches the wire
    converted (here the position [0, 0] goes out as row 0, column 1),
    while a PI500PLUS session has none. And the way back is not
    guaranteed by the code: with a table that names a position twice,
    the position [0, 1] of the map is reported as [1, 1], and a request
    for [1, 1] goes out as row 0, column 0; with a table shorter than the
    map, reporting the position [0, 1] raises ValueError. *)
Lemma conversion_table_model_roles :
  conversion_switch_matrix (session_of sample_tables PI500 None ISO [])
  = Some (SWITCH_MATRIX_CONVERSION_PI500_ISO sample_tables)
  /\ conversion_switch_matrix (session_of sample_tables PI500PLUS (Some ISO) ISO [])
     = None
  /\ written (snd (get_keycode (session_of sample_tables PI500 None ISO [])
                     (0, 0)%nat 0 false
                     (start scripted [good_reply] fresh_heap)))
     = [frame_of [CMD_VIA_DYNAMIC_KEYMAP_GET_KEYCODE; 0; 0; 1]]
  /\ fst (reported_position (session_of duplicate_tables PI500 None ISO [])
            (0, 1)%nat (start scripted [good_reply] fresh_heap))
     = Return (1, 1)%nat
  /\ written (snd (get_keycode (session_of duplicate_tables PI500 None ISO [])
                     (1, 1)%nat 0 false
                     (start scripted [good_reply] fresh_heap)))
     = [frame_of [CMD_VIA_DYNAMIC_KEYMAP_GET_KEYCODE; 0; 0; 0]]
  /\ fst (reported_position (session_of short_tables PI500 None ISO [])
            (0, 1)%nat (start scripted [good_reply] fresh_heap))
     = Raise ValueError.
Proof. vm_compute. repeat split; reflexivity. Qed.
